(** * Session lifecycle and resolution of chuk-mcp-ios

    A shallow embedding of [chuk_mcp_ios/core/session_manager.py]
    ([UnifiedSessionManager]) and of the target resolver of
    [chuk_mcp_ios/core/utilities_manager.py] ([UnifiedUtilitiesManager]),
    together with the properties the specification states about them.

    Conventions of the embedding:
    - a [string] is a Python [str] whose characters are code points below
      256;
    - a Python [dict] and a directory listing are association lists in
      insertion order (module [OD]); the file system is a finite map from
      directory paths to listings;
    - a Python exception is a value of type [exn]; a function that may raise
      returns a [result A], either [Ok a] or [Raise e];
    - everything the code reads from outside the process (wall clock,
      random bits, outcome of opening a file for writing, outcome of device
      preparation) is an explicit argument. *)

From Stdlib Require Import ZArith String Ascii List Lia Bool DecimalString DecimalZ Sorted.
From stdpp Require Import gmap strings list fin_maps.

Set Warnings "-register-all".
Local Open Scope string_scope.
Local Open Scope Z_scope.

(* ===================================================================== *)
(** ** Python strings *)
(* ===================================================================== *)

Module PyStr.

(** [s.count(c)] for a one-character [c]. *)
Fixpoint count (c : ascii) (s : string) : nat :=
  match s with
  | EmptyString => 0%nat
  | String a s' => ((if Ascii.eqb a c then 1 else 0) + count c s')%nat
  end.

(** [c in s] for a one-character [c]. *)
Fixpoint has_char (c : ascii) (s : string) : bool :=
  match s with
  | EmptyString => false
  | String a s' => Ascii.eqb a c || has_char c s'
  end.

(** [sub in s] for strings. *)
Definition contains (sub s : string) : bool :=
  match String.index 0 sub s with Some _ => true | None => false end.

(** [s.startswith(p)]. *)
Definition startswith (p s : string) : bool := String.prefix p s.

(** [s.startswith((p1, p2, ...))]. *)
Definition startswith_any (ps : list string) (s : string) : bool :=
  existsb (fun p => startswith p s) ps.

(** [s.endswith(suf)]. *)
Definition endswith (suf s : string) : bool :=
  (String.length suf <=? String.length s)%nat
  && String.eqb
       (String.substring (String.length s - String.length suf)
                         (String.length suf) s) suf.

(** [s[:n]]. *)
Fixpoint take (n : nat) (s : string) : string :=
  match n, s with
  | S n', String a s' => String a (take n' s')
  | _, _ => EmptyString
  end.

(** [s[n:]]. *)
Fixpoint drop (n : nat) (s : string) : string :=
  match n, s with
  | S n', String _ s' => drop n' s'
  | _, _ => s
  end.

(** [s[a:b]] for [0 <= a <= b]. *)
Definition slice (a b : nat) (s : string) : string := take (b - a) (drop a s).

(** [str(z)] for an [int]. *)
Definition of_int (z : Z) : string := NilZero.string_of_int (Z.to_int z).

Definition digit (d : Z) : ascii := ascii_of_nat (48 + Z.to_nat d).

Definition hex_digit (d : Z) : ascii :=
  if d <? 10 then ascii_of_nat (48 + Z.to_nat d)
  else ascii_of_nat (87 + Z.to_nat d).

(** [f"{v:0{w}d}"] for [0 <= v < 10^w]. *)
Fixpoint dec_pad (w : nat) (v : Z) : string :=
  match w with
  | O => EmptyString
  | S w' => dec_pad w' (v / 10) ++ String (digit (v mod 10)) EmptyString
  end.

(** [f"{v:0{w}x}"] for [0 <= v < 16^w]. *)
Fixpoint hex_pad (w : nat) (v : Z) : string :=
  match w with
  | O => EmptyString
  | S w' => hex_pad w' (v / 16) ++ String (hex_digit (v mod 16)) EmptyString
  end.

Definition digit_val (c : ascii) : option Z :=
  let n := nat_of_ascii c in
  if ((48 <=? n) && (n <=? 57))%nat then Some (Z.of_nat n - 48) else None.

(** Reads exactly [w] decimal digits from the front of [s]. *)
Fixpoint take_digits (w : nat) (s : string) (acc : Z) : option (Z * string) :=
  match w with
  | O => Some (acc, s)
  | S w' =>
      match s with
      | String c s' =>
          match digit_val c with
          | Some d => take_digits w' s' (acc * 10 + d)
          | None => None
          end
      | EmptyString => None
      end
  end.

(** Consumes the character [c] from the front of [s]. *)
Definition expect (c : ascii) (s : string) : option string :=
  match s with
  | String a s' => if Ascii.eqb a c then Some s' else None
  | EmptyString => None
  end.

(** [s.encode('utf-8')].  A [string] stands for a [str] whose characters
    are code points below 256, so a character from 128 on takes two
    bytes. *)
Fixpoint utf8 (s : string) : string :=
  match s with
  | EmptyString => EmptyString
  | String c s' =>
      let n := nat_of_ascii c in
      if (n <? 128)%nat then String c (utf8 s')
      else String (ascii_of_nat (192 + n / 64))
                  (String (ascii_of_nat (128 + n mod 64)) (utf8 s'))
  end.

End PyStr.

(* ===================================================================== *)
(** ** Insertion-ordered dictionaries *)
(* ===================================================================== *)

(** Python's [dict] keeps insertion order; assignment to an existing key
    keeps the key's position.  The same structure models a directory
    listing, whose order is the order [Path.glob] yields. *)
Module OD.
Section Dict.
Context {V : Type}.

Fixpoint get (k : string) (d : list (string * V)) : option V :=
  match d with
  | [] => None
  | (k', v) :: d' => if String.eqb k' k then Some v else get k d'
  end.

Definition mem (k : string) (d : list (string * V)) : bool :=
  match get k d with Some _ => true | None => false end.

(** [d[k] = v] *)
Fixpoint set (k : string) (v : V) (d : list (string * V)) : list (string * V) :=
  match d with
  | [] => [(k, v)]
  | (k', v') :: d' =>
      if String.eqb k' k then (k', v) :: d' else (k', v') :: set k v d'
  end.

(** [del d[k]] *)
Fixpoint del (k : string) (d : list (string * V)) : list (string * V) :=
  match d with
  | [] => []
  | (k', v') :: d' =>
      if String.eqb k' k then del k d' else (k', v') :: del k d'
  end.

Definition keys (d : list (string * V)) : list string := map fst d.

End Dict.
End OD.

(* ===================================================================== *)
(** ** [datetime] *)
(* ===================================================================== *)

(** A naive [datetime.datetime]: the calendar fields the object stores. *)
Record datetime := mk_datetime {
  year : Z; month : Z; day : Z;
  hour : Z; minute : Z; second : Z; microsecond : Z
}.

Module DT.

Definition is_leap (y : Z) : bool :=
  ((y mod 4 =? 0) && negb (y mod 100 =? 0)) || (y mod 400 =? 0).

Definition days_in_month (y m : Z) : Z :=
  if m =? 2 then (if is_leap y then 29 else 28)
  else if (m =? 4) || (m =? 6) || (m =? 9) || (m =? 11) then 30
  else 31.

(** The range checks of the [datetime] constructor. *)
Definition valid (d : datetime) : bool :=
  (1 <=? year d) && (year d <=? 9999)
  && (1 <=? month d) && (month d <=? 12)
  && (1 <=? day d) && (day d <=? days_in_month (year d) (month d))
  && (0 <=? hour d) && (hour d <? 24)
  && (0 <=? minute d) && (minute d <? 60)
  && (0 <=? second d) && (second d <? 60)
  && (0 <=? microsecond d) && (microsecond d <? 1000000).

Definition key (d : datetime) : list Z :=
  [year d; month d; day d; hour d; minute d; second d; microsecond d].

Fixpoint lex_lt (a b : list Z) : bool :=
  match a, b with
  | x :: a', y :: b' => (x <? y) || ((x =? y) && lex_lt a' b')
  | _, _ => false
  end.

(** [a < b] on naive datetimes: field-wise lexicographic order. *)
Definition lt (a b : datetime) : bool := lex_lt (key a) (key b).

(** Days since 1970-01-01 of a proleptic Gregorian date. *)
Definition days_from_civil (y m d : Z) : Z :=
  let y' := if m <=? 2 then y - 1 else y in
  let era := y' / 400 in
  let yoe := y' - era * 400 in
  let doy := (153 * (m + (if 2 <? m then -3 else 9)) + 2) / 5 + d - 1 in
  let doe := yoe * 365 + yoe / 4 - yoe / 100 + doy in
  era * 146097 + doe - 719468.

Definition civil_from_days (z : Z) : Z * Z * Z :=
  let z := z + 719468 in
  let era := z / 146097 in
  let doe := z - era * 146097 in
  let yoe := (doe - doe / 1460 + doe / 36524 - doe / 146096) / 365 in
  let y := yoe + era * 400 in
  let doy := doe - (365 * yoe + yoe / 4 - yoe / 100) in
  let mp := (5 * doy + 2) / 153 in
  let d := doy - (153 * mp + 2) / 5 + 1 in
  let m := if mp <? 10 then mp + 3 else mp - 9 in
  (if m <=? 2 then y + 1 else y, m, d).

(** Microseconds since 1970-01-01T00:00:00 on the naive time line. *)
Definition to_micros (d : datetime) : Z :=
  (((days_from_civil (year d) (month d) (day d) * 24 + hour d) * 60
    + minute d) * 60 + second d) * 1000000 + microsecond d.

Definition of_micros (us : Z) : datetime :=
  let secs := us / 1000000 in
  let days := secs / 86400 in
  let sod := secs mod 86400 in
  let '(y, m, d) := civil_from_days days in
  mk_datetime y m d (sod / 3600) (sod mod 3600 / 60) (sod mod 60)
              (us mod 1000000).

(** [d - timedelta(hours=h)] *)
Definition sub_hours (d : datetime) (h : Z) : datetime :=
  of_micros (to_micros d - h * 3600 * 1000000).

(** [(a - b).total_seconds() > secs] for an integer [secs].
    [total_seconds()] is the float nearest to the exact number of seconds
    (the quotient of two integers, correctly rounded to 53 significant bits,
    ties to even); Python compares that float with the integer exactly.
    The float is kept as a pair [(q, e)] that stands for [q * 2^e]. *)
Definition round_ratio (n d : Z) : Z * Z :=
  let t := Z.log2 n - Z.log2 d in
  let t := if n * 2 ^ Z.max 0 (- t) <? d * 2 ^ Z.max 0 t then t - 1 else t in
  let e := t - 52 in
  let num := n * 2 ^ Z.max 0 (- e) in
  let den := d * 2 ^ Z.max 0 e in
  let q := num / den in
  let r := num mod den in
  let q := if (den <? 2 * r) || ((den =? 2 * r) && Z.odd q) then q + 1 else q in
  (q, e).

(** [secs < q * 2^e] *)
Definition lt_float (secs : Z) (f : Z * Z) : bool :=
  let '(q, e) := f in
  if 0 <=? e then secs <? q * 2 ^ e else secs * 2 ^ (- e) <? q.

(** [q * 2^e < secs] *)
Definition float_lt (f : Z * Z) (secs : Z) : bool :=
  let '(q, e) := f in
  if 0 <=? e then q * 2 ^ e <? secs else q <? secs * 2 ^ (- e).

(** [timedelta(microseconds=us).total_seconds() > secs] *)
Definition total_seconds_gt (us secs : Z) : bool :=
  if us =? 0 then secs <? 0
  else if 0 <? us then lt_float secs (round_ratio us 1000000)
  else float_lt (round_ratio (- us) 1000000) (- secs).

Definition age_exceeds (a b : datetime) (secs : Z) : bool :=
  total_seconds_gt (to_micros a - to_micros b) secs.

(** Whether [d - timedelta(hours=h)] is a [datetime]: Python raises
    [OverflowError] when the result leaves the years 1 to 9999. *)
Definition sub_hours_in_range (d : datetime) (h : Z) : bool :=
  valid d && valid (sub_hours d h).

(** [d.isoformat()]: [YYYY-MM-DDTHH:MM:SS], followed by [.ffffff] when the
    microsecond field is not zero. *)
Definition isoformat (d : datetime) : string :=
  PyStr.dec_pad 4 (year d) ++ "-" ++ PyStr.dec_pad 2 (month d) ++ "-"
  ++ PyStr.dec_pad 2 (day d) ++ "T"
  ++ PyStr.dec_pad 2 (hour d) ++ ":" ++ PyStr.dec_pad 2 (minute d) ++ ":"
  ++ PyStr.dec_pad 2 (second d)
  ++ (if microsecond d =? 0 then ""
      else "." ++ PyStr.dec_pad 6 (microsecond d)).

(** Outcome of [datetime.fromisoformat(s)]: a naive datetime, a datetime
    carrying a UTC offset, or [ValueError]. *)
Inductive parsed := Naive (d : datetime) | Aware | Invalid.

(** [datetime.fromisoformat] is the one of CPython 3.11
    ([Modules/_datetimemodule.c]), which reads the UTF-8 bytes of its
    argument ([PyStr.utf8]). *)

Definition is_digit (c : ascii) : bool :=
  match PyStr.digit_val c with Some _ => true | None => false end.

(** [*p]: the byte at the front, or the terminating NUL. *)
Definition head (s : string) : ascii :=
  match s with String c _ => c | EmptyString => "000"%char end.

(** [p[i]] *)
Definition nth (i : nat) (s : string) : ascii := head (PyStr.drop i s).

Fixpoint count_digits (s : string) : nat :=
  match s with
  | String c s' => if is_digit c then S (count_digits s') else 0%nat
  | EmptyString => 0%nat
  end.

(** [_find_isoformat_datetime_separator]; [None] is its result [-1]. *)
Definition find_separator (dtstr : string) : option nat :=
  let len := String.length dtstr in
  if (len =? 7)%nat then Some 7%nat
  else if Ascii.eqb (nth 4 dtstr) "-" then
    if Ascii.eqb (nth 5 dtstr) "W" then
      if (len <? 8)%nat then None
      else if (8 <? len)%nat && Ascii.eqb (nth 8 dtstr) "-" then
        if (len =? 9)%nat then None
        else if (10 <? len)%nat && is_digit (nth 10 dtstr) then Some 8%nat
        else Some 10%nat
      else Some 8%nat
    else Some 10%nat
  else if Ascii.eqb (nth 4 dtstr) "W" then
    let idx := (7 + count_digits (PyStr.drop 7 dtstr))%nat in
    if (idx <? 9)%nat then Some idx
    else if Nat.even idx then Some 7%nat else Some 8%nat
  else Some 8%nat.

(** Monday is 0. *)
Definition weekday (y m d : Z) : Z := (days_from_civil y m d + 3) mod 7.

(** [iso_to_ymd]: the calendar date of day [iso_day] of week [iso_week] of
    the ISO year [iso_year]. *)
Definition iso_to_ymd (iso_year iso_week iso_day : Z) : option (Z * Z * Z) :=
  let first_weekday := weekday iso_year 1 1 in
  if ((iso_week <=? 0) || (53 <=? iso_week))
     && negb ((iso_week =? 53)
              && ((first_weekday =? 3)
                  || ((first_weekday =? 2) && is_leap iso_year)))
  then None
  else if (iso_day <=? 0) || (8 <=? iso_day) then None
  else
    let week1_monday :=
      days_from_civil iso_year 1 1 - first_weekday
      + (if 3 <? first_weekday then 7 else 0) in
    Some (civil_from_days (week1_monday + (iso_week - 1) * 7 + iso_day - 1)).

(** [parse_isoformat_date], told where the date ends. *)
Definition parse_date (dtstr : string) (len : option nat) : option (Z * Z * Z) :=
  '(year, p) ← PyStr.take_digits 4 dtstr 0;
  let uses_separator := Ascii.eqb (head p) "-" in
  let p := if uses_separator then PyStr.drop 1 p else p in
  if Ascii.eqb (head p) "W" then
    '(iso_week, p) ← PyStr.take_digits 2 (PyStr.drop 1 p) 0;
    iso_day ←
      (if match len with
          | Some len => (String.length dtstr - String.length p <? len)%nat
          | None => true
          end
       then
         p ← (if uses_separator then PyStr.expect "-" p else Some p);
         '(iso_day, _) ← PyStr.take_digits 1 p 0;
         Some iso_day
       else Some 1);
    iso_to_ymd year iso_week iso_day
  else
    '(month, p) ← PyStr.take_digits 2 p 0;
    p ← (if uses_separator then PyStr.expect "-" p else Some p);
    '(day, _) ← PyStr.take_digits 2 p 0;
    Some (year, month, day).

(** How the loop over [HH], [MM], [SS] of [parse_hh_mm_ss_ff] ends: with
    [return c != '\0'], or at the fraction. *)
Inductive hms_exit :=
| Return (rv : bool)
| Fraction (p : string) (len_remains : Z).

(** The loop of [parse_hh_mm_ss_ff]: [p] is the input from the cursor on and
    [n] the distance from the cursor to [p_end]. *)
Fixpoint parse_hh_mm_ss (first : bool) (todo : nat) (has_separator : bool)
  (p : string) (n : Z) : option (list Z * hms_exit) :=
  match todo with
  | O => Some ([], Fraction p n)
  | S todo' =>
      '(v, p1) ← PyStr.take_digits 2 p 0;
      let c := head p1 in
      let p2 := PyStr.drop 1 p1 in
      let n2 := n - 3 in
      let has_separator := if first then Ascii.eqb c ":" else has_separator in
      if n2 <=? 0 then Some ([v], Return (negb (Ascii.eqb c "000")))
      else if has_separator && Ascii.eqb c ":" then
        '(vs, x) ← parse_hh_mm_ss false todo' has_separator p2 n2;
        Some (v :: vs, x)
      else if Ascii.eqb c "." || Ascii.eqb c "," then Some ([v], Fraction p2 n2)
      else if negb has_separator then
        '(vs, x) ← parse_hh_mm_ss false todo' has_separator p1 (n2 + 1);
        Some (v :: vs, x)
      else None
  end.

Definition skip_digits (s : string) : string := PyStr.drop (count_digits s) s.

(** [parse_hh_mm_ss_ff]: the result [rv] (0 or 1) and the four fields. *)
Definition parse_hh_mm_ss_ff (p : string) (n : Z)
  : option (bool * (Z * Z * Z * Z)) :=
  '(vs, x) ← parse_hh_mm_ss true 3 true p n;
  let hour := List.nth 0 vs 0 in
  let minute := List.nth 1 vs 0 in
  let second := List.nth 2 vs 0 in
  match x with
  | Return rv => Some (rv, (hour, minute, second, 0))
  | Fraction p len_remains =>
      let to_parse := if 6 <=? len_remains then 6 else len_remains in
      '(microsecond, p) ← PyStr.take_digits (Z.to_nat to_parse) p 0;
      let microsecond := microsecond * 10 ^ (6 - to_parse) in
      let p := skip_digits p in
      Some (negb (Ascii.eqb (head p) "000"),
            (hour, minute, second, microsecond))
  end.

Definition is_tz_char (c : ascii) : bool :=
  Ascii.eqb c "Z" || Ascii.eqb c "+" || Ascii.eqb c "-".

Fixpoint find_tz_from (s : string) : nat :=
  match s with
  | String c s' => if is_tz_char c then 0%nat else S (find_tz_from s')
  | EmptyString => 0%nat
  end.

(** Where the [do ... while] loop of [parse_isoformat_time] leaves
    [tzinfo_pos]: it looks at the first byte before it looks at the
    length. *)
Definition find_tz (s : string) : nat :=
  match s with EmptyString => 1%nat | _ => find_tz_from s end.

(** [parse_isoformat_time]: the four fields and, when there is one, the UTC
    offset in seconds and microseconds. *)
Definition parse_time (dtstr : string)
  : option (Z * Z * Z * Z * option (Z * Z)) :=
  let dtlen := String.length dtstr in
  let tzinfo_pos := find_tz dtstr in
  match parse_hh_mm_ss_ff dtstr (Z.of_nat tzinfo_pos) with
  | None => None
  | Some (rv, t) =>
      if (tzinfo_pos =? dtlen)%nat then
        if rv : bool then None else Some (t, None)
      else
        let c := nth tzinfo_pos dtstr in
        if Ascii.eqb c "Z" then
          if Ascii.eqb (nth (S tzinfo_pos) dtstr) "000"
          then Some (t, Some (0, 0))
          else None
        else
          let tzsign := if Ascii.eqb c "-" then -1 else 1 in
          match parse_hh_mm_ss_ff (PyStr.drop (S tzinfo_pos) dtstr)
                  (Z.of_nat dtlen - Z.of_nat (S tzinfo_pos)) with
          | None => None
          | Some (rv, (tzhour, tzminute, tzsecond, tzmicrosecond)) =>
              if rv : bool then None
              else Some (t, Some (tzsign * (tzhour * 3600 + tzminute * 60
                                            + tzsecond),
                                  tzsign * tzmicrosecond))
          end
      end.

(** The bytes the separator character takes, from its first byte. *)
Definition separator_width (c : ascii) : nat :=
  let n := nat_of_ascii c in
  if (n <? 128)%nat then 1%nat
  else if (224 <=? n)%nat && (n <? 240)%nat then 3%nat
  else if (240 <=? n)%nat then 4%nat
  else 2%nat.

(** [new_timezone] accepts an offset strictly between minus and plus 24
    hours; an offset of zero seconds is UTC whatever its microseconds. *)
Definition tz_ok (tz : Z * Z) : bool :=
  let '(tzoffset, tzmicrosecond) := tz in
  (tzoffset =? 0)
  || ((-86400000000 <? tzoffset * 1000000 + tzmicrosecond)
      && (tzoffset * 1000000 + tzmicrosecond <? 86400000000)).

(** [datetime.fromisoformat(s)] *)
Definition fromisoformat (s : string) : parsed :=
  if (String.length s <? 7)%nat then Invalid
  else
    let dtstr := PyStr.utf8 s in
    let len := String.length dtstr in
    let separator_location := find_separator dtstr in
    match parse_date dtstr separator_location with
    | None => Invalid
    | Some (y, m, d) =>
        match separator_location with
        | Some sep =>
            if (sep <? len)%nat then
              let p := PyStr.drop sep dtstr in
              match parse_time (PyStr.drop (separator_width (head p)) p) with
              | None => Invalid
              | Some (hour, minute, second, microsecond, tz) =>
                  let r := mk_datetime y m d hour minute second microsecond in
                  match tz with
                  | None => if valid r then Naive r else Invalid
                  | Some tz => if tz_ok tz && valid r then Aware else Invalid
                  end
              end
            else
              let r := mk_datetime y m d 0 0 0 0 in
              if valid r then Naive r else Invalid
        | None => Invalid
        end
    end.

End DT.

(* ===================================================================== *)
(** ** JSON values, files and the file system *)
(* ===================================================================== *)

(** What [json.load] returns. *)
Inductive json :=
| JNull
| JBool (b : bool)
| JNum (z : Z)
| JStr (s : string)
| JList (l : list json)
| JDict (kv : list (string * json)).

Module Json.

(** Truth value of a decoded JSON value ([if v:]). *)
Definition truthy (j : json) : bool :=
  match j with
  | JNull => false
  | JBool b => b
  | JNum z => negb (z =? 0)
  | JStr s => negb (String.eqb s "")
  | JList l => match l with [] => false | _ => true end
  | JDict kv => match kv with [] => false | _ => true end
  end.

Definition is_str (field : string) (j : json) : bool :=
  match j with JStr s => String.eqb s field | _ => false end.

(** [field in data]; [None] is the [TypeError] of a value that is not a
    container. *)
Definition py_in (field : string) (data : json) : option bool :=
  match data with
  | JDict kv => Some (OD.mem field kv)
  | JList l => Some (existsb (is_str field) l)
  | JStr s => Some (PyStr.contains field s)
  | _ => None
  end.

(** [all(field in data for field in fields)]: stops at the first field
    that is missing. *)
Fixpoint all_in (fields : list string) (data : json) : option bool :=
  match fields with
  | [] => Some true
  | f :: fs =>
      match py_in f data with
      | None => None
      | Some false => Some false
      | Some true => all_in fs data
      end
  end.

End Json.

(** The content of a file of the session directory: text that [json.load]
    rejects, or the value [json.load] returns for it. *)
Inductive file :=
| NotJson (raw : string)
| Json (j : json).

Module FS.

Definition read_dir (fs : gmap string (list (string * file))) (dir : string)
  : list (string * file) :=
  default [] (fs !! dir).

(** [dir.mkdir(parents=True, exist_ok=True)] *)
Definition mkdir (fs : gmap string (list (string * file))) (dir : string)
  : gmap string (list (string * file)) :=
  match fs !! dir with Some _ => fs | None => <[dir := []]> fs end.

(** [(dir / name).exists()] *)
Definition file_exists (fs : gmap string (list (string * file)))
  (dir name : string) : bool :=
  OD.mem name (read_dir fs dir).

(** [(dir / name).unlink()] of an existing file. *)
Definition unlink (fs : gmap string (list (string * file)))
  (dir name : string) : gmap string (list (string * file)) :=
  <[dir := OD.del name (read_dir fs dir)]> fs.

(** A successful [open(dir / name, 'w')] followed by a complete write. *)
Definition write (fs : gmap string (list (string * file)))
  (dir name : string) (content : file) : gmap string (list (string * file)) :=
  <[dir := OD.set name content (read_dir fs dir)]> fs.

(** [dir.glob("*.json")], in directory order. *)
Definition glob_json (fs : gmap string (list (string * file))) (dir : string)
  : list (string * file) :=
  List.filter (fun e => PyStr.endswith ".json" (fst e)) (read_dir fs dir).

End FS.

(* ===================================================================== *)
(** ** [core/base.py] *)
(* ===================================================================== *)

Inductive DeviceType := SIMULATOR | REAL_DEVICE.

Definition DeviceType_value (t : DeviceType) : string :=
  match t with SIMULATOR => "simulator" | REAL_DEVICE => "real_device" end.

(** [DeviceType(v)]; [None] is [ValueError]. *)
Definition DeviceType_of_value (v : string) : option DeviceType :=
  if String.eqb v "simulator" then Some SIMULATOR
  else if String.eqb v "real_device" then Some REAL_DEVICE
  else None.

Definition DeviceType_eqb (a b : DeviceType) : bool :=
  match a, b with
  | SIMULATOR, SIMULATOR | REAL_DEVICE, REAL_DEVICE => true
  | _, _ => false
  end.

Inductive DeviceState := CONNECTED | DISCONNECTED | BOOTED | SHUTDOWN | UNKNOWN.

Module DeviceInfo.
Record t := mk {
  udid : string;
  name : string;
  state : DeviceState;
  device_type : DeviceType;
  os_version : string;
  model : string;
  connection_type : string;
  architecture : option string;
  is_available : bool
}.
End DeviceInfo.

(** [metadata] holds JSON-compatible values only (an enum member is kept as
    its [value]); on such values [_serialize_metadata] and
    [_json_serializer] change nothing. *)
Module SessionInfo.
Record t := mk {
  session_id : string;
  device_udid : string;
  device_type : DeviceType;
  created_at : datetime;
  metadata : json
}.
End SessionInfo.

(** The exceptions of [base.py] the two modules raise, with their messages,
    and Python's [ValueError]. *)
Inductive exn :=
| SessionError (msg : string)
| DeviceNotFoundError (msg : string)
| DeviceNotAvailableError (msg : string)
| ValueError (msg : string).

Inductive result (A : Type) :=
| Ok (a : A)
| Raise (e : exn).
Arguments Ok {A} a.
Arguments Raise {A} e.

Definition is_SessionError {A} (r : result A) : bool :=
  match r with Raise (SessionError _) => true | _ => false end.

(* ===================================================================== *)
(** ** The world outside a session manager *)
(* ===================================================================== *)

(** The file system, the device catalog the device manager answers from,
    and the shutdown requests sent to it. *)
Record world := mk_world {
  fs : gmap string (list (string * file));
  devices : list DeviceInfo.t;
  shutdown_requests : list string
}.

Definition with_fs (f : gmap string (list (string * file))) (w : world) : world :=
  mk_world f (devices w) (shutdown_requests w).

(** Modelled from the spec: [UnifiedDeviceManager.get_device] of
    [core/device_manager.py], which is not among the sources:
    "get(id) -> DeviceDescriptor | NotFound". *)
Definition get_device (w : world) (udid : string) : option DeviceInfo.t :=
  List.find (fun d => String.eqb (DeviceInfo.udid d) udid) (devices w).

(** Modelled from the spec: [UnifiedDeviceManager.shutdown_device] of
    [core/device_manager.py], which is not among the sources; the request is
    recorded. *)
Definition shutdown_device (w : world) (udid : string) : world :=
  mk_world (fs w) (devices w) (shutdown_requests w ++ [udid]).

(* ===================================================================== *)
(** ** [core/session_manager.py] *)
(* ===================================================================== *)

(** [generate_uuid4], from the value of [secrets.randbits(128)]. *)
Definition generate_uuid4 (randbits : Z) : string :=
  let random_bytes := randbits in
  let random_bytes := Z.land random_bytes (Z.lnot (Z.shiftl 0xf000 48)) in
  let random_bytes := Z.lor random_bytes (Z.shiftl 0x4000 48) in
  let random_bytes := Z.land random_bytes (Z.lnot (Z.shiftl 0xc0 56)) in
  let random_bytes := Z.lor random_bytes (Z.shiftl 0x80 56) in
  let hex_string := PyStr.hex_pad 32 random_bytes in
  PyStr.take 8 hex_string ++ "-" ++ PyStr.slice 8 12 hex_string ++ "-"
  ++ PyStr.slice 12 16 hex_string ++ "-" ++ PyStr.slice 16 20 hex_string
  ++ "-" ++ PyStr.drop 20 hex_string.

Module SessionConfig.
Record t := mk {
  device_name : option string;
  device_udid : option string;
  platform_version : option string;
  device_type : option DeviceType;
  autoboot : bool;
  wait_for_connection : bool;
  prefer_available : bool;
  session_name : option string;
  metadata : option json
}.

(** [SessionConfig()] *)
Definition default : t :=
  mk None None None None true true true None None.

Definition opt_str (o : option string) : json :=
  match o with Some s => JStr s | None => JNull end.

(** [asdict(config)] *)
Definition asdict (c : t) : json :=
  JDict [("device_name", opt_str (device_name c));
         ("device_udid", opt_str (device_udid c));
         ("platform_version", opt_str (platform_version c));
         ("device_type",
           match device_type c with
           | Some t => JStr (DeviceType_value t)
           | None => JNull
           end);
         ("autoboot", JBool (autoboot c));
         ("wait_for_connection", JBool (wait_for_connection c));
         ("prefer_available", JBool (prefer_available c));
         ("session_name", opt_str (session_name c));
         ("metadata", match metadata c with Some j => j | None => JNull end)].
End SessionConfig.

(** The fields of a [UnifiedSessionManager]. *)
Record manager := mk_manager {
  sessions : list (string * SessionInfo.t);
  session_dir : string;
  max_sessions : Z;
  auto_cleanup_hours : Z
}.

Definition with_sessions (ss : list (string * SessionInfo.t)) (m : manager)
  : manager :=
  mk_manager ss (session_dir m) (max_sessions m) (auto_cleanup_hours m).

(** [len(self.sessions)] *)
Definition len_sessions (m : manager) : Z := Z.of_nat (length (sessions m)).

(** [Path.home() / ".ios-device-control" / "sessions"] *)
Definition default_session_dir : string := "~/.ios-device-control/sessions".

(** [f"{session_id}.json"], the name joined to [session_dir]. *)
Definition session_file (session_id : string) : string := session_id ++ ".json".

(** Whether [name] names a file of the directory it is joined to: it holds
    no ['/'] and no NUL, and takes at most 255 bytes.  With another name
    the path leaves the directory or the file-system calls raise; the
    statements about the other files and directories, and about records
    found again on disk, are made for such names. *)
Definition file_name_ok (name : string) : bool :=
  negb (PyStr.has_char "/" name) && negb (PyStr.has_char "000" name)
  && (String.length (PyStr.utf8 name) <=? 255)%nat.

Definition _delete_session_file (session_id : string) (m : manager) (w : world)
  : world :=
  if FS.file_exists (fs w) (session_dir m) (session_file session_id)
  then with_fs (FS.unlink (fs w) (session_dir m) (session_file session_id)) w
  else w.

(** [metadata.get('config', {}).get('autoboot', False)], taken as a truth
    value; [None] when one of the two [get] calls raises. *)
Definition config_autoboot (metadata : json) : option bool :=
  match metadata with
  | JDict kv =>
      match OD.get "config" kv with
      | None => Some false
      | Some (JDict cfg) =>
          match OD.get "autoboot" cfg with
          | None => Some false
          | Some v => Some (Json.truthy v)
          end
      | Some _ => None
      end
  | _ => None
  end.

(** The [try] block of [terminate_session]: whatever happens in it, the
    termination goes on. *)
Definition device_cleanup (session_info : SessionInfo.t) (w : world) : world :=
  match get_device w (SessionInfo.device_udid session_info) with
  | Some device =>
      if DeviceType_eqb (DeviceInfo.device_type device) SIMULATOR
      then match config_autoboot (SessionInfo.metadata session_info) with
           | Some true => shutdown_device w (SessionInfo.device_udid session_info)
           | _ => w
           end
      else w
  | None => w
  end.

Definition terminate_session (session_id : string) (m : manager) (w : world)
  : result unit * manager * world :=
  match OD.get session_id (sessions m) with
  | None =>
      if FS.file_exists (fs w) (session_dir m) (session_file session_id)
      then (Ok tt, m,
            with_fs (FS.unlink (fs w) (session_dir m) (session_file session_id)) w)
      else (Raise (SessionError ("Session not found: " ++ session_id)), m, w)
  | Some session_info =>
      let w := device_cleanup session_info w in
      let m := with_sessions (OD.del session_id (sessions m)) m in
      let w := _delete_session_file session_id m w in
      (Ok tt, m, w)
  end.

Definition get_device_udid (session_id : string) (m : manager) : result string :=
  match OD.get session_id (sessions m) with
  | None => Raise (SessionError ("Session not found: " ++ session_id))
  | Some session_info => Ok (SessionInfo.device_udid session_info)
  end.

Definition list_sessions (m : manager) : list string := OD.keys (sessions m).

(** The loop of [cleanup_inactive_sessions] over the snapshot
    [list(self.sessions.items())]. *)
Fixpoint cleanup_loop (current_time : datetime) (max_age_seconds : Z)
  (snapshot : list (string * SessionInfo.t)) (cleaned : list string)
  (m : manager) (w : world) : list string * manager * world :=
  match snapshot with
  | [] => (cleaned, m, w)
  | (session_id, session_info) :: rest =>
      if DT.age_exceeds current_time (SessionInfo.created_at session_info)
                        max_age_seconds
      then match terminate_session session_id m w with
           | (Ok _, m', w') =>
               cleanup_loop current_time max_age_seconds rest
                            (cleaned ++ [session_id]) m' w'
           | (Raise _, m', w') =>
               cleanup_loop current_time max_age_seconds rest cleaned m' w'
           end
      else cleanup_loop current_time max_age_seconds rest cleaned m w
  end.

(** [current_time] is the value of [datetime.now()]. *)
Definition cleanup_inactive_sessions (max_age_hours : Z) (current_time : datetime)
  (m : manager) (w : world) : list string * manager * world :=
  cleanup_loop current_time (max_age_hours * 3600) (sessions m) [] m w.

(** Whether the body of the loop of [_cleanup_old_sessions_on_startup]
    leaves the file in place: the content is JSON, [data['created_at']] is a
    string that parses to a naive datetime, and that datetime is not before
    the cutoff.  Every other case ends in [session_file.unlink()]. *)
Definition startup_keeps (cutoff_time : datetime) (content : file) : bool :=
  match content with
  | Json (JDict kv) =>
      match OD.get "created_at" kv with
      | Some (JStr s) =>
          match DT.fromisoformat s with
          | DT.Naive created_at => negb (DT.lt created_at cutoff_time)
          | _ => false
          end
      | _ => false
      end
  | _ => false
  end.

Fixpoint startup_loop (cutoff_time : datetime) (dir : string)
  (files : list (string * file)) (f : gmap string (list (string * file)))
  : gmap string (list (string * file)) :=
  match files with
  | [] => f
  | (name, content) :: rest =>
      startup_loop cutoff_time dir rest
        (if startup_keeps cutoff_time content then f else FS.unlink f dir name)
  end.

(** [now] is the value of [datetime.now()]. *)
Definition _cleanup_old_sessions_on_startup (now : datetime) (m : manager)
  (w : world) : world :=
  let cutoff_time := DT.sub_hours now (auto_cleanup_hours m) in
  with_fs (startup_loop cutoff_time (session_dir m)
             (FS.glob_json (fs w) (session_dir m)) (fs w)) w.

(** [time_time] is the value of [time.time()]. *)
Definition _backup_corrupted_session (dir name : string) (time_time : Z)
  (f : gmap string (list (string * file))) : gmap string (list (string * file)) :=
  match OD.get name (FS.read_dir f dir) with
  | Some content =>
      let backup_dir := dir ++ "/corrupted" in
      let backup_file := name ++ "." ++ PyStr.of_int time_time ++ ".bak" in
      FS.write (FS.unlink (FS.mkdir f backup_dir) dir name)
               backup_dir backup_file content
  | None => f
  end.

(** What one pass of the loop of [_load_sessions] does with a file. *)
Inductive load_outcome :=
| Loaded (session_info : SessionInfo.t)
    (** stored in [self.sessions], counted *)
| Invalid_removed
    (** missing field, [ValueError] of [fromisoformat] or of [DeviceType]:
        [failed_count += 1], [unlink], [continue] *)
| Expired_removed
    (** [created_at < cutoff_time]: [unlink], [continue] *)
| Corrupted_backed_up
    (** [json.JSONDecodeError]: [_backup_corrupted_session] *)
| Failed_kept
    (** any other exception: [failed_count += 1], the file stays *)
| Untyped_kept
    (** a record whose [session_id], [device_udid] or [device_type] is
        present but is not a JSON string.  The source stores such a value
        as it finds it; [SessionInfo] is typed here and has no place for
        it, so the record is passed over.  The statements about what a
        constructor loads are made for directories without such records
        ([typed_directory]) or about a session id no such record carries
        ([record_session_id]). *).

Definition required_fields : list string :=
  ["session_id"; "device_udid"; "device_type"; "created_at"].

Definition load_record (cutoff_time : datetime) (content : file) : load_outcome :=
  match content with
  | NotJson _ => Corrupted_backed_up
  | Json data =>
      match Json.all_in required_fields data with
      | None => Failed_kept
      | Some false => Invalid_removed
      | Some true =>
          match data with
          | JDict kv =>
              match OD.get "created_at" kv with
              | Some (JStr s) =>
                  match DT.fromisoformat s with
                  | DT.Invalid => Invalid_removed
                  | DT.Aware => Failed_kept
                  | DT.Naive created_at =>
                      if DT.lt created_at cutoff_time then Expired_removed
                      else
                        match OD.get "device_type" kv,
                              OD.get "session_id" kv,
                              OD.get "device_udid" kv with
                        | Some (JStr t), Some (JStr sid), Some (JStr udid) =>
                            match DeviceType_of_value t with
                            | None => Invalid_removed
                            | Some device_type =>
                                Loaded (SessionInfo.mk sid udid device_type
                                          created_at
                                          (default (JDict [])
                                                   (OD.get "metadata" kv)))
                            end
                        | Some (JStr t), _, _ =>
                            match DeviceType_of_value t with
                            | None => Invalid_removed
                            | Some _ => Untyped_kept
                            end
                        | _, _, _ => Untyped_kept
                        end
                  end
              | _ => Failed_kept
              end
          | _ => Failed_kept
          end
      end
  end.

(** The loop of [_load_sessions] over [self.session_dir.glob("*.json")]. *)
Fixpoint load_loop (cutoff_time : datetime) (time_time : Z) (max : Z)
  (dir : string) (files : list (string * file)) (loaded_count : Z)
  (ss : list (string * SessionInfo.t)) (f : gmap string (list (string * file)))
  : list (string * SessionInfo.t) * gmap string (list (string * file)) :=
  match files with
  | [] => (ss, f)
  | (name, content) :: rest =>
      match load_record cutoff_time content with
      | Loaded session_info =>
          let ss := OD.set (SessionInfo.session_id session_info) session_info ss in
          let loaded_count := loaded_count + 1 in
          if max <=? loaded_count then (ss, f)
          else load_loop cutoff_time time_time max dir rest loaded_count ss f
      | Invalid_removed | Expired_removed =>
          load_loop cutoff_time time_time max dir rest loaded_count ss
                    (FS.unlink f dir name)
      | Corrupted_backed_up =>
          load_loop cutoff_time time_time max dir rest loaded_count ss
                    (_backup_corrupted_session dir name time_time f)
      | Failed_kept | Untyped_kept =>
          load_loop cutoff_time time_time max dir rest loaded_count ss f
      end
  end.

Definition _load_sessions (now : datetime) (time_time : Z) (m : manager)
  (w : world) : manager * world :=
  let cutoff_time := DT.sub_hours now (auto_cleanup_hours m) in
  let '(ss, f) :=
    load_loop cutoff_time time_time (max_sessions m) (session_dir m)
              (FS.glob_json (fs w) (session_dir m)) 0 (sessions m) (fs w) in
  (with_sessions ss m, with_fs f w).

(** [sorted(items, key=lambda x: x[1].created_at)]: a stable sort. *)
Fixpoint insert_by_created_at (x : string * SessionInfo.t)
  (l : list (string * SessionInfo.t)) : list (string * SessionInfo.t) :=
  match l with
  | [] => [x]
  | y :: l' =>
      if DT.lt (SessionInfo.created_at (snd y)) (SessionInfo.created_at (snd x))
      then y :: insert_by_created_at x l'
      else x :: y :: l'
  end.

Definition sorted_by_created_at (l : list (string * SessionInfo.t))
  : list (string * SessionInfo.t) :=
  fold_right insert_by_created_at [] l.

Fixpoint enforce_loop (to_remove : list (string * SessionInfo.t))
  (m : manager) (w : world) : manager * world :=
  match to_remove with
  | [] => (m, w)
  | (session_id, _) :: rest =>
      match terminate_session session_id m w with
      | (Ok _, m', w') => enforce_loop rest m' w'
      | (Raise _, m', w') =>
          let m' := if OD.mem session_id (sessions m')
                    then with_sessions (OD.del session_id (sessions m')) m'
                    else m' in
          enforce_loop rest m' (_delete_session_file session_id m' w')
      end
  end.

Definition _enforce_session_limit (m : manager) (w : world) : manager * world :=
  if max_sessions m <? len_sessions m then
    let sorted_sessions := sorted_by_created_at (sessions m) in
    let to_remove := len_sessions m - max_sessions m in
    enforce_loop (List.firstn (Z.to_nat to_remove) sorted_sessions) m w
  else (m, w).

(** What the constructor reads from outside: the two values of
    [datetime.now()] and the value of [time.time()] used to name backups. *)
Record init_env := mk_init_env {
  now_cleanup : datetime;
  now_load : datetime;
  backup_time : Z
}.

(** [UnifiedSessionManager(session_dir, max_sessions, auto_cleanup_hours)],
    when it returns: [datetime.now() - timedelta(hours=auto_cleanup_hours)]
    raises [OverflowError] out of the constructor when the cutoff is not a
    [datetime] ([DT.sub_hours_in_range]); the statements about a
    constructor with a free [auto_cleanup_hours] or clock assume that it
    is. *)
Definition init (session_dir : option string) (max_sessions auto_cleanup_hours : Z)
  (e : init_env) (w : world) : manager * world :=
  let dir := default default_session_dir session_dir in
  let m := mk_manager [] dir max_sessions auto_cleanup_hours in
  let w := with_fs (FS.mkdir (fs w) dir) w in
  let w := _cleanup_old_sessions_on_startup (now_cleanup e) m w in
  let '(m, w) := _load_sessions (now_load e) (backup_time e) m w in
  _enforce_session_limit m w.

(** [UnifiedSessionManager()] *)
Definition init_default (e : init_env) (w : world) : manager * world :=
  init None 10 6 e w.

Definition _generate_session_id (custom_name : option string) (time_time : Z)
  (randbits : Z) : string :=
  let timestamp := time_time in
  let unique_id := PyStr.take 8 (generate_uuid4 randbits) in
  match custom_name with
  | Some (String c n) =>
      String c n ++ "_" ++ PyStr.of_int timestamp ++ "_" ++ unique_id
  | _ => "session_" ++ PyStr.of_int timestamp ++ "_" ++ unique_id
  end.

(** The [data] dictionary [_save_session] writes. *)
Definition session_record (session_info : SessionInfo.t) : json :=
  JDict [("session_id", JStr (SessionInfo.session_id session_info));
         ("device_udid", JStr (SessionInfo.device_udid session_info));
         ("device_type",
           JStr (DeviceType_value (SessionInfo.device_type session_info)));
         ("created_at",
           JStr (DT.isoformat (SessionInfo.created_at session_info)));
         ("metadata", SessionInfo.metadata session_info)].

(** [write_ok] tells whether [open(session_file, 'w')] and [json.dump]
    went through; when they raise the exception is printed and dropped. *)
Definition _save_session (session_info : SessionInfo.t) (write_ok : bool)
  (m : manager) (w : world) : world :=
  let data := session_record session_info in
  if write_ok
  then with_fs (FS.write (fs w) (session_dir m)
                  (session_file (SessionInfo.session_id session_info))
                  (Json data)) w
  else w.

(** What [create_session] reads from outside.  [prepared] is the outcome of
    [_find_or_prepare_device], which runs on [core/device_manager.py]
    (not among the sources): a device, or the exception it raises. *)
Record create_env := mk_create_env {
  now_reap : datetime;
  prepared : result DeviceInfo.t;
  time_time : Z;
  randbits : Z;
  now_created : datetime;
  write_ok : bool
}.

Definition session_metadata (device : DeviceInfo.t) (config : SessionConfig.t)
  : json :=
  JDict [("device_name", JStr (DeviceInfo.name device));
         ("os_version", JStr (DeviceInfo.os_version device));
         ("model", JStr (DeviceInfo.model device));
         ("connection_type", JStr (DeviceInfo.connection_type device));
         ("config", SessionConfig.asdict config);
         ("custom_metadata",
           match SessionConfig.metadata config with
           | Some j => if Json.truthy j then j else JDict []
           | None => JDict []
           end)].

Definition max_sessions_message (m : manager) : string :=
  "Maximum sessions (" ++ PyStr.of_int (max_sessions m)
  ++ ") reached. Please terminate existing sessions first.".

Definition create_session (config : option SessionConfig.t) (e : create_env)
  (m : manager) (w : world) : result string * manager * world :=
  let '(m, w) :=
    if max_sessions m <=? len_sessions m
    then let '(_, m', w') := cleanup_inactive_sessions 1 (now_reap e) m w in
         (m', w')
    else (m, w) in
  if max_sessions m <=? len_sessions m
  then (Raise (SessionError (max_sessions_message m)), m, w)
  else
    let config := default SessionConfig.default config in
    match prepared e with
    | Raise err => (Raise err, m, w)
    | Ok device =>
        let session_id :=
          _generate_session_id (SessionConfig.session_name config)
                               (time_time e) (randbits e) in
        let session_info :=
          SessionInfo.mk session_id (DeviceInfo.udid device)
                         (DeviceInfo.device_type device) (now_created e)
                         (session_metadata device config) in
        let m := with_sessions (OD.set session_id session_info (sessions m)) m in
        let w := _save_session session_info (write_ok e) m w in
        (Ok session_id, m, w)
    end.

(* ===================================================================== *)
(** ** [core/utilities_manager.py]: target resolution *)
(* ===================================================================== *)

(** A process: the session-manager objects it has allocated, by address,
    and the world outside.  A [UnifiedUtilitiesManager] holds a reference
    (an address) to a session manager, so every change made to that manager
    through another reference is visible to it. *)
Record process := mk_process {
  managers : gmap nat manager;
  outside : world
}.

(** The [session_manager] attribute of a [UnifiedUtilitiesManager]:
    [None], or the address of a manager. *)
Record utilities := mk_utilities {
  session_manager : option nat
}.

(** [UnifiedUtilitiesManager()] *)
Definition new_utilities : utilities := mk_utilities None.

Definition set_session_manager (a : nat) (u : utilities) : utilities :=
  mk_utilities (Some a).

(** An address no object of the process lives at. *)
Definition fresh_address (p : process) : nat :=
  S (fold_right Nat.max 0%nat (map fst (map_to_list (managers p)))).

(** [create_session] called on the manager at address [a]. *)
Definition create_session_at (a : nat) (config : option SessionConfig.t)
  (e : create_env) (p : process) : option (result string * process) :=
  match managers p !! a with
  | None => None
  | Some m =>
      let '(r, m', w') := create_session config e m (outside p) in
      Some (r, mk_process (<[a := m']> (managers p)) w')
  end.

Definition _looks_like_session_id (target : string) : bool :=
  PyStr.has_char "_" target
  && (10 <? String.length target)%nat
  && (PyStr.startswith_any ["session_"; "automation_"; "mcp_"] target
      || (2 <=? PyStr.count "_" target)%nat).

Definition unresolved_message (session_id : string) : string :=
  "Session " ++ session_id
  ++ " not found in any session manager - session may have expired or been terminated".

(** Strategy 3 of [_get_device_udid_from_session]: a new
    [UnifiedSessionManager()] is built from the default directory and
    searched. *)
Definition fallback_lookup (session_id : string) (e : init_env) (u : utilities)
  (p : process) : result string * utilities * process :=
  let '(fallback_manager, w) := init_default e (outside p) in
  match OD.get session_id (sessions fallback_manager) with
  | Some session_info =>
      let a := fresh_address p in
      (Ok (SessionInfo.device_udid session_info),
       mk_utilities (Some a),
       mk_process (<[a := fallback_manager]> (managers p)) w)
  | None =>
      (Raise (SessionError (unresolved_message session_id)), u,
       mk_process (managers p) w)
  end.

(** [_get_device_udid_from_session].  Strategy 2 imports
    [get_session_manager_for_session] from [mcp/tools.py], which defines no
    such name: the [import] raises [ImportError], which is caught, and
    Strategy 3 follows. *)
Definition _get_device_udid_from_session (session_id : string) (e : init_env)
  (u : utilities) (p : process) : result string * utilities * process :=
  match session_manager u with
  | Some a =>
      match managers p !! a with
      | Some m =>
          match get_device_udid session_id m with
          | Ok device_udid => (Ok device_udid, u, p)
          | Raise _ => fallback_lookup session_id e u p
          end
      | None => fallback_lookup session_id e u p
      end
  | None => fallback_lookup session_id e u p
  end.

(** The argument of [_resolve_target]: a string, a [dict] (of which only
    the string entries matter), or anything else.  The two [ValueError]
    messages are kept without the rendering of the offending value. *)
Inductive target :=
| Target_str (s : string)
| Target_dict (d : list (string * string))
| Target_other.

Definition _resolve_target (t : target) (e : init_env) (u : utilities)
  (p : process) : result string * utilities * process :=
  match t with
  | Target_str s =>
      if _looks_like_session_id s
      then _get_device_udid_from_session s e u p
      else (Ok s, u, p)
  | Target_dict d =>
      let udid := default (default "" (OD.get "device_udid" d)) (OD.get "udid" d) in
      if String.eqb udid ""
      then (Raise (ValueError "No UDID found in target dict"), u, p)
      else (Ok udid, u, p)
  | Target_other => (Raise (ValueError "Invalid target type"), u, p)
  end.

(* ===================================================================== *)
(** ** Vocabulary for what an operation does to a directory *)
(* ===================================================================== *)

(** [f'] has no file in [dir] that [f] did not have. *)
Definition only_removes (dir : string)
  (f f' : gmap string (list (string * file))) : Prop :=
  forall name, OD.get name (FS.read_dir f dir) = None ->
               OD.get name (FS.read_dir f' dir) = None.

(** [f'] and [f] list the same files in every directory but [dir]. *)
Definition same_elsewhere (dir : string)
  (f f' : gmap string (list (string * file))) : Prop :=
  forall dir', dir' <> dir -> FS.read_dir f' dir' = FS.read_dir f dir'.

(** The value of [data['session_id']] in a file that holds a JSON object with
    that key. *)
Definition record_session_id (content : file) : option json :=
  match content with
  | Json (JDict kv) => OD.get "session_id" kv
  | _ => None
  end.

Definition str_or_absent (field : string) (kv : list (string * json)) : bool :=
  match OD.get field kv with
  | Some (JStr _) | None => true
  | Some _ => false
  end.

(** Whether the fields [SessionInfo] types as [str] or as an enum member,
    where the file has them, are JSON strings. *)
Definition typed_record (content : file) : bool :=
  match content with
  | Json (JDict kv) =>
      str_or_absent "session_id" kv && str_or_absent "device_udid" kv
      && str_or_absent "device_type" kv
  | _ => true
  end.


(** Whether the startup cleanup, run over [files], unlinks the name of the
    entry [e]: some listed file of that name is not kept. *)
Definition startup_unlinks (cutoff_time : datetime)
  (files : list (string * file)) (e : string * file) : bool :=
  existsb (fun e' => String.eqb (fst e) (fst e')
                     && negb (startup_keeps cutoff_time (snd e'))) files.

(* ===================================================================== *)
(** ** Sequences of calls and concrete scenarios *)
(* ===================================================================== *)

(** A sequence of [create_session] calls on one manager, whatever each call
    returns. *)
Fixpoint create_many (calls : list (option SessionConfig.t * create_env))
  (m : manager) (w : world) : manager * world :=
  match calls with
  | [] => (m, w)
  | (config, e) :: rest =>
      let '(_, m', w') := create_session config e m w in
      create_many rest m' w'
  end.

(** Concrete devices, clocks and stores used to run the code. *)
Module Demo.

Definition t_now : datetime := mk_datetime 2024 3 9 14 0 0 0.
Definition t_created : datetime := mk_datetime 2024 3 9 13 30 0 0.
Definition t_earlier : datetime := mk_datetime 2024 3 9 13 0 0 0.
Definition t_stale : datetime := mk_datetime 2024 3 9 2 0 0 0.

Definition device_a : DeviceInfo.t :=
  DeviceInfo.mk "UDID-A" "iPhone 15" BOOTED SIMULATOR "17.0" "iPhone"
                "simulator" None true.

Definition device_b : DeviceInfo.t :=
  DeviceInfo.mk "UDID-B" "iPhone 15 Pro" BOOTED SIMULATOR "17.0" "iPhone"
                "simulator" None true.

Definition world0 : world := mk_world ∅ [device_a; device_b] [].

Definition env_init : init_env := mk_init_env t_now t_now 1709992800.

(** A [create_session] call that finds [device], at Unix time
    1700000000, with all random bits zero. *)
Definition env_create (device : DeviceInfo.t) (write_ok : bool) : create_env :=
  mk_create_env t_now (Ok device) 1700000000 0 t_created write_ok.

Definition sid0 : string := "session_1700000000_00000000".

Definition session_of (sid : string) (device : DeviceInfo.t)
  (created_at : datetime) : SessionInfo.t :=
  SessionInfo.mk sid (DeviceInfo.udid device) (DeviceInfo.device_type device)
                 created_at
                 (session_metadata device SessionConfig.default).

(** A store in the default directory with the given sessions. *)
Definition store (max : Z) (ss : list (string * SessionInfo.t)) : manager :=
  mk_manager ss default_session_dir max 6.

(** The world in which the default directory lists the given files. *)
Definition world_with (files : list (string * file)) : world :=
  mk_world {[ default_session_dir := files ]} [device_a; device_b] [].

Definition saved (s : SessionInfo.t) : string * file :=
  (session_file (SessionInfo.session_id s), Json (session_record s)).

(** Two sessions created half an hour and an hour before [t_now]. *)
Definition two_sessions : list (string * SessionInfo.t) :=
  [("session_1709991000_aaaaaaaa",
    session_of "session_1709991000_aaaaaaaa" device_a t_created);
   ("session_1709989200_bbbbbbbb",
    session_of "session_1709989200_bbbbbbbb" device_b t_earlier)].

(** A session created twelve hours before [t_now], followed by one created
    half an hour before it. *)
Definition stale_and_recent : list (string * SessionInfo.t) :=
  [("session_1709949600_cccccccc",
    session_of "session_1709949600_cccccccc" device_a t_stale);
   ("session_1709991000_aaaaaaaa",
    session_of "session_1709991000_aaaaaaaa" device_a t_created)].

(** The two sessions of [two_sessions] as files, the newer one listed
    first. *)
Definition two_files : list (string * file) :=
  [saved (session_of "session_1709991000_aaaaaaaa" device_a t_created);
   saved (session_of "session_1709989200_bbbbbbbb" device_b t_earlier)].

(** A directory with one file that is not JSON. *)
Definition broken_files : list (string * file) :=
  [("session_1709991000_aaaaaaaa.json", NotJson "{ session_id: ")].

(** A process whose only session manager, at address 0, is an empty store
    on the default directory. *)
Definition process0 : process :=
  mk_process {[ 0%nat := store 10 [] ]} world0.

(** A process whose only session manager, at address 0, is an empty store,
    while the default directory holds the record of a session on device
    A. *)
Definition process_stale : process :=
  mk_process {[ 0%nat := store 10 [] ]}
             (world_with [saved (session_of sid0 device_a t_created)]).

(** [process0] after a [create_session] on device A whose record is
    written. *)
Definition process1 : process :=
  match create_session_at 0 None (env_create device_a true) process0 with
  | Some (_, p') => p'
  | None => process0
  end.

End Demo.

(* ===================================================================== *)
(** ** Further methods of [UnifiedSessionManager] *)
(* ===================================================================== *)

(** [current_time] is the value of [datetime.now()] read by
    [cleanup_inactive_sessions]. *)
Definition periodic_cleanup (max_age_hours : option Z) (current_time : datetime)
  (m : manager) (w : world) : manager * world :=
  let max_age_hours := default (auto_cleanup_hours m) max_age_hours in
  let '(_, m', w') := cleanup_inactive_sessions max_age_hours current_time m w in
  (m', w').

Definition get_sessions_by_device_type (device_type : DeviceType) (m : manager)
  : list string :=
  map fst
    (List.filter
       (fun item => DeviceType_eqb (SessionInfo.device_type (snd item)) device_type)
       (sessions m)).

Definition get_sessions_by_device (device_udid : string) (m : manager)
  : list string :=
  map fst
    (List.filter
       (fun item => String.eqb (SessionInfo.device_udid (snd item)) device_udid)
       (sessions m)).

(* ===================================================================== *)
(** ** [mcp/tools.py]: the singleton session manager *)
(* ===================================================================== *)

(** [get_unified_session_manager].  [g] is the module global
    [_unified_session_manager]: [None], or the address of the manager built
    by the first call. *)
Definition get_unified_session_manager (e : init_env) (g : option nat)
  (p : process) : nat * option nat * process :=
  match g with
  | Some a => (a, g, p)
  | None =>
      let '(m, w) := init_default e (outside p) in
      let a := fresh_address p in
      (a, Some a, mk_process (<[a := m]> (managers p)) w)
  end.

(** [simple_session_validation]: membership of the id in the singleton's
    [sessions]; any exception gives [False]. *)
Definition simple_session_validation (session_id : string) (e : init_env)
  (g : option nat) (p : process) : bool * option nat * process :=
  let '(a, g, p) := get_unified_session_manager e g p in
  (match managers p !! a with
   | Some unified_manager => OD.mem session_id (sessions unified_manager)
   | None => false
   end, g, p).

(** What [get_manager_for_session] needs of its [manager_class] argument:
    how to construct an instance, and its [set_session_manager] method if
    it has one ([hasattr]). *)
Record manager_class (M : Type) := mk_manager_class {
  construct : M;
  set_session_manager_method : option (nat -> M -> M)
}.
Arguments construct {M} _.
Arguments set_session_manager_method {M} _.

Definition UnifiedUtilitiesManager_class : manager_class utilities :=
  mk_manager_class utilities new_utilities (Some set_session_manager).

(** The outcome of a function of [mcp/tools.py] that raises a plain
    [Exception]. *)
Inductive tool_result (A : Type) :=
| Returned (a : A)
| Exception (msg : string).
Arguments Returned {A} a.
Arguments Exception {A} msg.

Definition get_manager_for_session {M : Type} (cls : manager_class M)
  (session_id : string) (e : init_env) (g : option nat) (p : process)
  : tool_result M * option nat * process :=
  let '(valid, g, p) := simple_session_validation session_id e g p in
  if negb valid
  then (Exception ("Session " ++ session_id ++ " is invalid or expired"), g, p)
  else
    let '(unified_session_manager, g, p) := get_unified_session_manager e g p in
    let manager := construct cls in
    let manager :=
      match set_session_manager_method cls with
      | Some set => set unified_session_manager manager
      | None => manager
      end in
    (Returned manager, g, p).

(* ===================================================================== *)
(** ** [_find_or_prepare_device] and the device manager *)
(* ===================================================================== *)

(** The device manager of [core/device_manager.py] (not among the sources)
    as [_find_or_prepare_device] sees it: the answers its methods give.
    [boot_device] answers with the exception it raises, if any. *)
Module DeviceManager.
Record t := mk {
  get_device : string -> option DeviceInfo.t;
  is_device_available : string -> bool;
  boot_device : string -> option exn;
  wait_for_device : string -> Z -> bool;
  discover_all_devices : list DeviceInfo.t
}.
End DeviceManager.

(** The calls of [_find_or_prepare_device] that act on a device. *)
Inductive device_call :=
| Boot (udid : string)
| Wait (udid : string) (timeout : Z).

(** An optional string taken as a condition: [None] and [""] are false. *)
Definition truthy_str (o : option string) : option string :=
  match o with
  | Some (String c s) => Some (String c s)
  | _ => None
  end.

(** [state in [DeviceState.BOOTED, DeviceState.CONNECTED]] *)
Definition state_in_booted_connected (s : DeviceState) : bool :=
  match s with
  | BOOTED | CONNECTED => true
  | _ => false
  end.

(** [_find_or_prepare_device], with the calls it makes to boot or wait
    for a device. *)
Definition _find_or_prepare_device (dm : DeviceManager.t)
  (config : SessionConfig.t) : result DeviceInfo.t * list device_call :=
  match truthy_str (SessionConfig.device_udid config) with
  | Some device_udid =>
      match DeviceManager.get_device dm device_udid with
      | None =>
          (Raise (DeviceNotFoundError ("Device not found: " ++ device_udid)), [])
      | Some device =>
          if negb (DeviceManager.is_device_available dm (DeviceInfo.udid device))
          then
            if DeviceType_eqb (DeviceInfo.device_type device) SIMULATOR
               && SessionConfig.autoboot config
            then
              match DeviceManager.boot_device dm (DeviceInfo.udid device) with
              | Some e => (Raise e, [Boot (DeviceInfo.udid device)])
              | None => (Ok device, [Boot (DeviceInfo.udid device)])
              end
            else if DeviceType_eqb (DeviceInfo.device_type device) REAL_DEVICE
                    && SessionConfig.wait_for_connection config
            then
              if negb (DeviceManager.wait_for_device dm
                         (DeviceInfo.udid device) 30)
              then (Raise (DeviceNotAvailableError
                             ("Device not available: " ++ DeviceInfo.name device)),
                    [Wait (DeviceInfo.udid device) 30])
              else (Ok device, [Wait (DeviceInfo.udid device) 30])
            else (Raise (DeviceNotAvailableError
                           ("Device not available: " ++ DeviceInfo.name device)),
                  [])
          else (Ok device, [])
      end
  | None =>
      let all_devices := DeviceManager.discover_all_devices dm in
      let candidates := all_devices in
      let candidates :=
        match truthy_str (SessionConfig.device_name config) with
        | Some device_name =>
            List.filter (fun d => String.eqb (DeviceInfo.name d) device_name)
                        candidates
        | None => candidates
        end in
      let candidates :=
        match SessionConfig.device_type config with
        | Some device_type =>
            List.filter
              (fun d => DeviceType_eqb (DeviceInfo.device_type d) device_type)
              candidates
        | None => candidates
        end in
      let candidates :=
        match truthy_str (SessionConfig.platform_version config) with
        | Some platform_version =>
            List.filter
              (fun d => PyStr.contains platform_version (DeviceInfo.os_version d))
              candidates
        | None => candidates
        end in
      match candidates with
      | [] =>
          (Raise (DeviceNotFoundError "No devices match the specified criteria"),
           [])
      | first :: _ =>
          let available :=
            if SessionConfig.prefer_available config
            then List.filter
                   (fun d => state_in_booted_connected (DeviceInfo.state d))
                   candidates
            else [] in
          match available with
          | available_0 :: _ => (Ok available_0, [])
          | [] =>
              let device := first in
              if negb (DeviceManager.is_device_available dm
                         (DeviceInfo.udid device))
              then
                if DeviceType_eqb (DeviceInfo.device_type device) SIMULATOR
                   && SessionConfig.autoboot config
                then
                  match DeviceManager.boot_device dm (DeviceInfo.udid device) with
                  | Some e => (Raise e, [Boot (DeviceInfo.udid device)])
                  | None => (Ok device, [Boot (DeviceInfo.udid device)])
                  end
                else if DeviceType_eqb (DeviceInfo.device_type device) REAL_DEVICE
                then (Raise (DeviceNotAvailableError
                               ("Real device not connected: "
                                ++ DeviceInfo.name device)), [])
                else (Raise (DeviceNotAvailableError
                               ("Device not available: "
                                ++ DeviceInfo.name device)), [])
              else (Ok device, [])
          end
      end
  end.

(** Whether a device passes every selection criterion the configuration
    gives: name, type and platform version. *)
Definition meets_criteria (config : SessionConfig.t) (d : DeviceInfo.t) : bool :=
  match truthy_str (SessionConfig.device_name config) with
  | Some device_name => String.eqb (DeviceInfo.name d) device_name
  | None => true
  end
  && match SessionConfig.device_type config with
     | Some device_type => DeviceType_eqb (DeviceInfo.device_type d) device_type
     | None => true
     end
  && match truthy_str (SessionConfig.platform_version config) with
     | Some platform_version =>
         PyStr.contains platform_version (DeviceInfo.os_version d)
     | None => true
     end.

(** A device manager that knows a shut-down simulator besides the two
    booted ones of [Demo], boots without error, and whose waits fail. *)
Module DemoDevices.

Definition shut_sim : DeviceInfo.t :=
  DeviceInfo.mk "UDID-S" "iPhone 14" SHUTDOWN SIMULATOR "16.4" "iPhone"
                "simulator" None false.

Definition catalog : list DeviceInfo.t :=
  [shut_sim; Demo.device_a; Demo.device_b].

Definition dm : DeviceManager.t :=
  DeviceManager.mk
    (fun udid => List.find (fun d => String.eqb (DeviceInfo.udid d) udid) catalog)
    (fun udid => negb (String.eqb udid "UDID-S"))
    (fun _ => None)
    (fun _ _ => false)
    catalog.

(** A configuration that names the shut-down simulator by UDID and gives
    a name no device has. *)
Definition by_udid : SessionConfig.t :=
  SessionConfig.mk (Some "no such name") (Some "UDID-S") None None true true
                   true None None.

End DemoDevices.

(* ===================================================================== *)
(** ** Regular expressions, as far as [re.match] is used *)
(* ===================================================================== *)

(** Patterns, and whether [re.match(pattern, s, re.IGNORECASE)] finds a
    match, by derivatives.  Strings are sequences of code points below 256,
    on which [re.IGNORECASE] relates a pattern character to the two cases
    of an ASCII letter and nothing else. *)
Module Re.

Inductive t :=
| Empty
| Eps
| Chr (c : ascii)
| Cls (p : ascii -> bool)
| Seq (a b : t)
| Alt (a b : t)
| Star (a : t).

(** [a?] *)
Definition Opt (a : t) : t := Alt a Eps.

(** A literal string. *)
Fixpoint lit (s : string) : t :=
  match s with
  | EmptyString => Eps
  | String c s' => Seq (Chr c) (lit s')
  end.

(** [[a-zA-Z]] *)
Definition alpha (c : ascii) : bool :=
  let n := nat_of_ascii c in
  (((65 <=? n) && (n <=? 90)) || ((97 <=? n) && (n <=? 122)))%nat.

(** [[0-9]] *)
Definition digit (c : ascii) : bool :=
  let n := nat_of_ascii c in ((48 <=? n) && (n <=? 57))%nat.

(** [.]: any character but a newline. *)
Definition dot (c : ascii) : bool := negb (Ascii.eqb c "010").

(** The other case of an ASCII letter; any other character is left. *)
Definition swapcase (c : ascii) : ascii :=
  let n := nat_of_ascii c in
  if ((65 <=? n) && (n <=? 90))%nat then ascii_of_nat (n + 32)
  else if ((97 <=? n) && (n <=? 122))%nat then ascii_of_nat (n - 32)
  else c.

Definition chr_matches (c x : ascii) : bool :=
  Ascii.eqb c x || Ascii.eqb c (swapcase x).

Definition cls_matches (p : ascii -> bool) (x : ascii) : bool :=
  p x || p (swapcase x).

Fixpoint nullable (r : t) : bool :=
  match r with
  | Empty => false
  | Eps => true
  | Chr _ => false
  | Cls _ => false
  | Seq a b => nullable a && nullable b
  | Alt a b => nullable a || nullable b
  | Star _ => true
  end.

Definition seq (a b : t) : t :=
  match a, b with
  | Empty, _ => Empty
  | _, Empty => Empty
  | Eps, _ => b
  | _, _ => Seq a b
  end.

Definition alt (a b : t) : t :=
  match a, b with
  | Empty, _ => b
  | _, Empty => a
  | _, _ => Alt a b
  end.

(** What is left of [r] to match after the character [x]. *)
Fixpoint deriv (r : t) (x : ascii) : t :=
  match r with
  | Empty => Empty
  | Eps => Empty
  | Chr c => if chr_matches c x then Eps else Empty
  | Cls p => if cls_matches p x then Eps else Empty
  | Seq a b =>
      alt (seq (deriv a x) b) (if nullable a then deriv b x else Empty)
  | Alt a b => alt (deriv a x) (deriv b x)
  | Star a => seq (deriv a x) (Star a)
  end.

(** [re.match(r, s, re.IGNORECASE) is not None]: some prefix of [s]
    matches [r].  A leading [^] holds at the position [re.match] starts
    from, and is left out of the patterns. *)
Fixpoint match_ (r : t) (s : string) : bool :=
  nullable r
  || match s with
     | EmptyString => false
     | String x s' => match_ (deriv r x) s'
     end.

(** What is left of [r] after the whole of [p], and whether a match ends
    inside [p]. *)
Fixpoint derivs (r : t) (p : string) : t :=
  match p with
  | EmptyString => r
  | String x p' => derivs (deriv r x) p'
  end.

Fixpoint nullable_before (r : t) (p : string) : bool :=
  match p with
  | EmptyString => false
  | String x p' => nullable r || nullable_before (deriv r x) p'
  end.

End Re.

(* ===================================================================== *)
(** ** [core/utilities_manager.py]: opening URLs *)
(* ===================================================================== *)

(** The [patterns] of [_is_valid_url]. *)
Definition url_patterns : list Re.t :=
  [ (* ^https?://.* *)
    Re.Seq (Re.lit "http")
      (Re.Seq (Re.Opt (Re.Chr "s")) (Re.Seq (Re.lit "://") (Re.Star (Re.Cls Re.dot))));
    (* ^[a-zA-Z][a-zA-Z0-9+.-]*:// *)
    Re.Seq (Re.Cls Re.alpha)
      (Re.Seq
         (Re.Star
            (Re.Cls (fun c => Re.alpha c || Re.digit c || Ascii.eqb c "+"
                              || Ascii.eqb c "." || Ascii.eqb c "-")))
         (Re.lit "://"));
    (* ^mailto:.* *)
    Re.Seq (Re.lit "mailto:") (Re.Star (Re.Cls Re.dot));
    (* ^tel:.* *)
    Re.Seq (Re.lit "tel:") (Re.Star (Re.Cls Re.dot));
    (* ^sms:.* *)
    Re.Seq (Re.lit "sms:") (Re.Star (Re.Cls Re.dot)) ].

Definition _is_valid_url (url : string) : bool :=
  existsb (fun pattern => Re.match_ pattern url) url_patterns.

Module URLScheme.
Record t := mk {
  scheme : string;
  bundle_id : string;
  description : string
}.
End URLScheme.

(** [self.url_schemes] *)
Definition url_schemes : list (string * URLScheme.t) :=
  [("settings", URLScheme.mk "prefs" "com.apple.Preferences" "Settings app");
   ("app-store", URLScheme.mk "itms-apps" "com.apple.AppStore" "App Store");
   ("maps", URLScheme.mk "maps" "com.apple.Maps" "Maps app");
   ("mail", URLScheme.mk "mailto" "com.apple.mobilemail" "Mail app");
   ("messages", URLScheme.mk "sms" "com.apple.MobileSMS" "Messages app");
   ("facetime", URLScheme.mk "facetime" "com.apple.facetime" "FaceTime");
   ("calendar", URLScheme.mk "calshow" "com.apple.mobilecal" "Calendar");
   ("photos",
    URLScheme.mk "photos-redirect" "com.apple.mobileslideshow" "Photos");
   ("music", URLScheme.mk "music" "com.apple.Music" "Music app");
   ("safari", URLScheme.mk "http" "com.apple.mobilesafari" "Safari");
   ("wifi-settings",
    URLScheme.mk "prefs:root=WIFI" "com.apple.Preferences" "WiFi settings");
   ("bluetooth-settings",
    URLScheme.mk "prefs:root=Bluetooth" "com.apple.Preferences"
                 "Bluetooth settings");
   ("privacy-settings",
    URLScheme.mk "prefs:root=Privacy" "com.apple.Preferences"
                 "Privacy settings");
   ("notifications-settings",
    URLScheme.mk "prefs:root=NOTIFICATIONS_ID" "com.apple.Preferences"
                 "Notifications")].

(** What the URL operations of a [UnifiedUtilitiesManager] read from
    outside: its own device manager, whether [idb] was detected, what
    [run_command] does with a command line (the text of the exception it
    raises, if any), and [str.upper]. *)
Record utilities_env := mk_utilities_env {
  device_manager : DeviceManager.t;
  idb_available : bool;
  run_command : string -> option string;
  str_upper : string -> string
}.

(** The outcome of a URL operation: it returns, having run the command
    lines listed, or raises; [DeviceError] is the base class of [base.py]. *)
Inductive op_result :=
| Done (commands : list string)
| Raised (e : exn)
| Raised_DeviceError (msg : string).

(** [self.simctl_path] and [self.idb_path] of [CommandExecutor]. *)
Definition simctl_path : string := "xcrun simctl".
Definition idb_path : string := "idb".

Definition _open_url_simulator (env : utilities_env) (udid url : string)
  : op_result :=
  let command := simctl_path ++ " openurl " ++ udid ++ " '" ++ url ++ "'" in
  match run_command env command with
  | None => Done [command]
  | Some e => Raised_DeviceError ("Failed to open URL on simulator: " ++ e)
  end.

Definition _open_url_real_device (env : utilities_env) (udid url : string)
  : op_result :=
  if idb_available env
  then
    let command := idb_path ++ " open --udid " ++ udid ++ " '" ++ url ++ "'" in
    match run_command env command with
    | None => Done [command]
    | Some e => Raised_DeviceError ("Failed to open URL: " ++ e)
    end
  else Raised_DeviceError "idb required for real device URL operations".

Definition open_url (env : utilities_env) (t : target) (url : string)
  (e : init_env) (u : utilities) (p : process)
  : op_result * utilities * process :=
  let '(r, u, p) := _resolve_target t e u p in
  match r with
  | Raise err => (Raised err, u, p)
  | Ok udid =>
      if negb (DeviceManager.is_device_available (device_manager env) udid)
      then (Raised (DeviceNotAvailableError ("Device not available: " ++ udid)),
            u, p)
      else if negb (_is_valid_url url)
      then (Raised (ValueError ("Invalid URL: " ++ url)), u, p)
      else
        match DeviceManager.get_device (device_manager env) udid with
        | None =>
            (Raised (DeviceNotAvailableError ("Device not found: " ++ udid)),
             u, p)
        | Some device =>
            if DeviceType_eqb (DeviceInfo.device_type device) SIMULATOR
            then (_open_url_simulator env udid url, u, p)
            else (_open_url_real_device env udid url, u, p)
        end
  end.

(** [repr] of a list of strings that hold no quote and no backslash. *)
Definition repr_list (l : list string) : string :=
  "[" ++ String.concat ", " (map (fun s => "'" ++ s ++ "'") l) ++ "]".

Definition open_scheme (env : utilities_env) (t : target) (scheme_name : string)
  (e : init_env) (u : utilities) (p : process)
  : op_result * utilities * process :=
  match OD.get scheme_name url_schemes with
  | None =>
      let available := OD.keys url_schemes in
      (Raised (ValueError ("Unknown scheme: " ++ scheme_name ++ ". Available: "
                           ++ repr_list available)), u, p)
  | Some scheme =>
      let url := URLScheme.scheme scheme ++ "://" in
      open_url env t url e u p
  end.

Definition open_settings (env : utilities_env) (t : target)
  (page : option string) (e : init_env) (u : utilities) (p : process)
  : op_result * utilities * process :=
  match truthy_str page with
  | Some page =>
      let scheme_name := page ++ "-settings" in
      if OD.mem scheme_name url_schemes
      then open_scheme env t scheme_name e u p
      else open_url env t ("prefs:root=" ++ str_upper env page) e u p
  | None => open_scheme env t "settings" e u p
  end.

Definition open_app_settings (env : utilities_env) (t : target)
  (bundle_id : string) (e : init_env) (u : utilities) (p : process)
  : op_result * utilities * process :=
  let url := "app-settings:" ++ bundle_id in
  open_url env t url e u p.

(** A utilities environment over the device manager of [DemoDevices], with
    [idb] installed and commands that succeed. *)
Definition demo_utilities_env : utilities_env :=
  mk_utilities_env DemoDevices.dm true (fun _ => None) (fun s => s).

(* ===================================================================== *)
(** ** Availability and statistics of the sessions *)
(* ===================================================================== *)


(** The integer entries of the dictionary [get_statistics] returns.  Its
    three age entries, computed in floating point from further readings of
    the clock, are left out. *)
Module Statistics.
Record t := mk {
  total_sessions : Z;
  simulator_sessions : Z;
  real_device_sessions : Z;
  available_sessions : Z;
  max_sessions_limit : Z;
  auto_cleanup_hours : Z
}.
End Statistics.


(* ===================================================================== *)
(** ** [mcp/tools.py]: terminating a session *)
(* ===================================================================== *)





(* ===================================================================== *)
(** * Properties *)
(* ===================================================================== *)

(** ** Ordered dictionaries *)

Section OD_facts.
Context {V : Type}.
Implicit Types (d : list (string * V)) (k : string) (v : V).

Lemma OD_get_set_eq k v d : OD.get k (OD.set k v d) = Some v.
Proof.
  induction d as [|[k' v'] d IH]; simpl.
  - now rewrite String.eqb_refl.
  - destruct (String.eqb k' k) eqn:E; simpl; rewrite E; auto.
Qed.

Lemma OD_get_set_ne k k' v d :
  k <> k' -> OD.get k' (OD.set k v d) = OD.get k' d.
Proof.
  intros Hne. induction d as [|[k0 v0] d IH]; simpl.
  - destruct (String.eqb k k') eqn:E; auto.
    apply String.eqb_eq in E. contradiction.
  - destruct (String.eqb k0 k) eqn:E; simpl.
    + apply String.eqb_eq in E. subst k0.
      destruct (String.eqb k k') eqn:E'; auto.
      apply String.eqb_eq in E'. contradiction.
    + now rewrite IH.
Qed.

Lemma OD_get_del_eq k d : OD.get k (OD.del k d) = None.
Proof.
  induction d as [|[k' v'] d IH]; simpl; auto.
  destruct (String.eqb k' k) eqn:E; simpl; auto. now rewrite E.
Qed.

Lemma OD_get_del_ne k k' d :
  k <> k' -> OD.get k' (OD.del k d) = OD.get k' d.
Proof.
  intros Hne. induction d as [|[k0 v0] d IH]; simpl; auto.
  destruct (String.eqb k0 k) eqn:E; simpl.
  - apply String.eqb_eq in E. subst k0.
    destruct (String.eqb k k') eqn:E'; auto.
    apply String.eqb_eq in E'. contradiction.
  - now rewrite IH.
Qed.

Lemma OD_mem_del k d : OD.mem k (OD.del k d) = false.
Proof. unfold OD.mem. now rewrite OD_get_del_eq. Qed.

Lemma OD_length_set k v d :
  (length (OD.set k v d) <= S (length d))%nat.
Proof.
  induction d as [|[k' v'] d IH]; simpl; auto.
  destruct (String.eqb k' k); simpl; lia.
Qed.

Lemma OD_length_del k d : (length (OD.del k d) <= length d)%nat.
Proof.
  induction d as [|[k' v'] d IH]; simpl; auto.
  destruct (String.eqb k' k); simpl; lia.
Qed.

Lemma OD_del_filter k d :
  OD.del k d = List.filter (fun e => negb (String.eqb (fst e) k)) d.
Proof.
  induction d as [|[k' v'] d IH]; simpl; auto.
  destruct (String.eqb k' k); simpl; now rewrite IH.
Qed.

Lemma OD_get_In k v d : OD.get k d = Some v -> In (k, v) d.
Proof.
  induction d as [|[k' v'] d IH]; simpl; [discriminate|].
  destruct (String.eqb k' k) eqn:E.
  - apply String.eqb_eq in E. intros [= ->]. subst. now left.
  - intros H. right. auto.
Qed.

Lemma OD_In_get k v d :
  List.NoDup (OD.keys d) -> In (k, v) d -> OD.get k d = Some v.
Proof.
  induction d as [|[k' v'] d IH]; simpl; [tauto|].
  intros Hnd [H|H].
  - injection H as -> ->. now rewrite String.eqb_refl.
  - inversion Hnd as [|? ? Hnotin Hnd']; subst.
    destruct (String.eqb k' k) eqn:E.
    + apply String.eqb_eq in E. subst k'.
      exfalso. apply Hnotin. unfold OD.keys.
      change k with (fst (k, v)). now apply in_map.
    + auto.
Qed.

End OD_facts.

(** ** The file system *)

Lemma read_dir_unlink_eq f dir name :
  FS.read_dir (FS.unlink f dir name) dir = OD.del name (FS.read_dir f dir).
Proof. unfold FS.unlink, FS.read_dir at 1. now rewrite lookup_insert_eq. Qed.

Lemma read_dir_unlink_ne f dir dir' name :
  dir <> dir' -> FS.read_dir (FS.unlink f dir name) dir' = FS.read_dir f dir'.
Proof.
  intros H. unfold FS.unlink, FS.read_dir at 1.
  now rewrite lookup_insert_ne.
Qed.

Lemma read_dir_write_eq f dir name c :
  FS.read_dir (FS.write f dir name c) dir = OD.set name c (FS.read_dir f dir).
Proof. unfold FS.write, FS.read_dir at 1. now rewrite lookup_insert_eq. Qed.

Lemma read_dir_write_ne f dir dir' name c :
  dir <> dir' -> FS.read_dir (FS.write f dir name c) dir' = FS.read_dir f dir'.
Proof.
  intros H. unfold FS.write, FS.read_dir at 1.
  now rewrite lookup_insert_ne.
Qed.

Lemma read_dir_mkdir f dir dir' :
  FS.read_dir (FS.mkdir f dir) dir' = FS.read_dir f dir'.
Proof.
  unfold FS.mkdir. destruct (f !! dir) eqn:E; auto.
  unfold FS.read_dir. destruct (decide (dir = dir')) as [->|Hne].
  - now rewrite lookup_insert_eq, E.
  - now rewrite lookup_insert_ne.
Qed.

Lemma file_exists_unlink f dir name :
  FS.file_exists (FS.unlink f dir name) dir name = false.
Proof.
  unfold FS.file_exists. rewrite read_dir_unlink_eq. apply OD_mem_del.
Qed.

(** ** Termination of a session *)

Lemma fs_device_cleanup s w : fs (device_cleanup s w) = fs w.
Proof.
  unfold device_cleanup.
  destruct (get_device w _); auto.
  destruct (DeviceType_eqb _ _); auto.
  destruct (config_autoboot _) as [[|]|]; auto.
Qed.

Lemma file_exists_after_delete sid m w :
  FS.file_exists (fs (_delete_session_file sid m w)) (session_dir m)
                 (session_file sid) = false.
Proof.
  unfold _delete_session_file.
  destruct (FS.file_exists (fs w) (session_dir m) (session_file sid)) eqn:E;
    simpl; auto.
  apply file_exists_unlink.
Qed.

Lemma terminate_session_present sid m w info :
  OD.get sid (sessions m) = Some info ->
  terminate_session sid m w =
    (Ok tt, with_sessions (OD.del sid (sessions m)) m,
     _delete_session_file sid (with_sessions (OD.del sid (sessions m)) m)
                          (device_cleanup info w)).
Proof. intros H. unfold terminate_session. now rewrite H. Qed.

Lemma terminate_session_static sid m w r m' w' :
  terminate_session sid m w = (r, m', w') ->
  session_dir m' = session_dir m /\ max_sessions m' = max_sessions m
  /\ auto_cleanup_hours m' = auto_cleanup_hours m
  /\ (length (sessions m') <= length (sessions m))%nat.
Proof.
  unfold terminate_session.
  destruct (OD.get sid (sessions m)).
  - intros [= <- <- <-]. simpl. repeat split; auto. apply OD_length_del.
  - destruct (FS.file_exists _ _ _); intros [= <- <- <-]; auto.
Qed.


(** ** Strings and generated session ids *)

Lemma str_length_app (a b : string) :
  String.length (a ++ b) = (String.length a + String.length b)%nat.
Proof. induction a; simpl; auto. Qed.

Lemma str_count_app c (a b : string) :
  PyStr.count c (a ++ b) = (PyStr.count c a + PyStr.count c b)%nat.
Proof. induction a; simpl; auto. rewrite IHa. lia. Qed.

Lemma str_has_char_app c (a b : string) :
  PyStr.has_char c (a ++ b) = PyStr.has_char c a || PyStr.has_char c b.
Proof. induction a; simpl; auto. rewrite IHa. now rewrite orb_assoc. Qed.

Lemma str_length_take n (s : string) :
  String.length (PyStr.take n s) = Nat.min n (String.length s).
Proof.
  revert s. induction n as [|n IH]; intros [|a s]; simpl; auto.
Qed.

Lemma str_take_app_exact n (a b : string) :
  String.length a = n -> PyStr.take n (a ++ b) = a.
Proof.
  revert a. induction n as [|n IH]; intros [|c a]; simpl; try discriminate.
  - destruct b; auto.
  - intros [= H]. now rewrite IH.
Qed.

Lemma str_length_hex_pad w v : String.length (PyStr.hex_pad w v) = w.
Proof.
  revert v. induction w as [|w IH]; intros v; simpl; auto.
  rewrite str_length_app, IH. simpl. lia.
Qed.

Lemma unique_id_length r :
  String.length (PyStr.take 8 (generate_uuid4 r)) = 8%nat.
Proof.
  unfold generate_uuid4. cbv zeta.
  rewrite str_take_app_exact.
  - rewrite str_length_take, str_length_hex_pad. reflexivity.
  - rewrite str_length_take, str_length_hex_pad. reflexivity.
Qed.

Lemma str_prefix_app (p t : string) : String.prefix p (p ++ t) = true.
Proof.
  induction p as [|a p IH]; simpl.
  - now destruct t.
  - destruct (ascii_dec a a); [exact IH | congruence].
Qed.

Lemma session_prefix_looks_like_session_id (t : string) :
  (3 <= String.length t)%nat ->
  _looks_like_session_id ("session_" ++ t) = true.
Proof.
  intros Hlen. unfold _looks_like_session_id.
  rewrite !andb_true_iff. split; [split|].
  - rewrite str_has_char_app. reflexivity.
  - apply Nat.ltb_lt. rewrite str_length_app.
    change (String.length "session_") with 8%nat. lia.
  - unfold PyStr.startswith_any, PyStr.startswith.
    cbn [existsb]. now rewrite str_prefix_app.
Qed.

(** Every id [_generate_session_id] returns passes the shape test of the
    resolver. *)
Lemma generated_id_looks_like_session_id custom_name ts r :
  _looks_like_session_id (_generate_session_id custom_name ts r) = true.
Proof.
  unfold _generate_session_id. cbv zeta.
  pose proof (unique_id_length r) as Hlen.
  set (uid := PyStr.take 8 (generate_uuid4 r)) in *.
  assert (Htail : (9 <= String.length (PyStr.of_int ts ++ "_" ++ uid))%nat).
  { rewrite !str_length_app, Hlen.
    change (String.length "_") with 1%nat. lia. }
  destruct custom_name as [[|c n]|].
  - apply session_prefix_looks_like_session_id. lia.
  - unfold _looks_like_session_id.
    rewrite !andb_true_iff. split; [split|].
    + rewrite (str_has_char_app _ (String c n)), (str_has_char_app _ "_").
      change (PyStr.has_char "_" "_") with true.
      now rewrite orb_true_r.
    + apply Nat.ltb_lt.
      rewrite (str_length_app (String c n)), (str_length_app "_").
      change (String.length "_") with 1%nat.
      change (String.length (String c n)) with (S (String.length n)). lia.
    + apply orb_true_iff. right. apply Nat.leb_le.
      rewrite (str_count_app _ (String c n)), (str_count_app _ "_"),
        (str_count_app _ (PyStr.of_int ts)), (str_count_app _ "_").
      change (PyStr.count "_" "_") with 1%nat. lia.
  - apply session_prefix_looks_like_session_id. lia.
Qed.

(** ** Resolution of a raw device identity *)

(** C4.  A string that does not pass the shape test
    [_looks_like_session_id] is returned unchanged by [_resolve_target];
    neither the utilities object nor any session manager nor the file
    system is touched, and the answer does not depend on them. *)
Theorem C4_resolve_raw_device_identity (s : string) (e : init_env)
  (u : utilities) (p : process) :
  _looks_like_session_id s = false ->
  _resolve_target (Target_str s) e u p = (Ok s, u, p).
Proof. intros H. unfold _resolve_target. now rewrite H. Qed.

(** A device identity without an underscore never passes the shape test. *)
Lemma no_underscore_not_session_shaped (s : string) :
  PyStr.has_char "_" s = false -> _looks_like_session_id s = false.
Proof. intros H. unfold _looks_like_session_id. now rewrite H. Qed.

Lemma C4_witness :
  _resolve_target (Target_str "5EA6C1B0-90AB-4CDE-8F01-23456789ABCD")
                  (mk_init_env (mk_datetime 2024 3 9 14 0 0 0)
                               (mk_datetime 2024 3 9 14 0 0 0) 1709992800)
                  new_utilities
                  (mk_process ∅ (mk_world ∅ [] []))
  = (Ok "5EA6C1B0-90AB-4CDE-8F01-23456789ABCD", new_utilities,
     mk_process ∅ (mk_world ∅ [] [])).
Proof.
  apply C4_resolve_raw_device_identity.
  apply no_underscore_not_session_shaped. reflexivity.
Defined.

(** ** Creation of a session *)

Lemma cleanup_loop_static now secs snapshot :
  forall cleaned m w cleaned' m' w',
    cleanup_loop now secs snapshot cleaned m w = (cleaned', m', w') ->
    session_dir m' = session_dir m /\ max_sessions m' = max_sessions m
    /\ auto_cleanup_hours m' = auto_cleanup_hours m
    /\ (length (sessions m') <= length (sessions m))%nat.
Proof.
  induction snapshot as [|[sid info] rest IH]; intros cleaned m w cleaned' m' w'.
  - simpl. intros [= <- <- <-]. repeat split; auto.
  - simpl. destruct (DT.age_exceeds _ _ _).
    + destruct (terminate_session sid m w) as [[r m1] w1] eqn:Ht.
      apply terminate_session_static in Ht as (Hd & Hm & Hh & Hl).
      destruct r; intros H; apply IH in H as (Hd' & Hm' & Hh' & Hl');
        repeat split; try congruence; lia.
    + apply IH.
Qed.

(** The reap pass leaves in place every session it does not find too old. *)
Lemma cleanup_loop_keeps now secs sid info snapshot :
  (forall info', In (sid, info') snapshot ->
                 DT.age_exceeds now (SessionInfo.created_at info') secs = false) ->
  forall cleaned m w cleaned' m' w',
    cleanup_loop now secs snapshot cleaned m w = (cleaned', m', w') ->
    OD.get sid (sessions m) = Some info ->
    OD.get sid (sessions m') = Some info.
Proof.
  induction snapshot as [|[sid' info'] rest IH];
    intros Hyoung cleaned m w cleaned' m' w'.
  - simpl. now intros [= <- <- <-].
  - simpl. intros Hloop Hget.
    assert (Hrest : forall i, In (sid, i) rest ->
                DT.age_exceeds now (SessionInfo.created_at i) secs = false).
    { intros i Hi. apply Hyoung. now right. }
    destruct (DT.age_exceeds now (SessionInfo.created_at info') secs) eqn:Hage.
    + assert (Hne : sid' <> sid).
      { intros ->. rewrite (Hyoung info') in Hage; [discriminate | now left]. }
      destruct (terminate_session sid' m w) as [[r m1] w1] eqn:Ht.
      assert (Hget1 : OD.get sid (sessions m1) = Some info).
      { unfold terminate_session in Ht.
        destruct (OD.get sid' (sessions m)).
        - injection Ht as <- <- <-. simpl. now rewrite OD_get_del_ne.
        - destruct (FS.file_exists _ _ _); injection Ht as <- <- <-; auto. }
      destruct r; eapply IH; eauto.
    + eapply IH; eauto.
Qed.

Lemma cleanup_inactive_sessions_keeps hours now m w cleaned m' w' sid info :
  List.NoDup (OD.keys (sessions m)) ->
  cleanup_inactive_sessions hours now m w = (cleaned, m', w') ->
  OD.get sid (sessions m) = Some info ->
  DT.age_exceeds now (SessionInfo.created_at info) (hours * 3600) = false ->
  OD.get sid (sessions m') = Some info.
Proof.
  intros Hnd Hc Hget Hyoung. unfold cleanup_inactive_sessions in Hc.
  eapply cleanup_loop_keeps; eauto.
  intros info' Hin. apply (OD_In_get _ _ _ Hnd) in Hin.
  rewrite Hget in Hin. now injection Hin as <-.
Qed.

Lemma OD_In_get_some {V} k (v : V) (d : list (string * V)) :
  In (k, v) d -> OD.get k d <> None.
Proof.
  induction d as [|[k' v'] d IH]; simpl; [tauto|].
  intros [H|H]; destruct (String.eqb k' k) eqn:E; try discriminate; auto.
  injection H as -> ->. now rewrite String.eqb_refl in E.
Qed.

Lemma OD_length_del_lt {V} k (d : list (string * V)) :
  OD.get k d <> None -> (length (OD.del k d) < length d)%nat.
Proof.
  induction d as [|[k' v'] d IH]; simpl; [congruence|].
  destruct (String.eqb k' k); intros H; simpl.
  - pose proof (OD_length_del k d). lia.
  - specialize (IH H). lia.
Qed.

(** A reap pass either changes nothing or leaves fewer sessions. *)
Lemma cleanup_loop_unchanged_or_shrinks now secs snapshot :
  forall cleaned m w cleaned' m' w',
    (forall sid info, In (sid, info) snapshot ->
                      OD.get sid (sessions m) <> None) ->
    cleanup_loop now secs snapshot cleaned m w = (cleaned', m', w') ->
    (m' = m /\ w' = w)
    \/ (length (sessions m') < length (sessions m))%nat.
Proof.
  induction snapshot as [|[sid info] rest IH];
    intros cleaned m w cleaned' m' w' Hin.
  - simpl. intros [= <- <- <-]. now left.
  - simpl. destruct (DT.age_exceeds _ _ _).
    + destruct (OD.get sid (sessions m)) as [i|] eqn:Hget;
        [|exfalso; apply (Hin sid info); [now left | exact Hget]].
      rewrite (terminate_session_present _ _ _ _ Hget).
      intros Hloop. right.
      apply cleanup_loop_static in Hloop as (_ & _ & _ & Hl).
      simpl in Hl.
      assert (Hlt : (length (OD.del sid (sessions m)) < length (sessions m))%nat)
        by (apply OD_length_del_lt; congruence).
      lia.
    + apply IH. intros s i Hi. apply (Hin s i). now right.
Qed.

Lemma create_session_capacity config e m w r m' w' :
  create_session config e m w = (r, m', w') ->
  max_sessions m' = max_sessions m
  /\ (len_sessions m <= max_sessions m -> len_sessions m' <= max_sessions m').
Proof.
  unfold create_session, len_sessions.
  destruct (max_sessions m <=? Z.of_nat (length (sessions m))) eqn:Hfull.
  - unfold cleanup_inactive_sessions.
    destruct (cleanup_loop _ _ _ _ _ _) as [[c m1] w1] eqn:Hc.
    apply cleanup_loop_static in Hc as (_ & Hm & _ & Hl).
    destruct (max_sessions m1 <=? Z.of_nat (length (sessions m1))) eqn:Hfull1.
    + intros [= <- <- <-]. split; [auto|]. intros. lia.
    + apply Z.leb_gt in Hfull1.
      destruct (prepared e).
      * intros [= <- <- <-]. simpl. split; [auto|]. intros _.
        pose proof (OD_length_set
          (_generate_session_id
             (SessionConfig.session_name (default SessionConfig.default config))
             (time_time e) (randbits e))
          (SessionInfo.mk
             (_generate_session_id
                (SessionConfig.session_name (default SessionConfig.default config))
                (time_time e) (randbits e))
             (DeviceInfo.udid a) (DeviceInfo.device_type a) (now_created e)
             (session_metadata a (default SessionConfig.default config)))
          (sessions m1)). lia.
      * intros [= <- <- <-]. split; [auto|]. intros. lia.
  - rewrite Hfull. apply Z.leb_gt in Hfull.
    destruct (prepared e).
    + intros [= <- <- <-]. simpl. split; [auto|]. intros _.
      pose proof (OD_length_set
        (_generate_session_id
           (SessionConfig.session_name (default SessionConfig.default config))
           (time_time e) (randbits e))
        (SessionInfo.mk
           (_generate_session_id
              (SessionConfig.session_name (default SessionConfig.default config))
              (time_time e) (randbits e))
           (DeviceInfo.udid a) (DeviceInfo.device_type a) (now_created e)
           (session_metadata a (default SessionConfig.default config)))
        (sessions m)). lia.
    + intros [= <- <- <-]. split; [auto|]. intros. lia.
Qed.

Lemma create_many_capacity calls :
  forall m w m' w',
    len_sessions m <= max_sessions m ->
    create_many calls m w = (m', w') ->
    len_sessions m' <= max_sessions m' /\ max_sessions m' = max_sessions m.
Proof.
  induction calls as [|[config e] rest IH]; intros m w m' w' Hcap.
  - simpl. intros [= <- <-]. auto.
  - simpl. destruct (create_session config e m w) as [[r m1] w1] eqn:Hc.
    apply create_session_capacity in Hc as [Hmax Hle].
    intros Hrest. apply IH in Hrest as [H1 H2]; [|auto].
    split; [auto | congruence].
Qed.

Ltac solve_nodup :=
  repeat (apply List.NoDup_cons; [simpl; intuition discriminate|]);
  apply List.NoDup_nil.

(** The third [create_session] on a store of capacity two that holds two
    sessions younger than an hour raises [SessionError] and evicts
    nothing. *)
Example create_at_capacity_fails :
  create_session None (Demo.env_create Demo.device_b true)
                 (Demo.store 2 Demo.two_sessions) Demo.world0
  = (Raise (SessionError
       "Maximum sessions (2) reached. Please terminate existing sessions first."),
     Demo.store 2 Demo.two_sessions, Demo.world0).
Proof. reflexivity. Qed.



(** With a failing write the call returns the id, the session is in memory
    and the session directory has no file. *)
Example create_with_failed_save :
  let '(r, m', w') :=
    create_session None (Demo.env_create Demo.device_a false)
                   (Demo.store 10 []) Demo.world0 in
  r = Ok Demo.sid0
  /\ OD.mem Demo.sid0 (sessions m') = true
  /\ FS.read_dir (fs w') default_session_dir = [].
Proof. vm_compute. auto. Qed.

(** C9 (as amended).  The id [create_session] returns is the one
    [_generate_session_id] builds from the session name, the Unix time and
    the random bits: a label, the decimal timestamp and the first eight
    hexadecimal digits of the generated UUID, joined by underscores.  The
    new record is stored under that id with no test of whether the id is
    already a key of [self.sessions]: whatever the store held before, the id
    maps to the new record afterwards. *)
Theorem C9_generated_id_stored_unchecked
  (config : option SessionConfig.t) (e : create_env) (m : manager) (w : world)
  (sid : string) (m' : manager) (w' : world) :
  create_session config e m w = (Ok sid, m', w') ->
  sid = _generate_session_id
          (SessionConfig.session_name (default SessionConfig.default config))
          (time_time e) (randbits e)
  /\ (exists label suffix,
         sid = label ++ "_" ++ PyStr.of_int (time_time e) ++ "_" ++ suffix
         /\ suffix = PyStr.take 8 (generate_uuid4 (randbits e))
         /\ String.length suffix = 8%nat)
  /\ (exists device,
         prepared e = Ok device
         /\ OD.get sid (sessions m')
            = Some (SessionInfo.mk sid (DeviceInfo.udid device)
                      (DeviceInfo.device_type device) (now_created e)
                      (session_metadata device
                         (default SessionConfig.default config)))).
Proof.
  unfold create_session.
  destruct (if max_sessions m <=? len_sessions m
            then let '(_, m'0, w'0) :=
                   cleanup_inactive_sessions 1 (now_reap e) m w in
                 (m'0, w'0)
            else (m, w)) as [m1 w1].
  destruct (max_sessions m1 <=? len_sessions m1); [discriminate|].
  destruct (prepared e) as [device|err]; [|discriminate].
  intros [= <- <- <-]. split; [reflexivity|]. split.
  - unfold _generate_session_id.
    destruct (SessionConfig.session_name (default SessionConfig.default config))
      as [[|c n]|].
    + exists "session", (PyStr.take 8 (generate_uuid4 (randbits e))).
      repeat split; auto using unique_id_length.
    + exists (String c n), (PyStr.take 8 (generate_uuid4 (randbits e))).
      repeat split; auto using unique_id_length.
    + exists "session", (PyStr.take 8 (generate_uuid4 (randbits e))).
      repeat split; auto using unique_id_length.
  - exists device. split; [reflexivity|]. simpl. apply OD_get_set_eq.
Qed.

Lemma C9_witness :
  Demo.sid0 = _generate_session_id
          (SessionConfig.session_name (default SessionConfig.default None))
          (time_time (Demo.env_create Demo.device_b true))
          (randbits (Demo.env_create Demo.device_b true))
  /\ (exists label suffix,
         Demo.sid0 = label ++ "_"
                     ++ PyStr.of_int (time_time (Demo.env_create Demo.device_b true))
                     ++ "_" ++ suffix
         /\ suffix = PyStr.take 8
                       (generate_uuid4 (randbits (Demo.env_create Demo.device_b true)))
         /\ String.length suffix = 8%nat)
  /\ (exists device,
         prepared (Demo.env_create Demo.device_b true) = Ok device
         /\ OD.get Demo.sid0
              (sessions
                 (snd (fst (create_session None
                              (Demo.env_create Demo.device_b true)
                              (Demo.store 10
                                 [(Demo.sid0,
                                   Demo.session_of Demo.sid0 Demo.device_a
                                                   Demo.t_earlier)])
                              Demo.world0))))
            = Some (SessionInfo.mk Demo.sid0 (DeviceInfo.udid device)
                      (DeviceInfo.device_type device)
                      (now_created (Demo.env_create Demo.device_b true))
                      (session_metadata device
                         (default SessionConfig.default None)))).
Proof.
  apply (C9_generated_id_stored_unchecked None
           (Demo.env_create Demo.device_b true)
           (Demo.store 10
              [(Demo.sid0,
                Demo.session_of Demo.sid0 Demo.device_a Demo.t_earlier)])
           Demo.world0 Demo.sid0 _
           (snd (create_session None
                   (Demo.env_create Demo.device_b true)
                   (Demo.store 10
                      [(Demo.sid0,
                        Demo.session_of Demo.sid0 Demo.device_a Demo.t_earlier)])
                   Demo.world0))).
  reflexivity.
Defined.

(** The claim of C9 as stated fails: a store that holds a live session
    under the id the generator produces next accepts that id again; the
    live session, bound to device A, is replaced by one bound to device B,
    and the store still counts one session. *)
Lemma C9_counterexample :
  let m := Demo.store 10
             [(Demo.sid0,
               Demo.session_of Demo.sid0 Demo.device_a Demo.t_earlier)] in
  let '(r, m', _) :=
    create_session None (Demo.env_create Demo.device_b true) m Demo.world0 in
  get_device_udid Demo.sid0 m = Ok "UDID-A"
  /\ r = Ok Demo.sid0
  /\ get_device_udid Demo.sid0 m' = Ok "UDID-B"
  /\ length (sessions m') = 1%nat.
Proof. vm_compute. auto. Qed.

(** ** The persisted record: [isoformat] and [fromisoformat] *)

Lemma str_app_nil_l (b : string) : "" ++ b = b.
Proof. reflexivity. Qed.

Lemma str_app_cons (c : ascii) (a b : string) :
  String c a ++ b = String c (a ++ b).
Proof. reflexivity. Qed.

Lemma str_app_assoc (a b c : string) : (a ++ b) ++ c = a ++ (b ++ c).
Proof.
  induction a as [|x a IH]; [reflexivity|].
  now rewrite !str_app_cons, IH.
Qed.

Lemma str_app_empty_r (a : string) : a ++ "" = a.
Proof.
  induction a as [|x a IH]; [reflexivity|].
  now rewrite str_app_cons, IH.
Qed.

Lemma digit_val_digit d : 0 <= d < 10 -> PyStr.digit_val (PyStr.digit d) = Some d.
Proof.
  intros H.
  assert (Hd : d = 0 \/ d = 1 \/ d = 2 \/ d = 3 \/ d = 4 \/ d = 5 \/ d = 6
               \/ d = 7 \/ d = 8 \/ d = 9) by lia.
  repeat (destruct Hd as [-> | Hd]; [reflexivity|]). now subst.
Qed.

Lemma take_digits_snoc w :
  forall s acc,
    PyStr.take_digits (S w) s acc =
    match PyStr.take_digits w s acc with
    | Some (a, String c r) =>
        match PyStr.digit_val c with
        | Some d => Some (a * 10 + d, r)
        | None => None
        end
    | _ => None
    end.
Proof.
  induction w as [|w IH]; intros s acc.
  - simpl. destruct s as [|c s]; auto.
  - change (PyStr.take_digits (S (S w)) s acc)
      with (match s with
            | String c s' =>
                match PyStr.digit_val c with
                | Some d => PyStr.take_digits (S w) s' (acc * 10 + d)
                | None => None
                end
            | EmptyString => None
            end).
    destruct s as [|c s]; [reflexivity|].
    simpl PyStr.take_digits at 2.
    destruct (PyStr.digit_val c); [apply IH | reflexivity].
Qed.

Lemma take_digits_dec_pad w :
  forall v acc rest,
    0 <= v < 10 ^ Z.of_nat w ->
    PyStr.take_digits w (PyStr.dec_pad w v ++ rest) acc
    = Some (acc * 10 ^ Z.of_nat w + v, rest).
Proof.
  induction w as [|w IH]; intros v acc rest Hv.
  - simpl in *. f_equal. f_equal. lia.
  - rewrite take_digits_snoc.
    change (PyStr.dec_pad (S w) v)
      with (PyStr.dec_pad w (v / 10) ++ String (PyStr.digit (v mod 10)) "").
    rewrite str_app_assoc, str_app_cons, str_app_nil_l.
    rewrite Nat2Z.inj_succ, Z.pow_succ_r in * by lia.
    rewrite IH.
    + rewrite digit_val_digit by (apply Z.mod_pos_bound; lia).
      f_equal. f_equal.
      pose proof (Z.div_mod v 10). lia.
    + split.
      * apply Z.div_pos; lia.
      * apply Z.div_lt_upper_bound; lia.
Qed.

Lemma take_digits_dec_pad_0 w v rest :
  0 <= v < 10 ^ Z.of_nat w ->
  PyStr.take_digits w (PyStr.dec_pad w v ++ rest) 0 = Some (v, rest).
Proof. intros H. rewrite take_digits_dec_pad by auto. f_equal. Qed.

Lemma str_drop_app_exact n (a b : string) :
  String.length a = n -> PyStr.drop n (a ++ b) = b.
Proof.
  revert a. induction n as [|n IH]; intros [|c a]; simpl; try discriminate.
  - destruct b; auto.
  - intros [= H]. now apply IH.
Qed.

Lemma str_drop_add n k (s : string) :
  PyStr.drop (n + k) s = PyStr.drop k (PyStr.drop n s).
Proof.
  revert s. induction n as [|n IH]; intros s; [reflexivity|].
  destruct s as [|c s]; simpl; [now destruct k | apply IH].
Qed.

Lemma dec_pad_snoc_app w v (b : string) :
  PyStr.dec_pad (S w) v ++ b
  = PyStr.dec_pad w (v / 10) ++ String (PyStr.digit (v mod 10)) b.
Proof.
  change (PyStr.dec_pad (S w) v)
    with (PyStr.dec_pad w (v / 10) ++ String (PyStr.digit (v mod 10)) "").
  now rewrite str_app_assoc, str_app_cons, str_app_nil_l.
Qed.

Lemma mod_10_cases x :
  x mod 10 = 0 \/ x mod 10 = 1 \/ x mod 10 = 2 \/ x mod 10 = 3 \/ x mod 10 = 4
  \/ x mod 10 = 5 \/ x mod 10 = 6 \/ x mod 10 = 7 \/ x mod 10 = 8 \/ x mod 10 = 9.
Proof. pose proof (Z.mod_pos_bound x 10). lia. Qed.

Ltac by_digit x :=
  let H := fresh in
  pose proof (mod_10_cases x) as H;
  repeat (destruct H as [H | H]; [rewrite H; reflexivity|]);
  rewrite H; reflexivity.

Lemma digit_is_digit x : DT.is_digit (PyStr.digit (x mod 10)) = true.
Proof. by_digit x. Qed.

Lemma digit_not_tz x : DT.is_tz_char (PyStr.digit (x mod 10)) = false.
Proof. by_digit x. Qed.

Lemma digit_not_W x : Ascii.eqb (PyStr.digit (x mod 10)) "W" = false.
Proof. by_digit x. Qed.

Lemma utf8_digit x (s : string) :
  PyStr.utf8 (String (PyStr.digit (x mod 10)) s)
  = String (PyStr.digit (x mod 10)) (PyStr.utf8 s).
Proof.
  pose proof (mod_10_cases x) as H.
  repeat (destruct H as [H | H]; [rewrite H; reflexivity|]).
  rewrite H; reflexivity.
Qed.

Lemma str_length_dec_pad_app w :
  forall v (b : string),
    String.length (PyStr.dec_pad w v ++ b) = (w + String.length b)%nat.
Proof.
  induction w as [|w IH]; intros v b; [reflexivity|].
  rewrite dec_pad_snoc_app, IH. simpl. lia.
Qed.

Lemma str_length_dec_pad w v : String.length (PyStr.dec_pad w v) = w.
Proof.
  rewrite <- (str_app_empty_r (PyStr.dec_pad w v)), str_length_dec_pad_app.
  simpl. lia.
Qed.

Lemma drop_dec_pad_app w v n k (b : string) :
  n = (w + k)%nat ->
  PyStr.drop n (PyStr.dec_pad w v ++ b) = PyStr.drop k b.
Proof.
  intros ->. rewrite str_drop_add. f_equal.
  apply str_drop_app_exact, str_length_dec_pad.
Qed.

Lemma utf8_dec_pad_app w :
  forall v (b : string),
    PyStr.utf8 (PyStr.dec_pad w v ++ b) = PyStr.dec_pad w v ++ PyStr.utf8 b.
Proof.
  induction w as [|w IH]; intros v b; [reflexivity|].
  now rewrite !dec_pad_snoc_app, IH, utf8_digit.
Qed.

Lemma find_tz_from_dec_pad_app w :
  forall v (b : string),
    DT.find_tz_from (PyStr.dec_pad w v ++ b) = (w + DT.find_tz_from b)%nat.
Proof.
  induction w as [|w IH]; intros v b; [reflexivity|].
  rewrite dec_pad_snoc_app, IH.
  cbn [DT.find_tz_from]. rewrite digit_not_tz. lia.
Qed.

Lemma head_dec_pad_app w :
  forall v (b : string),
    exists x, DT.head (PyStr.dec_pad (S w) v ++ b) = PyStr.digit (x mod 10).
Proof.
  induction w as [|w IH]; intros v b.
  - exists v. reflexivity.
  - rewrite dec_pad_snoc_app. apply IH.
Qed.

Lemma head_dec_pad_not_W w v (b : string) :
  Ascii.eqb (DT.head (PyStr.dec_pad (S w) v ++ b)) "W" = false.
Proof.
  destruct (head_dec_pad_app w v b) as [x ->]. apply digit_not_W.
Qed.

Lemma dec_pad_nonempty w v (b : string) :
  exists c t, PyStr.dec_pad (S w) v ++ b = String c t.
Proof.
  revert v b. induction w as [|w IH]; intros v b.
  - do 2 eexists. reflexivity.
  - rewrite dec_pad_snoc_app. apply IH.
Qed.

(** The text after the seconds of [isoformat]. *)
Lemma utf8_fraction us :
  PyStr.utf8 (if us =? 0 then "" else "." ++ PyStr.dec_pad 6 us)
  = (if us =? 0 then "" else "." ++ PyStr.dec_pad 6 us).
Proof.
  destruct (us =? 0); [reflexivity|].
  rewrite str_app_cons, str_app_nil_l.
  change (PyStr.utf8 (String "." (PyStr.dec_pad 6 us)))
    with (String "."%char (PyStr.utf8 (PyStr.dec_pad 6 us))).
  f_equal.
  rewrite <- (str_app_empty_r (PyStr.dec_pad 6 us)) at 1.
  rewrite utf8_dec_pad_app. apply str_app_empty_r.
Qed.

Ltac sep_char :=
  rewrite ?str_app_cons, ?str_app_nil_l.

Lemma utf8_isoformat (d : datetime) : PyStr.utf8 (DT.isoformat d) = DT.isoformat d.
Proof.
  unfold DT.isoformat.
  repeat (rewrite utf8_dec_pad_app; f_equal; sep_char;
          match goal with
          | |- PyStr.utf8 (String ?c ?s) = _ =>
              change (PyStr.utf8 (String c s)) with (String c (PyStr.utf8 s)); f_equal
          end).
  rewrite utf8_dec_pad_app. f_equal. apply utf8_fraction.
Qed.

Lemma length_isoformat (d : datetime) :
  String.length (DT.isoformat d)
  = if microsecond d =? 0 then 19%nat else 26%nat.
Proof.
  unfold DT.isoformat.
  repeat (rewrite str_length_dec_pad_app; sep_char; cbn [String.length]).
  destruct (microsecond d =? 0); [reflexivity|].
  sep_char. cbn [String.length]. now rewrite str_length_dec_pad.
Qed.

Lemma find_separator_isoformat (d : datetime) :
  DT.find_separator (DT.isoformat d) = Some 10%nat.
Proof.
  unfold DT.find_separator. rewrite length_isoformat.
  assert (H7 : Nat.eqb (if microsecond d =? 0 then 19%nat else 26%nat) 7 = false)
    by now destruct (microsecond d =? 0).
  rewrite H7. unfold DT.nth, DT.isoformat.
  rewrite (drop_dec_pad_app 4 (year d) 4 0), (drop_dec_pad_app 4 (year d) 5 1)
    by reflexivity.
  sep_char. cbn [PyStr.drop DT.head Ascii.eqb Bool.eqb].
  now rewrite head_dec_pad_not_W.
Qed.

Lemma parse_date_isoformat (d : datetime) :
  0 <= year d < 10000 -> 0 <= month d < 100 -> 0 <= day d < 100 ->
  DT.parse_date (DT.isoformat d) (Some 10%nat) = Some (year d, month d, day d).
Proof.
  intros Hy Hm Hd. unfold DT.parse_date, DT.isoformat.
  rewrite take_digits_dec_pad_0 by (simpl; lia).
  cbn [mbind option_bind]. sep_char.
  cbn [DT.head Ascii.eqb Bool.eqb PyStr.drop].
  rewrite head_dec_pad_not_W.
  rewrite take_digits_dec_pad_0 by (simpl; lia).
  cbn [mbind option_bind]. sep_char.
  cbn [PyStr.expect Ascii.eqb Bool.eqb mbind option_bind].
  rewrite take_digits_dec_pad_0 by (simpl; lia).
  reflexivity.
Qed.

Lemma str_drop_cons n c (s : string) :
  PyStr.drop (S n) (String c s) = PyStr.drop n s.
Proof. reflexivity. Qed.

Lemma drop_date_isoformat (d : datetime) :
  PyStr.drop 10 (DT.isoformat d)
  = String "T" (PyStr.dec_pad 2 (hour d) ++ ":" ++ PyStr.dec_pad 2 (minute d)
                ++ ":" ++ PyStr.dec_pad 2 (second d)
                ++ (if microsecond d =? 0 then ""
                    else "." ++ PyStr.dec_pad 6 (microsecond d))).
Proof.
  unfold DT.isoformat.
  rewrite (drop_dec_pad_app 4 (year d) 10 6) by reflexivity.
  sep_char. rewrite str_drop_cons.
  rewrite (drop_dec_pad_app 2 (month d) 5 3) by reflexivity.
  sep_char. rewrite str_drop_cons.
  rewrite (drop_dec_pad_app 2 (day d) 2 0) by reflexivity.
  sep_char. reflexivity.
Qed.

Ltac eval_leb :=
  repeat match goal with
         | |- context [?a - ?b <=? ?c] =>
             let r := eval vm_compute in (a - b <=? c) in
             change (a - b <=? c) with r
         end.

Lemma parse_time_isoformat (h mi s us : Z) :
  0 <= h < 100 -> 0 <= mi < 100 -> 0 <= s < 100 -> 0 <= us < 1000000 ->
  DT.parse_time (PyStr.dec_pad 2 h ++ ":" ++ PyStr.dec_pad 2 mi ++ ":"
                 ++ PyStr.dec_pad 2 s
                 ++ (if us =? 0 then "" else "." ++ PyStr.dec_pad 6 us))
  = Some (h, mi, s, us, None).
Proof.
  intros Hh Hmi Hs Hus.
  set (frac := if us =? 0 then "" else "." ++ PyStr.dec_pad 6 us).
  set (ts := PyStr.dec_pad 2 h ++ ":" ++ PyStr.dec_pad 2 mi ++ ":"
             ++ PyStr.dec_pad 2 s ++ frac).
  assert (Hlen : String.length ts = if us =? 0 then 8%nat else 15%nat).
  { unfold ts, frac.
    repeat (rewrite str_length_dec_pad_app; sep_char; cbn [String.length]).
    destruct (us =? 0); [reflexivity|].
    sep_char. cbn [String.length]. now rewrite str_length_dec_pad. }
  assert (Htz : DT.find_tz ts = String.length ts).
  { assert (H : DT.find_tz ts = DT.find_tz_from ts).
    { unfold ts. destruct (dec_pad_nonempty 1 h (":" ++ PyStr.dec_pad 2 mi ++ ":"
                                                 ++ PyStr.dec_pad 2 s ++ frac))
        as (c & t & ->). reflexivity. }
    rewrite H, Hlen. unfold ts, frac.
    repeat (rewrite find_tz_from_dec_pad_app; sep_char;
            cbn [DT.find_tz_from DT.is_tz_char Ascii.eqb Bool.eqb orb]).
    destruct (us =? 0); [reflexivity|].
    sep_char. cbn [DT.find_tz_from DT.is_tz_char Ascii.eqb Bool.eqb orb].
    rewrite <- (str_app_empty_r (PyStr.dec_pad 6 us)).
    now rewrite find_tz_from_dec_pad_app. }
  unfold DT.parse_time. rewrite Htz, Nat.eqb_refl, Hlen.
  unfold DT.parse_hh_mm_ss_ff, ts, frac.
  destruct (us =? 0) eqn:E.
  - apply Z.eqb_eq in E. subst us.
    cbn [DT.parse_hh_mm_ss Z.of_nat Pos.of_succ_nat Pos.succ].
    rewrite take_digits_dec_pad_0 by (simpl; lia).
    cbn [mbind option_bind]. sep_char.
    cbn [DT.head PyStr.drop Ascii.eqb Bool.eqb andb orb negb]. eval_leb.
    cbv iota.
    rewrite take_digits_dec_pad_0 by (simpl; lia).
    cbn [mbind option_bind]. sep_char.
    cbn [DT.head PyStr.drop Ascii.eqb Bool.eqb andb orb negb]. eval_leb.
    cbv iota.
    rewrite take_digits_dec_pad_0 by (simpl; lia).
    cbn [mbind option_bind].
    cbn [DT.head PyStr.drop Ascii.eqb Bool.eqb andb orb negb]. eval_leb.
    reflexivity.
  - cbn [DT.parse_hh_mm_ss Z.of_nat Pos.of_succ_nat Pos.succ].
    rewrite take_digits_dec_pad_0 by (simpl; lia).
    cbn [mbind option_bind]. sep_char.
    cbn [DT.head PyStr.drop Ascii.eqb Bool.eqb andb orb negb]. eval_leb.
    cbv iota.
    rewrite take_digits_dec_pad_0 by (simpl; lia).
    cbn [mbind option_bind]. sep_char.
    cbn [DT.head PyStr.drop Ascii.eqb Bool.eqb andb orb negb]. eval_leb.
    cbv iota.
    rewrite take_digits_dec_pad_0 by (simpl; lia).
    cbn [mbind option_bind]. sep_char.
    cbn [DT.head PyStr.drop Ascii.eqb Bool.eqb andb orb negb]. eval_leb.
    cbv iota. cbn [mbind option_bind List.nth].
    change (6 <=? 15 - 3 - 3 - 3) with true. cbv iota.
    change (Z.to_nat 6) with 6%nat.
    rewrite <- (str_app_empty_r (PyStr.dec_pad 6 us)).
    rewrite take_digits_dec_pad_0 by (simpl; lia).
    cbn [mbind option_bind]. 
    change (DT.skip_digits "") with "".
    cbn [DT.head Ascii.eqb Bool.eqb negb].
    change (10 ^ (6 - 6)) with 1. rewrite Z.mul_1_r. reflexivity.
Qed.

(** [fromisoformat] reads back what [isoformat] writes. *)
Lemma fromisoformat_isoformat (d : datetime) :
  DT.valid d = true -> DT.fromisoformat (DT.isoformat d) = DT.Naive d.
Proof.
  intros Hv. pose proof Hv as Hv'. unfold DT.valid in Hv'.
  repeat rewrite andb_true_iff in Hv'.
  destruct Hv' as [[[[[[[[[[[[[Hy1 Hy2] Hm1] Hm2] Hd1] Hd2] Hh1] Hh2] Hi1] Hi2]
                       Hs1] Hs2] Hu1] Hu2].
  assert (Hdm : DT.days_in_month (year d) (month d) <= 31).
  { unfold DT.days_in_month.
    repeat match goal with |- context [if ?b then _ else _] => destruct b end; lia. }
  unfold DT.fromisoformat.
  rewrite utf8_isoformat, length_isoformat.
  assert (H7 : Nat.ltb (if microsecond d =? 0 then 19%nat else 26%nat) 7 = false)
    by now destruct (microsecond d =? 0).
  rewrite H7. cbv zeta.
  rewrite find_separator_isoformat, parse_date_isoformat by lia.
  assert (H10 : Nat.ltb 10 (if microsecond d =? 0 then 19%nat else 26%nat) = true)
    by now destruct (microsecond d =? 0).
  rewrite H10, drop_date_isoformat.
  change (DT.separator_width (DT.head (String "T" ?s))) with 1%nat.
  rewrite str_drop_cons.
  change (PyStr.drop 0 ?s) with s.
  rewrite parse_time_isoformat by lia.
  destruct d as [y mo dd h mi s us]. simpl in *.
  now rewrite Hv.
Qed.

(** Layouts other than that of [isoformat] that [fromisoformat] reads: the
    basic format, a week date, and a [Z] for UTC; trailing text is
    rejected. *)
Example fromisoformat_other_layouts :
  DT.fromisoformat "20240309T133000" = DT.Naive Demo.t_created
  /\ DT.fromisoformat "2024-W10-6" = DT.Naive (mk_datetime 2024 3 9 0 0 0 0)
  /\ DT.fromisoformat "2024-03-09T13:30:00Z" = DT.Aware
  /\ DT.fromisoformat "2024-03-09T13:30:00 " = DT.Invalid.
Proof. vm_compute. auto. Qed.

(** An age of one microsecond above the threshold exceeds it for a
    threshold of an hour; for a threshold of 2^34 seconds the float
    [total_seconds()] returns is the threshold itself, and the age does not
    exceed it. *)
Example total_seconds_is_a_float :
  DT.total_seconds_gt (3600 * 1000000 + 1) 3600 = true
  /\ DT.total_seconds_gt (2 ^ 34 * 1000000 + 1) (2 ^ 34) = false.
Proof. vm_compute. auto. Qed.

Lemma DeviceType_of_value_value (t : DeviceType) :
  DeviceType_of_value (DeviceType_value t) = Some t.
Proof. now destruct t. Qed.

(** The loop body of [_load_sessions] reads a record written by
    [_save_session] back as the session it was written from. *)
Lemma load_record_session_record (s : SessionInfo.t) (cutoff_time : datetime) :
  DT.valid (SessionInfo.created_at s) = true ->
  DT.lt (SessionInfo.created_at s) cutoff_time = false ->
  load_record cutoff_time (Json (session_record s)) = Loaded s.
Proof.
  intros Hv Hlt. destruct s as [sid udid dt created meta].
  lazy beta iota zeta delta
    [load_record session_record Json.all_in Json.py_in OD.mem OD.get
     required_fields String.eqb Ascii.eqb Bool.eqb default
     SessionInfo.session_id SessionInfo.device_udid SessionInfo.device_type
     SessionInfo.created_at SessionInfo.metadata] in *.
  rewrite fromisoformat_isoformat by assumption.
  rewrite Hlt, DeviceType_of_value_value. reflexivity.
Qed.

(** ** Construction of a store: the startup cleanup *)

Lemma filter_all_true {A} (f : A -> bool) (l : list A) :
  (forall x, f x = true) -> List.filter f l = l.
Proof.
  intros H. induction l as [|x l IH]; simpl; auto.
  now rewrite H, IH.
Qed.

Lemma filter_filter {A} (f g : A -> bool) (l : list A) :
  List.filter f (List.filter g l) = List.filter (fun x => g x && f x) l.
Proof.
  induction l as [|x l IH]; simpl; auto.
  destruct (g x); simpl; [destruct (f x)|]; now rewrite IH.
Qed.

Lemma filter_length {A} (f : A -> bool) (l : list A) :
  (length (List.filter f l) <= length l)%nat.
Proof.
  induction l as [|x l IH]; simpl; auto.
  destruct (f x); simpl; lia.
Qed.

Lemma OD_get_filter_none {V} (f : string * V -> bool) k (d : list (string * V)) :
  (forall e, In e d -> fst e = k -> f e = false) ->
  OD.get k (List.filter f d) = None.
Proof.
  induction d as [|[k' v] d IH]; simpl; auto.
  intros H. destruct (f (k', v)) eqn:E.
  - simpl. destruct (String.eqb k' k) eqn:Ek.
    + apply String.eqb_eq in Ek.
      rewrite (H (k', v)) in E; [discriminate | now left | exact Ek].
    + apply IH. intros e He. apply H. now right.
  - apply IH. intros e He. apply H. now right.
Qed.

Lemma OD_get_del_none {V} k n (d : list (string * V)) :
  OD.get n d = None -> OD.get n (OD.del k d) = None.
Proof.
  intros H. destruct (String.eqb k n) eqn:E.
  - apply String.eqb_eq in E. subst. apply OD_get_del_eq.
  - rewrite OD_get_del_ne; auto.
    intros ->. now rewrite String.eqb_refl in E.
Qed.

Lemma startup_loop_elsewhere cutoff dir files :
  forall f, same_elsewhere dir f (startup_loop cutoff dir files f).
Proof.
  induction files as [|[name content] rest IH]; intros f dir' Hne; simpl; auto.
  rewrite IH by auto.
  destruct (startup_keeps cutoff content); auto.
  now rewrite read_dir_unlink_ne by auto.
Qed.

Lemma startup_loop_read_dir cutoff dir files :
  forall f,
    FS.read_dir (startup_loop cutoff dir files f) dir
    = List.filter (fun e => negb (startup_unlinks cutoff files e))
                  (FS.read_dir f dir).
Proof.
  induction files as [|[name content] rest IH]; intros f.
  - simpl. now rewrite filter_all_true.
  - simpl. rewrite IH.
    destruct (startup_keeps cutoff content) eqn:Hk.
    + apply List.filter_ext. intros e. simpl.
      now rewrite andb_false_r.
    + rewrite read_dir_unlink_eq, OD_del_filter, filter_filter.
      apply List.filter_ext. intros e. simpl.
      rewrite andb_true_r, negb_orb. reflexivity.
Qed.

(** After the startup cleanup every [*.json] file of the directory was
    there before and is one the cleanup keeps. *)
Lemma startup_glob_kept now m w e :
  In e (FS.glob_json (fs (_cleanup_old_sessions_on_startup now m w))
                     (session_dir m)) ->
  In e (FS.glob_json (fs w) (session_dir m))
  /\ startup_keeps (DT.sub_hours now (auto_cleanup_hours m)) (snd e) = true.
Proof.
  unfold _cleanup_old_sessions_on_startup, FS.glob_json. simpl.
  rewrite startup_loop_read_dir.
  rewrite !List.filter_In. intros [[Hin Hun] Hjson].
  split; [auto|].
  apply negb_true_iff in Hun. unfold startup_unlinks in Hun.
  destruct (startup_keeps _ (snd e)) eqn:Hk; auto.
  assert (Hex : existsb
            (fun e' => String.eqb (fst e) (fst e')
                       && negb (startup_keeps
                                  (DT.sub_hours now (auto_cleanup_hours m))
                                  (snd e')))
            (List.filter (fun e0 => PyStr.endswith ".json" (fst e0))
                         (FS.read_dir (fs w) (session_dir m))) = true).
  { apply List.existsb_exists. exists e. split.
    - apply List.filter_In. auto.
    - now rewrite String.eqb_refl, Hk. }
  congruence.
Qed.

(** A file the startup cleanup does not keep is gone after it. *)
Lemma startup_removes now m w name content :
  In (name, content) (FS.glob_json (fs w) (session_dir m)) ->
  startup_keeps (DT.sub_hours now (auto_cleanup_hours m)) content = false ->
  OD.get name
    (FS.read_dir (fs (_cleanup_old_sessions_on_startup now m w)) (session_dir m))
  = None.
Proof.
  intros Hin Hk. unfold _cleanup_old_sessions_on_startup. simpl.
  rewrite startup_loop_read_dir. apply OD_get_filter_none.
  intros e _ He. apply negb_false_iff. unfold startup_unlinks.
  apply List.existsb_exists. exists (name, content). split; auto.
  simpl. rewrite He, String.eqb_refl, Hk. reflexivity.
Qed.

(** A file the startup cleanup keeps, in a directory that lists every name
    once, is still there after it. *)
Lemma startup_keeps_file now m w name content :
  List.NoDup (OD.keys (FS.read_dir (fs w) (session_dir m))) ->
  In (name, content) (FS.glob_json (fs w) (session_dir m)) ->
  startup_keeps (DT.sub_hours now (auto_cleanup_hours m)) content = true ->
  In (name, content)
     (FS.glob_json (fs (_cleanup_old_sessions_on_startup now m w))
                   (session_dir m)).
Proof.
  intros Hnd Hin Hk.
  unfold _cleanup_old_sessions_on_startup, FS.glob_json in *. simpl.
  rewrite startup_loop_read_dir.
  apply List.filter_In in Hin as [Hin Hjson].
  rewrite !List.filter_In. repeat split; auto.
  apply negb_true_iff. unfold startup_unlinks.
  destruct (existsb _ _) eqn:Hex; auto.
  apply List.existsb_exists in Hex as [[n' c'] [Hin' Hbad]].
  apply List.filter_In in Hin' as [Hin' _]. simpl in Hbad.
  apply andb_true_iff in Hbad as [Hn Hc].
  apply String.eqb_eq in Hn. subst n'.
  apply (OD_In_get _ _ _ Hnd) in Hin.
  apply (OD_In_get _ _ _ Hnd) in Hin'.
  rewrite Hin in Hin'. injection Hin' as <-.
  rewrite Hk in Hc. discriminate.
Qed.

Lemma startup_glob_length now m w :
  (length (FS.glob_json (fs (_cleanup_old_sessions_on_startup now m w))
                        (session_dir m))
   <= length (FS.glob_json (fs w) (session_dir m)))%nat.
Proof.
  unfold _cleanup_old_sessions_on_startup, FS.glob_json. simpl.
  rewrite startup_loop_read_dir, filter_filter.
  rewrite (List.filter_ext _
             (fun x => PyStr.endswith ".json" (fst x)
                       && negb (startup_unlinks
                                  (DT.sub_hours now (auto_cleanup_hours m))
                                  (List.filter
                                     (fun e => PyStr.endswith ".json" (fst e))
                                     (FS.read_dir (fs w) (session_dir m))) x)))
    by (intros; apply andb_comm).
  rewrite <- filter_filter. apply filter_length.
Qed.

(** ** Construction of a store: loading and the session limit *)

Lemma only_removes_refl dir f : only_removes dir f f.
Proof. intros n H. exact H. Qed.

Lemma only_removes_trans dir f g h :
  only_removes dir f g -> only_removes dir g h -> only_removes dir f h.
Proof. intros H1 H2 n H. auto. Qed.

Lemma same_elsewhere_refl dir f : same_elsewhere dir f f.
Proof. intros d H. reflexivity. Qed.

Lemma same_elsewhere_trans dir f g h :
  same_elsewhere dir f g -> same_elsewhere dir g h -> same_elsewhere dir f h.
Proof. intros H1 H2 d H. rewrite H2, H1; auto. Qed.

Lemma only_removes_unlink dir f name : only_removes dir f (FS.unlink f dir name).
Proof.
  intros n H. rewrite read_dir_unlink_eq. now apply OD_get_del_none.
Qed.

Lemma same_elsewhere_unlink dir f name :
  same_elsewhere dir f (FS.unlink f dir name).
Proof. intros d H. now rewrite read_dir_unlink_ne by auto. Qed.

Lemma corrupted_dir_differs (dir : string) : dir ++ "/corrupted" <> dir.
Proof.
  intros H. apply (f_equal String.length) in H.
  rewrite str_length_app in H. simpl in H. lia.
Qed.

Lemma only_removes_backup dir name ts f :
  only_removes dir f (_backup_corrupted_session dir name ts f).
Proof.
  unfold _backup_corrupted_session.
  destruct (OD.get name (FS.read_dir f dir)); [|apply only_removes_refl].
  intros n H.
  rewrite read_dir_write_ne by apply corrupted_dir_differs.
  rewrite read_dir_unlink_eq, read_dir_mkdir. now apply OD_get_del_none.
Qed.

Lemma load_loop_only_removes cutoff ts max dir files :
  forall cnt ss f,
    only_removes dir f (snd (load_loop cutoff ts max dir files cnt ss f)).
Proof.
  induction files as [|[name content] rest IH]; intros cnt ss f; simpl.
  - apply only_removes_refl.
  - destruct (load_record cutoff content).
    + destruct (max <=? cnt + 1); [apply only_removes_refl | apply IH].
    + eapply only_removes_trans; [apply only_removes_unlink | apply IH].
    + eapply only_removes_trans; [apply only_removes_unlink | apply IH].
    + eapply only_removes_trans; [apply only_removes_backup | apply IH].
    + apply IH.
    + apply IH.
Qed.

Lemma load_record_not_json cutoff content :
  load_record cutoff content = Corrupted_backed_up ->
  exists raw, content = NotJson raw.
Proof.
  destruct content as [raw|data]; [eauto|].
  unfold load_record.
  destruct (Json.all_in required_fields data) as [[|]|]; try discriminate.
  destruct data; try discriminate.
  destruct (OD.get "created_at" kv) as [[| | |s| |]|]; try discriminate.
  destruct (DT.fromisoformat s); try discriminate.
  destruct (DT.lt d cutoff); try discriminate.
  destruct (OD.get "device_type" kv) as [[| | |t| |]|]; try discriminate.
  destruct (OD.get "session_id" kv) as [[| | |sid| |]|];
    destruct (OD.get "device_udid" kv) as [[| | |udid| |]|];
    destruct (DeviceType_of_value t); discriminate.
Qed.

(** Without a file that is not JSON among those it reads, the loading loop
    touches no directory but the session directory. *)
Lemma load_loop_elsewhere cutoff0 cutoff ts max dir files :
  (forall e, In e files -> startup_keeps cutoff0 (snd e) = true) ->
  forall cnt ss f,
    same_elsewhere dir f (snd (load_loop cutoff ts max dir files cnt ss f)).
Proof.
  induction files as [|[name content] rest IH]; intros Hk cnt ss f; simpl.
  - apply same_elsewhere_refl.
  - assert (Hrest : forall e, In e rest -> startup_keeps cutoff0 (snd e) = true)
      by (intros e He; apply Hk; now right).
    destruct (load_record cutoff content) eqn:Hr.
    + destruct (max <=? cnt + 1); [apply same_elsewhere_refl | now apply IH].
    + eapply same_elsewhere_trans; [apply same_elsewhere_unlink | now apply IH].
    + eapply same_elsewhere_trans; [apply same_elsewhere_unlink | now apply IH].
    + apply load_record_not_json in Hr as [raw ->].
      specialize (Hk (name, NotJson raw) (or_introl eq_refl)). discriminate.
    + now apply IH.
    + now apply IH.
Qed.

Lemma load_loop_length cutoff ts max dir files :
  forall cnt ss f,
    Z.of_nat (length ss) <= cnt ->
    cnt < Z.max max 1 ->
    Z.of_nat (length (fst (load_loop cutoff ts max dir files cnt ss f)))
    <= Z.max max 1.
Proof.
  induction files as [|[name content] rest IH]; intros cnt ss f Hlen Hcnt; simpl.
  - lia.
  - destruct (load_record cutoff content) as [s| | | | |]; try (apply IH; lia).
    pose proof (OD_length_set (SessionInfo.session_id s) s ss) as Hset.
    destruct (max <=? cnt + 1) eqn:Hmax.
    + simpl. lia.
    + apply Z.leb_gt in Hmax. apply IH; lia.
Qed.

(** When the directory lists no more files than the limit, a file that
    loads as [s] is admitted, provided no other file loads under the same
    session id. *)
Lemma load_loop_admits cutoff ts max dir (s : SessionInfo.t) files :
  forall cnt ss f,
    cnt + Z.of_nat (length files) <= max ->
    (forall e s', In e files -> load_record cutoff (snd e) = Loaded s' ->
                  SessionInfo.session_id s' = SessionInfo.session_id s ->
                  s' = s) ->
    (exists e, In e files /\ load_record cutoff (snd e) = Loaded s)
    \/ OD.get (SessionInfo.session_id s) ss = Some s ->
    OD.get (SessionInfo.session_id s)
           (fst (load_loop cutoff ts max dir files cnt ss f)) = Some s.
Proof.
  induction files as [|[name content] rest IH]; intros cnt ss f Hroom Huniq Hin.
  - simpl. destruct Hin as [[e [[] _]]|H]; auto.
  - simpl in Hroom. simpl.
    assert (Huniq' : forall e s', In e rest ->
               load_record cutoff (snd e) = Loaded s' ->
               SessionInfo.session_id s' = SessionInfo.session_id s -> s' = s)
      by (intros e s' He; apply Huniq; now right).
    destruct (load_record cutoff content) as [s'| | | | |] eqn:Hr.
    + assert (Hget : (exists e, In e rest /\ load_record cutoff (snd e) = Loaded s)
                     \/ OD.get (SessionInfo.session_id s)
                          (OD.set (SessionInfo.session_id s') s' ss) = Some s).
      { destruct (String.eqb (SessionInfo.session_id s')
                             (SessionInfo.session_id s)) eqn:Eid.
        - apply String.eqb_eq in Eid.
          assert (s' = s)
            by (apply (Huniq (name, content)); auto; now left).
          subst s'. right. apply OD_get_set_eq.
        - assert (Hne : SessionInfo.session_id s' <> SessionInfo.session_id s)
            by (intros E; rewrite E, String.eqb_refl in Eid; discriminate).
          destruct Hin as [[e [[<-|He] Hl]]|Hg].
          + simpl in Hl. rewrite Hr in Hl. injection Hl as ->. contradiction.
          + left. eauto.
          + right. now rewrite OD_get_set_ne. }
      destruct (max <=? cnt + 1) eqn:Hmax.
      * simpl. destruct Hget as [[e [He _]]|Hg]; auto.
        apply Z.leb_le in Hmax. destruct rest; [destruct He|].
        simpl in Hroom. lia.
      * apply IH; auto. lia.
    + apply IH; auto; [lia|].
      destruct Hin as [[e [[<-|He] Hl]]|Hg]; eauto.
      simpl in Hl. congruence.
    + apply IH; auto; [lia|].
      destruct Hin as [[e [[<-|He] Hl]]|Hg]; eauto.
      simpl in Hl. congruence.
    + apply IH; auto; [lia|].
      destruct Hin as [[e [[<-|He] Hl]]|Hg]; eauto.
      simpl in Hl. congruence.
    + apply IH; auto; [lia|].
      destruct Hin as [[e [[<-|He] Hl]]|Hg]; eauto.
      simpl in Hl. congruence.
    + apply IH; auto; [lia|].
      destruct Hin as [[e [[<-|He] Hl]]|Hg]; eauto.
      simpl in Hl. congruence.
Qed.

Lemma delete_session_file_fs sid m w :
  only_removes (session_dir m) (fs w) (fs (_delete_session_file sid m w))
  /\ same_elsewhere (session_dir m) (fs w) (fs (_delete_session_file sid m w)).
Proof.
  unfold _delete_session_file.
  destruct (FS.file_exists _ _ _); simpl.
  - split; [apply only_removes_unlink | apply same_elsewhere_unlink].
  - split; [apply only_removes_refl | apply same_elsewhere_refl].
Qed.

Lemma terminate_session_fs sid m w r m' w' :
  terminate_session sid m w = (r, m', w') ->
  only_removes (session_dir m) (fs w) (fs w')
  /\ same_elsewhere (session_dir m) (fs w) (fs w').
Proof.
  unfold terminate_session.
  destruct (OD.get sid (sessions m)) as [info|].
  - intros [= <- <- <-].
    pose proof (delete_session_file_fs sid
                  (with_sessions (OD.del sid (sessions m)) m)
                  (device_cleanup info w)) as [H1 H2].
    simpl in H1, H2. rewrite fs_device_cleanup in H1, H2. auto.
  - destruct (FS.file_exists _ _ _); intros [= <- <- <-]; simpl.
    + split; [apply only_removes_unlink | apply same_elsewhere_unlink].
    + split; [apply only_removes_refl | apply same_elsewhere_refl].
Qed.

Lemma enforce_loop_fs to_remove :
  forall m w,
    only_removes (session_dir m) (fs w) (fs (snd (enforce_loop to_remove m w)))
    /\ same_elsewhere (session_dir m) (fs w)
                      (fs (snd (enforce_loop to_remove m w))).
Proof.
  induction to_remove as [|[sid info] rest IH]; intros m w; simpl.
  - split; [apply only_removes_refl | apply same_elsewhere_refl].
  - destruct (terminate_session sid m w) as [[r m1] w1] eqn:Ht.
    pose proof (terminate_session_static _ _ _ _ _ _ Ht) as (Hd & _).
    apply terminate_session_fs in Ht as [H1 H2].
    destruct r.
    + destruct (IH m1 w1) as [H3 H4]. rewrite Hd in H3, H4.
      split; [eapply only_removes_trans | eapply same_elsewhere_trans]; eauto.
    + set (m2 := if OD.mem sid (sessions m1)
                 then with_sessions (OD.del sid (sessions m1)) m1 else m1).
      assert (Hd2 : session_dir m2 = session_dir m)
        by (unfold m2; destruct (OD.mem sid (sessions m1)); simpl; auto).
      destruct (delete_session_file_fs sid m2 w1) as [H5 H6].
      destruct (IH m2 (_delete_session_file sid m2 w1)) as [H3 H4].
      rewrite Hd2 in *.
      split.
      * eapply only_removes_trans; [exact H1|].
        eapply only_removes_trans; eauto.
      * eapply same_elsewhere_trans; [exact H2|].
        eapply same_elsewhere_trans; eauto.
Qed.

Lemma enforce_session_limit_fs m w :
  only_removes (session_dir m) (fs w) (fs (snd (_enforce_session_limit m w)))
  /\ same_elsewhere (session_dir m) (fs w)
                    (fs (snd (_enforce_session_limit m w))).
Proof.
  unfold _enforce_session_limit.
  destruct (max_sessions m <? len_sessions m).
  - apply enforce_loop_fs.
  - split; [apply only_removes_refl | apply same_elsewhere_refl].
Qed.

Lemma enforce_session_limit_within m w :
  len_sessions m <= max_sessions m -> _enforce_session_limit m w = (m, w).
Proof.
  intros H. unfold _enforce_session_limit.
  assert (E : (max_sessions m <? len_sessions m) = false)
    by (apply Z.ltb_ge; lia).
  now rewrite E.
Qed.


Lemma read_dir_with_fs_mkdir w dir dir' :
  FS.read_dir (fs (with_fs (FS.mkdir (fs w) dir) w)) dir' = FS.read_dir (fs w) dir'.
Proof. simpl. apply read_dir_mkdir. Qed.

(** The stages of the constructor, named. *)
Lemma init_unfold session_dir max hours e w :
  init session_dir max hours e w =
  let dir := default default_session_dir session_dir in
  let m0 := mk_manager [] dir max hours in
  let w1 := with_fs (FS.mkdir (fs w) dir) w in
  let w2 := _cleanup_old_sessions_on_startup (now_cleanup e) m0 w1 in
  let m3 := with_sessions
              (fst (load_loop (DT.sub_hours (now_load e) hours) (backup_time e)
                      max dir (FS.glob_json (fs w2) dir) 0 [] (fs w2))) m0 in
  let w3 := with_fs
              (snd (load_loop (DT.sub_hours (now_load e) hours) (backup_time e)
                      max dir (FS.glob_json (fs w2) dir) 0 [] (fs w2))) w2 in
  _enforce_session_limit m3 w3.
Proof.
  unfold init, _load_sessions. simpl.
  destruct (load_loop _ _ _ _ _ _ _ _) as [ss f]. reflexivity.
Qed.


(** ** Construction of a store: what it admits, removes and leaves *)

Lemma substring_whole (s : string) : String.substring 0 (String.length s) s = s.
Proof. induction s as [|c s IH]; simpl; congruence. Qed.

Lemma substring_skip (a b : string) n :
  String.substring (String.length a) n (a ++ b) = String.substring 0 n b.
Proof.
  induction a as [|c a IH]; [reflexivity|].
  rewrite str_app_cons. simpl. exact IH.
Qed.

Lemma endswith_app (a suf : string) : PyStr.endswith suf (a ++ suf) = true.
Proof.
  unfold PyStr.endswith. rewrite str_length_app.
  apply andb_true_iff. split.
  - apply Nat.leb_le. lia.
  - replace (String.length a + String.length suf - String.length suf)%nat
      with (String.length a) by lia.
    rewrite substring_skip, substring_whole. apply String.eqb_refl.
Qed.

Lemma session_file_is_json sid : PyStr.endswith ".json" (session_file sid) = true.
Proof. apply endswith_app. Qed.

Lemma startup_keeps_session_record (s : SessionInfo.t) (cutoff_time : datetime) :
  DT.valid (SessionInfo.created_at s) = true ->
  DT.lt (SessionInfo.created_at s) cutoff_time = false ->
  startup_keeps cutoff_time (Json (session_record s)) = true.
Proof.
  intros Hv Hlt. destruct s as [sid udid dt created meta].
  lazy beta iota zeta delta
    [startup_keeps session_record OD.get String.eqb Ascii.eqb Bool.eqb
     SessionInfo.session_id SessionInfo.device_udid SessionInfo.device_type
     SessionInfo.created_at SessionInfo.metadata] in *.
  rewrite fromisoformat_isoformat by assumption.
  now rewrite Hlt.
Qed.

Lemma glob_json_mkdir f dir dir' :
  FS.glob_json (FS.mkdir f dir) dir' = FS.glob_json f dir'.
Proof. unfold FS.glob_json. now rewrite read_dir_mkdir. Qed.

(** A store built over a directory that holds the saved record of [s]
    admits [s], when the record is not past the expiry at either reading of
    the clock, the directory lists each name once and no more [*.json]
    files than [max_sessions], and no other file loads under the session
    id of [s]. *)
Lemma init_admits_saved (sd : option string) (max hours : Z) (e : init_env)
  (w : world) (s : SessionInfo.t) :
  let dir := default default_session_dir sd in
  List.NoDup (OD.keys (FS.read_dir (fs w) dir)) ->
  In (session_file (SessionInfo.session_id s), Json (session_record s))
     (FS.read_dir (fs w) dir) ->
  DT.valid (SessionInfo.created_at s) = true ->
  DT.lt (SessionInfo.created_at s) (DT.sub_hours (now_cleanup e) hours) = false ->
  DT.lt (SessionInfo.created_at s) (DT.sub_hours (now_load e) hours) = false ->
  Z.of_nat (length (FS.glob_json (fs w) dir)) <= max ->
  (forall f s', In f (FS.glob_json (fs w) dir) ->
                load_record (DT.sub_hours (now_load e) hours) (snd f) = Loaded s' ->
                SessionInfo.session_id s' = SessionInfo.session_id s -> s' = s) ->
  OD.get (SessionInfo.session_id s) (sessions (fst (init sd max hours e w)))
  = Some s.
Proof.
  intros dir Hnd Hin Hv Hlt1 Hlt2 Hcount Huniq.
  rewrite init_unfold. fold dir. cbv zeta.
  set (m0 := mk_manager [] dir max hours).
  set (w1 := with_fs (FS.mkdir (fs w) dir) w).
  set (w2 := _cleanup_old_sessions_on_startup (now_cleanup e) m0 w1).
  set (cutoff := DT.sub_hours (now_load e) hours).
  set (files := FS.glob_json (fs w2) dir).
  assert (Hglob : In (session_file (SessionInfo.session_id s),
                      Json (session_record s)) (FS.glob_json (fs w) dir)).
  { unfold FS.glob_json. apply List.filter_In. split; auto.
    simpl. apply session_file_is_json. }
  assert (Hw1 : FS.glob_json (fs w1) dir = FS.glob_json (fs w) dir)
    by apply glob_json_mkdir.
  assert (Hr1 : FS.read_dir (fs w1) dir = FS.read_dir (fs w) dir)
    by apply read_dir_mkdir.
  assert (Hsub : forall f, In f files -> In f (FS.glob_json (fs w) dir)).
  { intros f Hf. rewrite <- Hw1.
    now apply (startup_glob_kept (now_cleanup e) m0 w1) in Hf as [Hf _]. }
  assert (Hlen : Z.of_nat (length files) <= max).
  { assert (H : (length files <= length (FS.glob_json (fs w1) dir))%nat)
      by exact (startup_glob_length (now_cleanup e) m0 w1).
    rewrite Hw1 in H. lia. }
  assert (Hfile : In (session_file (SessionInfo.session_id s),
                      Json (session_record s)) files).
  { apply (startup_keeps_file (now_cleanup e) m0 w1).
    - change (session_dir m0) with dir. now rewrite Hr1.
    - change (session_dir m0) with dir. now rewrite Hw1.
    - now apply startup_keeps_session_record. }
  assert (Hmax1 : 1 <= max).
  { destruct files; [destruct Hfile | simpl in Hlen; lia]. }
  assert (Hadm : OD.get (SessionInfo.session_id s)
                   (fst (load_loop cutoff (backup_time e) max dir files 0 []
                           (fs w2))) = Some s).
  { apply load_loop_admits.
    - lia.
    - intros f s' Hf. apply Huniq. auto.
    - left. exists (session_file (SessionInfo.session_id s),
                    Json (session_record s)).
      split; auto. cbn [snd]. now apply load_record_session_record. }
  rewrite enforce_session_limit_within; [exact Hadm|].
  change (Z.of_nat (length (fst (load_loop cutoff (backup_time e) max dir
                                   files 0 [] (fs w2)))) <= max).
  assert (H : Z.of_nat (length (fst (load_loop cutoff (backup_time e) max dir
                                       files 0 [] (fs w2)))) <= Z.max max 1).
  { apply load_loop_length; [reflexivity | lia]. }
  lia.
Qed.

(** The constructor removes every [*.json] file its startup cleanup does
    not keep. *)
Lemma init_removes_rejected (sd : option string) (max hours : Z) (e : init_env)
  (w : world) (name : string) (content : file) :
  let dir := default default_session_dir sd in
  In (name, content) (FS.glob_json (fs w) dir) ->
  startup_keeps (DT.sub_hours (now_cleanup e) hours) content = false ->
  FS.file_exists (fs (snd (init sd max hours e w))) dir name = false.
Proof.
  intros dir Hin Hk. rewrite init_unfold. fold dir. cbv zeta.
  set (m0 := mk_manager [] dir max hours).
  set (w1 := with_fs (FS.mkdir (fs w) dir) w).
  set (w2 := _cleanup_old_sessions_on_startup (now_cleanup e) m0 w1).
  unfold FS.file_exists, OD.mem.
  match goal with
  | |- match OD.get name (FS.read_dir (fs (snd (_enforce_session_limit ?m ?w'))) dir)
       with _ => _ end = _ =>
      destruct (enforce_session_limit_fs m w') as [Hrem _]; simpl in Hrem;
      rewrite Hrem; [reflexivity|]
  end.
  apply load_loop_only_removes.
  apply (startup_removes (now_cleanup e) m0 w1 name content); [|exact Hk].
  change (In (name, content) (FS.glob_json (FS.mkdir (fs w) dir) dir)).
  now rewrite glob_json_mkdir.
Qed.

(** The constructor changes no directory but the session directory. *)
Lemma init_elsewhere (sd : option string) (max hours : Z) (e : init_env)
  (w : world) :
  same_elsewhere (default default_session_dir sd) (fs w)
                 (fs (snd (init sd max hours e w))).
Proof.
  rewrite init_unfold. cbv zeta.
  set (dir := default default_session_dir sd).
  set (m0 := mk_manager [] dir max hours).
  set (w1 := with_fs (FS.mkdir (fs w) dir) w).
  set (w2 := _cleanup_old_sessions_on_startup (now_cleanup e) m0 w1).
  intros d Hd.
  match goal with
  | |- FS.read_dir (fs (snd (_enforce_session_limit ?m ?w'))) d = _ =>
      destruct (enforce_session_limit_fs m w') as [_ H]; rewrite (H d Hd);
      clear H
  end.
  cbn [fs with_fs].
  rewrite (load_loop_elsewhere (DT.sub_hours (now_cleanup e) hours)); auto.
  - transitivity (FS.read_dir (fs w1) d).
    + exact (startup_loop_elsewhere _ dir _ (fs w1) d Hd).
    + apply read_dir_mkdir.
  - intros f Hf.
    now apply (startup_glob_kept (now_cleanup e) m0 w1) in Hf as [_ Hf].
Qed.

(** ** What the constructor loads *)




(** ** Files that are not JSON *)

(** The constructor unlinks every [*.json] file that is not JSON and puts
    nothing into the [corrupted] directory: the startup cleanup has removed
    such files before the loading loop, which would move them there, sees
    them. *)
Lemma init_unlinks_not_json (sd : option string) (max hours : Z)
  (e : init_env) (w : world) (name raw : string) :
  let dir := default default_session_dir sd in
  In (name, NotJson raw) (FS.glob_json (fs w) dir) ->
  FS.file_exists (fs (snd (init sd max hours e w))) dir name = false
  /\ FS.read_dir (fs (snd (init sd max hours e w))) (dir ++ "/corrupted")
     = FS.read_dir (fs w) (dir ++ "/corrupted").
Proof.
  intros dir Hin. split.
  - now apply (init_removes_rejected sd max hours e w name (NotJson raw)).
  - apply init_elsewhere. apply corrupted_dir_differs.
Qed.

(** C7.  At the failing input, a session directory whose one file is not
    JSON: after construction the file is gone and the [corrupted] directory
    holds nothing. *)
Theorem C7_constructor_deletes_corrupted_file :
  let w' := snd (init None 10 6 Demo.env_init
                   (Demo.world_with Demo.broken_files)) in
  FS.read_dir (fs w') default_session_dir = []
  /\ FS.read_dir (fs w') (default_session_dir ++ "/corrupted") = [].
Proof. vm_compute. auto. Qed.

(** On the same directory [_load_sessions] alone, the path that handles
    [json.JSONDecodeError], moves the file into [corrupted]. *)
Example load_sessions_backs_up_corrupted_file :
  let '(_, w') :=
    _load_sessions Demo.t_now 1709992800 (Demo.store 10 [])
                   (Demo.world_with Demo.broken_files) in
  FS.read_dir (fs w') default_session_dir = []
  /\ FS.read_dir (fs w') (default_session_dir ++ "/corrupted")
     = [("session_1709991000_aaaaaaaa.json.1709992800.bak",
         NotJson "{ session_id: ")].
Proof. vm_compute. auto. Qed.

(** ** Resolution of a session id *)

Lemma fold_max_ge (l : list nat) (x : nat) :
  In x l -> (x <= fold_right Nat.max 0 l)%nat.
Proof.
  induction l as [|y l IH]; simpl; [tauto|].
  intros [->|H]; [lia|]. specialize (IH H). lia.
Qed.

(** The address the fallback manager is put at holds no object before. *)
Lemma fresh_address_fresh (p : process) : managers p !! fresh_address p = None.
Proof.
  destruct (managers p !! fresh_address p) as [m|] eqn:E; [|reflexivity].
  exfalso. apply elem_of_map_to_list in E.
  assert (Hin : In (fresh_address p) (map fst (map_to_list (managers p)))).
  { apply list_elem_of_In.
    change (fresh_address p) with (fst (fresh_address p, m)).
    now apply list_elem_of_fmap_2. }
  apply fold_max_ge in Hin. unfold fresh_address in Hin at 1. lia.
Qed.

(** A utilities object that refers to a manager holding the session answers
    from that manager and changes nothing. *)
Lemma resolve_configured sid ie u p a m info :
  _looks_like_session_id sid = true ->
  session_manager u = Some a ->
  managers p !! a = Some m ->
  OD.get sid (sessions m) = Some info ->
  _resolve_target (Target_str sid) ie u p
  = (Ok (SessionInfo.device_udid info), u, p).
Proof.
  intros Hs Hu Hm Hget.
  unfold _resolve_target, _get_device_udid_from_session, get_device_udid.
  now rewrite Hs, Hu, Hm, Hget.
Qed.

(** A utilities object with no manager, or whose manager does not hold the
    session, goes on to the fallback manager. *)
Lemma resolve_fallback sid ie u p :
  _looks_like_session_id sid = true ->
  (forall a m, session_manager u = Some a -> managers p !! a = Some m ->
               OD.get sid (sessions m) = None) ->
  _resolve_target (Target_str sid) ie u p = fallback_lookup sid ie u p.
Proof.
  intros Hs Hnone.
  unfold _resolve_target, _get_device_udid_from_session, get_device_udid.
  rewrite Hs.
  destruct (session_manager u) as [a|]; [|reflexivity].
  destruct (managers p !! a) as [m|] eqn:Hm; [|reflexivity].
  now rewrite (Hnone a m eq_refl Hm).
Qed.

(** The claim of C2 as stated fails: the utilities object refers to a store
    that has no record of the id, yet the resolver answers with a device,
    taken from a second store it builds from the default directory, and
    rebinds the utilities object to that store. *)
Lemma C2_counterexample :
  let u := set_session_manager 0 new_utilities in
  let '(r, u', p') :=
    _resolve_target (Target_str Demo.sid0) Demo.env_init u Demo.process_stale in
  _looks_like_session_id Demo.sid0 = true
  /\ (managers Demo.process_stale !! 0%nat) = Some (Demo.store 10 [])
  /\ is_SessionError (get_device_udid Demo.sid0 (Demo.store 10 [])) = true
  /\ r = Ok "UDID-A"
  /\ session_manager u' = Some 1%nat
  /\ (list_sessions <$> (managers p' !! 1%nat)) = Some [Demo.sid0].
Proof. vm_compute. repeat split. Qed.

(** C2 (as amended).  For an input shaped like a session id that the
    configured store (if any) has no record of, the resolver builds a new
    [UnifiedSessionManager()] from the default session directory, at an
    address that held no object.  If that store holds the id, the resolver
    returns its device and rebinds the utilities object to the new store;
    otherwise it raises [SessionError].  Either way the world is left as
    the construction of the new store left it. *)
Theorem C2_resolution_falls_back (sid : string) (ie : init_env)
  (u : utilities) (p : process) :
  _looks_like_session_id sid = true ->
  (forall a m, session_manager u = Some a -> managers p !! a = Some m ->
               OD.get sid (sessions m) = None) ->
  managers p !! fresh_address p = None
  /\ _resolve_target (Target_str sid) ie u p
     = match OD.get sid (sessions (fst (init_default ie (outside p)))) with
       | Some info =>
           (Ok (SessionInfo.device_udid info),
            mk_utilities (Some (fresh_address p)),
            mk_process (<[fresh_address p := fst (init_default ie (outside p))]>
                          (managers p))
                       (snd (init_default ie (outside p))))
       | None =>
           (Raise (SessionError (unresolved_message sid)), u,
            mk_process (managers p) (snd (init_default ie (outside p))))
       end.
Proof.
  intros Hs Hnone. split; [apply fresh_address_fresh|].
  rewrite resolve_fallback by assumption.
  unfold fallback_lookup.
  destruct (init_default ie (outside p)) as [fm w']. reflexivity.
Qed.

Lemma C2_witness :
  managers Demo.process_stale !! fresh_address Demo.process_stale = None
  /\ _resolve_target (Target_str Demo.sid0) Demo.env_init
                     (set_session_manager 0 new_utilities) Demo.process_stale
     = match OD.get Demo.sid0
               (sessions (fst (init_default Demo.env_init
                                 (outside Demo.process_stale)))) with
       | Some info =>
           (Ok (SessionInfo.device_udid info),
            mk_utilities (Some (fresh_address Demo.process_stale)),
            mk_process
              (<[fresh_address Demo.process_stale
                 := fst (init_default Demo.env_init (outside Demo.process_stale))]>
                 (managers Demo.process_stale))
              (snd (init_default Demo.env_init (outside Demo.process_stale))))
       | None =>
           (Raise (SessionError (unresolved_message Demo.sid0)),
            set_session_manager 0 new_utilities,
            mk_process (managers Demo.process_stale)
                       (snd (init_default Demo.env_init
                               (outside Demo.process_stale))))
       end.
Proof.
  apply C2_resolution_falls_back.
  - reflexivity.
  - intros a m Hu Hm. injection Hu as <-.
    vm_compute in Hm. injection Hm as <-. reflexivity.
Defined.

(** What a successful [create_session] has done: a device was found, the
    new record is in the store the reap pass left, and [_save_session] was
    run on the world the reap pass left. *)
Lemma create_session_ok config e m w sid m' w' :
  create_session config e m w = (Ok sid, m', w') ->
  exists device m1 w1,
    prepared e = Ok device
    /\ session_dir m1 = session_dir m
    /\ sid = _generate_session_id
               (SessionConfig.session_name (default SessionConfig.default config))
               (time_time e) (randbits e)
    /\ m' = with_sessions
              (OD.set sid
                 (SessionInfo.mk sid (DeviceInfo.udid device)
                    (DeviceInfo.device_type device) (now_created e)
                    (session_metadata device
                       (default SessionConfig.default config)))
                 (sessions m1)) m1
    /\ w' = _save_session
              (SessionInfo.mk sid (DeviceInfo.udid device)
                 (DeviceInfo.device_type device) (now_created e)
                 (session_metadata device (default SessionConfig.default config)))
              (write_ok e) m' w1.
Proof.
  unfold create_session.
  assert (Hreap : exists m1 w1,
             (if max_sessions m <=? len_sessions m
              then let '(_, m'0, w'0) :=
                     cleanup_inactive_sessions 1 (now_reap e) m w in
                   (m'0, w'0)
              else (m, w)) = (m1, w1) /\ session_dir m1 = session_dir m).
  { destruct (max_sessions m <=? len_sessions m).
    - unfold cleanup_inactive_sessions.
      destruct (cleanup_loop _ _ _ _ _ _) as [[c m1] w1] eqn:Hc.
      apply cleanup_loop_static in Hc as (Hd & _). eauto.
    - eauto. }
  destruct Hreap as (m1 & w1 & -> & Hdir).
  destruct (max_sessions m1 <=? len_sessions m1); [discriminate|].
  destruct (prepared e) as [device|err]; [|discriminate].
  intros [= <- <- <-]. exists device, m1, w1. auto.
Qed.

(** The claim of C1 as stated fails: the store creates a session whose
    record could not be written; a new [UnifiedUtilitiesManager] with no
    session manager then fails to resolve the id just returned. *)
Lemma C1_counterexample :
  match create_session_at 0 None (Demo.env_create Demo.device_a false)
                          Demo.process0 with
  | Some (r, p') =>
      r = Ok Demo.sid0
      /\ (get_device_udid Demo.sid0 <$> (managers p' !! 0%nat))
         = Some (Ok "UDID-A")
      /\ fst (fst (_resolve_target (Target_str Demo.sid0) Demo.env_init
                                   new_utilities p'))
         = Raise (SessionError (unresolved_message Demo.sid0))
  | None => False
  end.
Proof. vm_compute. repeat split. Qed.

(** A record the loading loop admits carries, as a JSON string, the session
    id it is stored under. *)
Lemma load_record_Loaded_session_id cutoff content s :
  load_record cutoff content = Loaded s ->
  record_session_id content = Some (JStr (SessionInfo.session_id s)).
Proof.
  destruct content as [raw|data]; [discriminate|].
  unfold load_record, record_session_id.
  destruct (Json.all_in required_fields data) as [[|]|]; try discriminate.
  destruct data; try discriminate.
  destruct (OD.get "created_at" kv) as [[| | |c| |]|]; try discriminate.
  destruct (DT.fromisoformat c); try discriminate.
  destruct (DT.lt d cutoff); try discriminate.
  destruct (OD.get "device_type" kv) as [[| | |t| |]|]; try discriminate.
  destruct (OD.get "session_id" kv) as [[| | |sid| |]|];
    destruct (OD.get "device_udid" kv) as [[| | |udid| |]|];
    destruct (DeviceType_of_value t); try discriminate.
  now intros [= <-].
Qed.

(** A typed record is never passed over for its types. *)
Lemma load_record_typed cutoff content :
  typed_record content = true -> load_record cutoff content <> Untyped_kept.
Proof.
  destruct content as [raw|data]; [discriminate|].
  unfold load_record, typed_record, str_or_absent.
  destruct (Json.all_in required_fields data) as [[|]|] eqn:Hall;
    try discriminate.
  destruct data; try discriminate.
  cbn [Json.all_in required_fields Json.py_in] in Hall. unfold OD.mem in Hall.
  destruct (OD.get "created_at" kv) as [[| | |c| |]|]; try discriminate.
  destruct (DT.fromisoformat c); try discriminate.
  destruct (DT.lt d cutoff); try discriminate.
  destruct (OD.get "device_type" kv) as [[| | |t| |]|];
    destruct (OD.get "session_id" kv) as [[| | |sid| |]|];
    destruct (OD.get "device_udid" kv) as [[| | |udid| |]|];
    cbn [andb]; intros H; try discriminate H; try discriminate Hall;
    try (destruct (DeviceType_of_value t)); discriminate.
Qed.

(** C1 (as amended).  After [create_session] on the manager at address [a]
    returns id [sid]: that manager maps [sid] to the device the session was
    created on, and every utilities object that refers to that manager
    resolves [sid] to that device, leaving everything as it is.  A new
    utilities object with no session manager resolves [sid] through a store
    it builds from the default session directory; it returns the device
    when the creating store uses that directory, the record was written
    under a name that is a file name ([file_name_ok]), the cutoffs of the
    new store are datetimes, the record has not expired, the directory
    lists each name once and at most ten [*.json] files, and no other file
    carries the same session id. *)
Theorem C1_resolve_after_create (a : nat) (config : option SessionConfig.t)
  (e : create_env) (p : process) (sid : string) (p' : process) :
  create_session_at a config e p = Some (Ok sid, p') ->
  exists device m',
    prepared e = Ok device
    /\ managers p' !! a = Some m'
    /\ get_device_udid sid m' = Ok (DeviceInfo.udid device)
    /\ (forall ie u,
          session_manager u = Some a ->
          _resolve_target (Target_str sid) ie u p'
          = (Ok (DeviceInfo.udid device), u, p'))
    /\ (forall ie,
          session_dir m' = default_session_dir ->
          write_ok e = true ->
          file_name_ok (session_file sid) = true ->
          DT.valid (now_created e) = true ->
          DT.sub_hours_in_range (now_cleanup ie) 6 = true ->
          DT.sub_hours_in_range (now_load ie) 6 = true ->
          DT.lt (now_created e) (DT.sub_hours (now_cleanup ie) 6) = false ->
          DT.lt (now_created e) (DT.sub_hours (now_load ie) 6) = false ->
          List.NoDup
            (OD.keys (FS.read_dir (fs (outside p')) default_session_dir)) ->
          Z.of_nat (length (FS.glob_json (fs (outside p')) default_session_dir))
          <= 10 ->
          (forall f,
              In f (FS.glob_json (fs (outside p')) default_session_dir) ->
              record_session_id (snd f) = Some (JStr sid) ->
              fst f = session_file sid) ->
          exists u' p'',
            _resolve_target (Target_str sid) ie new_utilities p'
            = (Ok (DeviceInfo.udid device), u', p'')).
Proof.
  unfold create_session_at.
  destruct (managers p !! a) as [m|] eqn:Hm; [|discriminate].
  destruct (create_session config e m (outside p)) as [[r m'] w'] eqn:Hc.
  intros [= -> <-].
  pose proof (create_session_ok _ _ _ _ _ _ _ Hc)
    as (device & m1 & w1 & Hdev & Hdir & Hsid & Hm' & Hw').
  set (info := SessionInfo.mk sid (DeviceInfo.udid device)
                 (DeviceInfo.device_type device) (now_created e)
                 (session_metadata device
                    (default SessionConfig.default config))) in *.
  assert (Hget : OD.get sid (sessions m') = Some info)
    by (rewrite Hm'; simpl; apply OD_get_set_eq).
  assert (Hshape : _looks_like_session_id sid = true)
    by (rewrite Hsid; apply generated_id_looks_like_session_id).
  exists device, m'. cbn [managers outside]. rewrite lookup_insert_eq.
  split; [exact Hdev|]. split; [reflexivity|]. split; [|split].
  - unfold get_device_udid. now rewrite Hget.
  - intros ie u Hu.
    apply (resolve_configured sid ie u _ a m' info); auto.
    simpl. apply lookup_insert_eq.
  - intros ie Hdefault Hwrite _ Hvalid _ _ Hlt1 Hlt2 Hnd Hcount Huniq.
    assert (Hres : _resolve_target (Target_str sid) ie new_utilities
                     (mk_process (<[a := m']> (managers p)) w')
                   = fallback_lookup sid ie new_utilities
                       (mk_process (<[a := m']> (managers p)) w')).
    { apply resolve_fallback; [exact Hshape|]. intros a0 m0 Hu. discriminate. }
    assert (Hfile : In (session_file sid, Json (session_record info))
                       (FS.read_dir (fs w') default_session_dir)).
    { apply OD_get_In. rewrite Hw'. unfold _save_session.
      rewrite Hwrite, Hdefault. simpl.
      rewrite read_dir_write_eq. apply OD_get_set_eq. }
    assert (Hadm : OD.get sid (sessions (fst (init_default ie w'))) = Some info).
    { apply (init_admits_saved None 10 6 ie w' info); auto.
      intros f s' Hf Hl Hid.
      assert (Hname : fst f = session_file sid).
      { apply Huniq; [exact Hf|].
        apply load_record_Loaded_session_id in Hl. now rewrite Hl, Hid. }
      apply List.filter_In in Hf as [Hf _]. destruct f as [n c].
      simpl in Hname, Hl. subst n.
      apply (OD_In_get _ _ _ Hnd) in Hf.
      apply (OD_In_get _ _ _ Hnd) in Hfile.
      rewrite Hf in Hfile. injection Hfile as ->.
      rewrite load_record_session_record in Hl by assumption.
      now injection Hl as <-. }
    unfold fallback_lookup in Hres. cbn [outside] in Hres.
    destruct (init_default ie w') as [fm w''] eqn:Hinit.
    cbn [fst] in Hadm. rewrite Hadm in Hres.
    do 2 eexists. exact Hres.
Qed.

Lemma C1_witness :
  (forall ie u,
      session_manager u = Some 0%nat ->
      _resolve_target (Target_str Demo.sid0) ie u Demo.process1
      = (Ok "UDID-A", u, Demo.process1))
  /\ (exists u' p'',
         _resolve_target (Target_str Demo.sid0) Demo.env_init new_utilities
                         Demo.process1
         = (Ok "UDID-A", u', p'')).
Proof.
  destruct (C1_resolve_after_create 0 None (Demo.env_create Demo.device_a true)
              Demo.process0 Demo.sid0 Demo.process1)
    as (device & m' & Hdev & Hm & _ & Ha & Hb).
  - vm_compute. reflexivity.
  - simpl in Hdev. injection Hdev as <-.
    vm_compute in Hm. injection Hm as <-.
    split; [exact Ha|].
    apply Hb.
    + reflexivity.
    + reflexivity.
    + reflexivity.
    + reflexivity.
    + reflexivity.
    + reflexivity.
    + reflexivity.
    + reflexivity.
    + vm_compute. solve_nodup.
    + apply Z.leb_le. vm_compute. reflexivity.
    + intros f Hf _. vm_compute in Hf.
      destruct Hf as [<-|[]]. reflexivity.
Defined.

(** ** Persistence round trip *)





(* ===================================================================== *)
(** * Further properties of the code *)
(* ===================================================================== *)

(** ** Termination touches one session *)

Lemma OD_keys_del_notin {V} k k' (d : list (string * V)) :
  ~ In k' (OD.keys d) -> ~ In k' (OD.keys (OD.del k d)).
Proof.
  induction d as [|[k0 v0] d IH]; simpl; auto.
  intros H. destruct (String.eqb k0 k); simpl; intuition.
Qed.

Lemma OD_length_del_nodup {V} k (d : list (string * V)) :
  List.NoDup (OD.keys d) -> OD.get k d <> None ->
  S (length (OD.del k d)) = length d.
Proof.
  induction d as [|[k' v'] d IH]; simpl; [congruence|].
  intros Hnd Hget. inversion Hnd as [|? ? Hnotin Hnd']; subst.
  destruct (String.eqb k' k) eqn:E.
  - apply String.eqb_eq in E. subst k'.
    assert (Hd : OD.del k d = d).
    { clear -Hnotin. induction d as [|[k0 v0] d IH]; simpl; auto.
      simpl in Hnotin. destruct (String.eqb k0 k) eqn:E.
      - apply String.eqb_eq in E. tauto.
      - f_equal. apply IH. tauto. }
    now rewrite Hd.
  - simpl. f_equal. now apply IH.
Qed.

(** X1.  Terminating a live session whose record has a file name
    ([file_name_ok]) removes that session and its file and nothing else:
    every other session is still mapped as before, the store holds exactly
    one session fewer, every other file of the session directory is as
    before, and no other directory is touched. *)
Theorem X1_terminate_removes_exactly_one (sid : string) (m : manager)
  (w : world) (info : SessionInfo.t) :
  List.NoDup (OD.keys (sessions m)) ->
  file_name_ok (session_file sid) = true ->
  OD.get sid (sessions m) = Some info ->
  exists m' w',
    terminate_session sid m w = (Ok tt, m', w')
    /\ OD.get sid (sessions m') = None
    /\ (forall sid', sid' <> sid ->
                     OD.get sid' (sessions m') = OD.get sid' (sessions m))
    /\ len_sessions m' = len_sessions m - 1
    /\ FS.file_exists (fs w') (session_dir m) (session_file sid) = false
    /\ (forall name, name <> session_file sid ->
                     OD.get name (FS.read_dir (fs w') (session_dir m))
                     = OD.get name (FS.read_dir (fs w) (session_dir m)))
    /\ same_elsewhere (session_dir m) (fs w) (fs w').
Proof.
  intros Hnd _ Hget.
  rewrite (terminate_session_present _ _ _ _ Hget).
  do 2 eexists. split; [reflexivity|].
  split; [apply OD_get_del_eq|].
  split; [intros sid' Hne; apply OD_get_del_ne; congruence|].
  split.
  { unfold len_sessions. simpl.
    pose proof (OD_length_del_nodup sid (sessions m) Hnd) as H.
    rewrite Hget in H. specialize (H ltac:(discriminate)). lia. }
  split.
  { apply (file_exists_after_delete sid
             (with_sessions (OD.del sid (sessions m)) m)). }
  split.
  - intros name Hne. unfold _delete_session_file. simpl.
    rewrite fs_device_cleanup.
    destruct (FS.file_exists (fs w) (session_dir m) (session_file sid)); simpl.
    + rewrite read_dir_unlink_eq. apply OD_get_del_ne. congruence.
    + now rewrite fs_device_cleanup.
  - pose proof (delete_session_file_fs sid
                  (with_sessions (OD.del sid (sessions m)) m)
                  (device_cleanup info w)) as [_ H].
    simpl in H. now rewrite fs_device_cleanup in H.
Qed.

Lemma X1_witness :
  exists m' w',
    terminate_session "session_1709991000_aaaaaaaa"
                      (Demo.store 2 Demo.two_sessions)
                      (Demo.world_with Demo.two_files) = (Ok tt, m', w')
    /\ OD.get "session_1709991000_aaaaaaaa" (sessions m') = None
    /\ (forall sid', sid' <> "session_1709991000_aaaaaaaa" ->
                     OD.get sid' (sessions m')
                     = OD.get sid' (sessions (Demo.store 2 Demo.two_sessions)))
    /\ len_sessions m' = len_sessions (Demo.store 2 Demo.two_sessions) - 1
    /\ FS.file_exists (fs w') default_session_dir
                      (session_file "session_1709991000_aaaaaaaa") = false
    /\ (forall name, name <> session_file "session_1709991000_aaaaaaaa" ->
                     OD.get name (FS.read_dir (fs w') default_session_dir)
                     = OD.get name
                         (FS.read_dir (fs (Demo.world_with Demo.two_files))
                                      default_session_dir))
    /\ same_elsewhere default_session_dir
                      (fs (Demo.world_with Demo.two_files)) (fs w').
Proof.
  apply (X1_terminate_removes_exactly_one "session_1709991000_aaaaaaaa"
           (Demo.store 2 Demo.two_sessions) (Demo.world_with Demo.two_files)
           (Demo.session_of "session_1709991000_aaaaaaaa" Demo.device_a
                            Demo.t_created)).
  - simpl. solve_nodup.
  - reflexivity.
  - reflexivity.
Defined.

(** ** Shutdown on termination *)

Lemma config_autoboot_session_metadata device config :
  config_autoboot (session_metadata device config)
  = Some (SessionConfig.autoboot config).
Proof.
  destruct config as [dn du pv dt ab wc pa sn md].
  lazy beta iota zeta delta
    [config_autoboot session_metadata SessionConfig.asdict OD.get
     String.eqb Ascii.eqb Bool.eqb Json.truthy SessionConfig.autoboot
     SessionConfig.device_name SessionConfig.device_udid
     SessionConfig.platform_version SessionConfig.device_type
     SessionConfig.wait_for_connection SessionConfig.prefer_available
     SessionConfig.session_name SessionConfig.metadata SessionConfig.opt_str].
  reflexivity.
Qed.

(** X2.  Terminating a session that [create_session] made sends a shutdown
    request for its device exactly when the device manager still knows the
    device, knows it as a simulator, and the session was configured with
    [autoboot]; in every other case (real device, device gone, autoboot off)
    no request is sent.  Nothing else is ever requested. *)
Theorem X2_shutdown_on_terminate (config : option SessionConfig.t)
  (e : create_env) (m : manager) (w : world) (sid : string) (m' : manager)
  (w' w2 : world) :
  create_session config e m w = (Ok sid, m', w') ->
  exists device,
    prepared e = Ok device
    /\ shutdown_requests (snd (terminate_session sid m' w2))
       = (shutdown_requests w2
          ++ match get_device w2 (DeviceInfo.udid device) with
             | Some d =>
                 if DeviceType_eqb (DeviceInfo.device_type d) SIMULATOR
                    && SessionConfig.autoboot
                         (default SessionConfig.default config)
                 then [DeviceInfo.udid device]
                 else []
             | None => []
             end)%list.
Proof.
  intros Hc.
  apply create_session_ok in Hc
    as (device & m1 & w1 & Hdev & _ & _ & Hm' & _).
  exists device. split; [exact Hdev|].
  assert (Hget : OD.get sid (sessions m')
                 = Some (SessionInfo.mk sid (DeviceInfo.udid device)
                           (DeviceInfo.device_type device) (now_created e)
                           (session_metadata device
                              (default SessionConfig.default config))))
    by (rewrite Hm'; apply OD_get_set_eq).
  rewrite (terminate_session_present _ _ _ _ Hget). cbn [snd].
  unfold _delete_session_file.
  match goal with
  | |- shutdown_requests (if ?b then _ else _) = _ => destruct b
  end; cbn [shutdown_requests with_fs];
    unfold device_cleanup; cbn [SessionInfo.device_udid SessionInfo.metadata];
    rewrite config_autoboot_session_metadata;
    destruct (get_device w2 (DeviceInfo.udid device)) as [d|];
    try (now rewrite app_nil_r);
    destruct (DeviceType_eqb (DeviceInfo.device_type d) SIMULATOR);
    cbn [andb]; try (now rewrite app_nil_r);
    destruct (SessionConfig.autoboot (default SessionConfig.default config));
    try (now rewrite app_nil_r); reflexivity.
Qed.

Lemma X2_witness :
  exists device,
    prepared (Demo.env_create Demo.device_a true) = Ok device
    /\ shutdown_requests
         (snd (terminate_session Demo.sid0
                 (snd (fst (create_session None
                              (Demo.env_create Demo.device_a true)
                              (Demo.store 10 []) Demo.world0)))
                 Demo.world0))
       = (shutdown_requests Demo.world0
          ++ match get_device Demo.world0 (DeviceInfo.udid device) with
             | Some d =>
                 if DeviceType_eqb (DeviceInfo.device_type d) SIMULATOR
                    && SessionConfig.autoboot (default SessionConfig.default None)
                 then [DeviceInfo.udid device]
                 else []
             | None => []
             end)%list.
Proof.
  apply (X2_shutdown_on_terminate None (Demo.env_create Demo.device_a true)
           (Demo.store 10 []) Demo.world0 Demo.sid0 _
           (snd (create_session None (Demo.env_create Demo.device_a true)
                   (Demo.store 10 []) Demo.world0))).
  reflexivity.
Defined.

(** ** The reap pass of [cleanup_inactive_sessions] *)

Lemma OD_del_notin {V} k (d : list (string * V)) :
  ~ In k (OD.keys d) -> OD.del k d = d.
Proof.
  induction d as [|[k0 v0] d IH]; simpl; auto.
  intros H. destruct (String.eqb k0 k) eqn:E.
  - apply String.eqb_eq in E. tauto.
  - f_equal. apply IH. tauto.
Qed.

Lemma OD_del_app {V} k (a b : list (string * V)) :
  OD.del k (a ++ b)%list = (OD.del k a ++ OD.del k b)%list.
Proof.
  induction a as [|[k0 v0] a IH]; simpl; auto.
  destruct (String.eqb k0 k); simpl; now rewrite IH.
Qed.

Lemma OD_get_app_notin {V} k (a b : list (string * V)) :
  ~ In k (OD.keys a) -> OD.get k (a ++ b)%list = OD.get k b.
Proof.
  induction a as [|[k0 v0] a IH]; simpl; auto.
  intros H. destruct (String.eqb k0 k) eqn:E.
  - apply String.eqb_eq in E. tauto.
  - apply IH. tauto.
Qed.

Lemma file_exists_false_get f dir name :
  FS.file_exists f dir name = false <-> OD.get name (FS.read_dir f dir) = None.
Proof.
  unfold FS.file_exists, OD.mem.
  destruct (OD.get name (FS.read_dir f dir)); split; congruence.
Qed.

Lemma with_sessions_sessions m : with_sessions (sessions m) m = m.
Proof. now destruct m. Qed.

Lemma cleanup_loop_spec now secs snapshot :
  forall kept cleaned m w,
    sessions m = (kept ++ snapshot)%list ->
    List.NoDup (OD.keys (kept ++ snapshot)%list) ->
    exists w',
      cleanup_loop now secs snapshot cleaned m w
      = ((cleaned
          ++ map fst
               (List.filter
                  (fun item => DT.age_exceeds now
                                 (SessionInfo.created_at (snd item)) secs)
                  snapshot))%list,
         with_sessions
           (kept
            ++ List.filter
                 (fun item => negb (DT.age_exceeds now
                                      (SessionInfo.created_at (snd item)) secs))
                 snapshot)%list m,
         w')
      /\ only_removes (session_dir m) (fs w) (fs w')
      /\ same_elsewhere (session_dir m) (fs w) (fs w')
      /\ (forall sid,
             In sid (map fst
                       (List.filter
                          (fun item => DT.age_exceeds now
                                         (SessionInfo.created_at (snd item)) secs)
                          snapshot)) ->
             FS.file_exists (fs w') (session_dir m) (session_file sid) = false).
Proof.
  induction snapshot as [|[k v] rest IH]; intros kept cleaned m w Hs Hnd.
  - exists w. simpl. rewrite !app_nil_r in *. rewrite <- Hs.
    rewrite with_sessions_sessions.
    repeat split; try (intros ? ?; auto; fail). intros sid [].
  - simpl.
    assert (Hnk : ~ In k (OD.keys kept) /\ ~ In k (OD.keys rest)
                  /\ List.NoDup (OD.keys (kept ++ rest)%list)).
    { unfold OD.keys in *. rewrite map_app in Hnd. simpl in Hnd.
      pose proof (NoDup_remove_2 _ _ _ Hnd) as H2.
      pose proof (NoDup_remove_1 _ _ _ Hnd) as H1.
      rewrite map_app. repeat split; auto;
        intros Hin; apply H2; apply in_or_app; auto. }
    destruct Hnk as (Hk1 & Hk2 & Hnd').
    destruct (DT.age_exceeds now (SessionInfo.created_at v) secs) eqn:Hage.
    + assert (Hget : OD.get k (sessions m) = Some v).
      { rewrite Hs, OD_get_app_notin by exact Hk1. simpl.
        now rewrite String.eqb_refl. }
      rewrite (terminate_session_present _ _ _ _ Hget).
      assert (Hdel : OD.del k (sessions m) = (kept ++ rest)%list).
      { rewrite Hs, OD_del_app. simpl. rewrite String.eqb_refl.
        now rewrite !OD_del_notin. }
      rewrite Hdel.
      set (m1 := with_sessions (kept ++ rest)%list m).
      set (w1 := _delete_session_file k m1 (device_cleanup v w)).
      destruct (IH kept (cleaned ++ [k])%list m1 w1 eq_refl Hnd')
        as (w' & Heq & Hrm & Hel & Hgone).
      exists w'. rewrite Heq. simpl. rewrite <- app_assoc. simpl.
      split; [reflexivity|].
      pose proof (delete_session_file_fs k m1 (device_cleanup v w)) as [Hr1 He1].
      rewrite fs_device_cleanup in Hr1, He1. fold w1 in Hr1, He1.
      change (session_dir m1) with (session_dir m) in *.
      split; [eapply only_removes_trans; eauto|].
      split; [eapply same_elsewhere_trans; eauto|].
      intros sid [<-|Hin]; [|auto].
      apply file_exists_false_get. apply Hrm.
      apply file_exists_false_get.
      apply (file_exists_after_delete k m1 (device_cleanup v w)).
    + destruct (IH (kept ++ [(k, v)])%list cleaned m w) as (w' & Heq & Hrest).
      { now rewrite <- app_assoc. }
      { now rewrite <- app_assoc. }
      exists w'. rewrite Heq. simpl. rewrite <- app_assoc. simpl.
      split; [reflexivity|exact Hrest].
Qed.

(** ** A [create_session] at capacity *)

(** C3.  Starting from a store within its limit, after any sequence of
    [create_session] calls the store holds at most [max_sessions] sessions.
    A call made while the store holds [max_sessions] sessions first runs
    [cleanup_inactive_sessions] with a threshold of one hour: the store the
    call goes on with holds exactly the sessions that pass does not find
    older than 3600 seconds, each as it was.  If that store is still full,
    the pass has removed nothing at all and the call raises [SessionError],
    returning the store and the world exactly as it found them.  If the pass
    has made room, the call goes on from the store the pass left: it
    returns the exception of the device preparation and that store, or the
    new id and that store with the new session in it. *)
Theorem C3_capacity_never_exceeded
  (calls : list (option SessionConfig.t * create_env))
  (config : option SessionConfig.t) (e : create_env) (m : manager) (w : world) :
  List.NoDup (OD.keys (sessions m)) ->
  len_sessions m <= max_sessions m ->
  (forall m' w', create_many calls m w = (m', w') ->
                 len_sessions m' <= max_sessions m'
                 /\ max_sessions m' = max_sessions m)
  /\ (len_sessions m = max_sessions m ->
      exists cleaned m1 w1,
        cleanup_inactive_sessions 1 (now_reap e) m w = (cleaned, m1, w1)
        /\ sessions m1
           = List.filter
               (fun item => negb (DT.age_exceeds (now_reap e)
                                    (SessionInfo.created_at (snd item)) 3600))
               (sessions m)
        /\ (forall sid info,
               OD.get sid (sessions m) = Some info ->
               DT.age_exceeds (now_reap e) (SessionInfo.created_at info) 3600
               = false ->
               OD.get sid (sessions m1) = Some info)
        /\ (max_sessions m <= len_sessions m1 ->
            m1 = m /\ w1 = w
            /\ create_session config e m w
               = (Raise (SessionError (max_sessions_message m)), m, w))
        /\ (len_sessions m1 < max_sessions m ->
            fst (create_session config e m w)
            = match prepared e with
              | Raise err => (Raise err, m1)
              | Ok device =>
                  let session_id :=
                    _generate_session_id
                      (SessionConfig.session_name
                         (default SessionConfig.default config))
                      (time_time e) (randbits e) in
                  let session_info :=
                    SessionInfo.mk session_id (DeviceInfo.udid device)
                      (DeviceInfo.device_type device) (now_created e)
                      (session_metadata device
                         (default SessionConfig.default config)) in
                  (Ok session_id,
                   with_sessions
                     (OD.set session_id session_info (sessions m1)) m1)
              end)).
Proof.
  intros Hnd Hcap. split.
  - intros m' w' H. eapply create_many_capacity; eauto.
  - intros Hfull.
    destruct (cleanup_loop_spec (now_reap e) 3600 (sessions m) [] [] m w
                eq_refl Hnd) as (w1 & Heq & _).
    cbn [app] in Heq.
    match type of Heq with
    | _ = (?c0, ?m0, _) => set (cleaned := c0) in *; set (m1 := m0) in *
    end.
    assert (Hc : cleanup_inactive_sessions 1 (now_reap e) m w
                 = (cleaned, m1, w1)) by exact Heq.
    assert (H1 : (max_sessions m <=? len_sessions m) = true)
      by (apply Z.leb_le; lia).
    exists cleaned, m1, w1. split; [exact Hc|]. split; [reflexivity|].
    split; [|split].
    + intros sid info Hget Hyoung.
      eapply cleanup_inactive_sessions_keeps; [exact Hnd|exact Hc|exact Hget|].
      exact Hyoung.
    + intros Hstill.
      assert (Hsame : m1 = m /\ w1 = w).
      { pose proof Hc as Hs. unfold cleanup_inactive_sessions in Hs.
        apply cleanup_loop_unchanged_or_shrinks in Hs as [Hs|Hs]; [exact Hs| |].
        - unfold len_sessions in *.
          change (max_sessions m1) with (max_sessions m) in *. lia.
        - intros sid info. apply OD_In_get_some. }
      destruct Hsame as [Hm Hw]. split; [exact Hm|]. split; [exact Hw|].
      unfold create_session. rewrite H1, Hc, Hm, H1, <- Hw. reflexivity.
    + intros Hroom.
      assert (H2 : (max_sessions m1 <=? len_sessions m1) = false)
        by (apply Z.leb_gt; exact Hroom).
      unfold create_session. rewrite H1, Hc, H2.
      destruct (prepared e); reflexivity.
Qed.

Lemma C3_witness :
  exists cleaned m1 w1,
    cleanup_inactive_sessions 1 Demo.t_now
      (Demo.store 2 Demo.stale_and_recent) Demo.world0 = (cleaned, m1, w1)
    /\ list_sessions m1 = ["session_1709991000_aaaaaaaa"]
    /\ fst (create_session None (Demo.env_create Demo.device_b true)
              (Demo.store 2 Demo.stale_and_recent) Demo.world0)
       = (Ok Demo.sid0,
          with_sessions
            (OD.set Demo.sid0
               (Demo.session_of Demo.sid0 Demo.device_b Demo.t_created)
               (sessions m1)) m1).
Proof.
  destruct (C3_capacity_never_exceeded [] None
              (Demo.env_create Demo.device_b true)
              (Demo.store 2 Demo.stale_and_recent) Demo.world0)
    as [_ H].
  - simpl. solve_nodup.
  - apply Z.leb_le. reflexivity.
  - destruct H as (cleaned & m1 & w1 & Hc & Hs & _ & _ & Hroom); [reflexivity|].
    exists cleaned, m1, w1. split; [exact Hc|].
    assert (Hl : list_sessions m1 = ["session_1709991000_aaaaaaaa"]).
    { unfold list_sessions. rewrite Hs. vm_compute. reflexivity. }
    split; [exact Hl|].
    rewrite Hroom; [reflexivity|].
    unfold len_sessions. unfold list_sessions, OD.keys in Hl.
    rewrite <- (length_map fst), Hl. apply Z.ltb_lt. reflexivity.
Defined.

(** X3.  On a store whose records have file names ([file_name_ok]),
    [cleanup_inactive_sessions] removes exactly the sessions it finds older
    than the given age ([total_seconds()] above the threshold): it returns
    their ids in store order, the store afterwards holds the other
    sessions, unchanged and in their order, the files of the removed
    sessions are gone, no file appears in the session directory and no
    other directory changes. *)
Theorem X3_cleanup_removes_exactly_the_old (max_age_hours : Z)
  (current_time : datetime) (m : manager) (w : world) (cleaned : list string)
  (m' : manager) (w' : world) :
  List.NoDup (OD.keys (sessions m)) ->
  (forall sid, In sid (OD.keys (sessions m)) ->
               file_name_ok (session_file sid) = true) ->
  cleanup_inactive_sessions max_age_hours current_time m w = (cleaned, m', w') ->
  cleaned
  = map fst
      (List.filter
         (fun item => DT.age_exceeds current_time
                        (SessionInfo.created_at (snd item))
                        (max_age_hours * 3600))
         (sessions m))
  /\ sessions m'
     = List.filter
         (fun item => negb (DT.age_exceeds current_time
                              (SessionInfo.created_at (snd item))
                              (max_age_hours * 3600)))
         (sessions m)
  /\ (forall sid, In sid cleaned ->
                  FS.file_exists (fs w') (session_dir m) (session_file sid)
                  = false)
  /\ only_removes (session_dir m) (fs w) (fs w')
  /\ same_elsewhere (session_dir m) (fs w) (fs w').
Proof.
  intros Hnd _ Hc. unfold cleanup_inactive_sessions in Hc.
  destruct (cleanup_loop_spec current_time (max_age_hours * 3600) (sessions m)
              [] [] m w eq_refl Hnd) as (w1 & Heq & Hrm & Hel & Hgone).
  rewrite Heq in Hc. injection Hc as <- <- <-. simpl.
  repeat split; auto.
Qed.

Lemma X3_witness :
  let r := cleanup_inactive_sessions 6 Demo.t_now
             (Demo.store 10
                (("session_1709949600_cccccccc",
                  Demo.session_of "session_1709949600_cccccccc" Demo.device_a
                                  Demo.t_stale) :: Demo.two_sessions))
             (Demo.world_with
                (Demo.saved
                   (Demo.session_of "session_1709949600_cccccccc" Demo.device_a
                                    Demo.t_stale) :: Demo.two_files)) in
  fst (fst r) = ["session_1709949600_cccccccc"]
  /\ sessions (snd (fst r)) = Demo.two_sessions
  /\ FS.file_exists (fs (snd r)) default_session_dir
                    (session_file "session_1709949600_cccccccc") = false.
Proof.
  set (m := Demo.store 10
              (("session_1709949600_cccccccc",
                Demo.session_of "session_1709949600_cccccccc" Demo.device_a
                                Demo.t_stale) :: Demo.two_sessions)).
  set (w := Demo.world_with
              (Demo.saved
                 (Demo.session_of "session_1709949600_cccccccc" Demo.device_a
                                  Demo.t_stale) :: Demo.two_files)).
  intros r.
  assert (Hnd : List.NoDup (OD.keys (sessions m))) by (simpl; solve_nodup).
  destruct (X3_cleanup_removes_exactly_the_old 6 Demo.t_now m w
              (fst (fst r)) (snd (fst r)) (snd r) Hnd)
    as (Hc & Hs & Hf & _).
  { intros sid Hin. simpl in Hin.
    destruct Hin as [<-|[<-|[<-|[]]]]; reflexivity. }
  { subst r. now destruct (cleanup_inactive_sessions 6 Demo.t_now m w) as [[? ?] ?]. }
  split; [rewrite Hc; reflexivity|].
  split; [rewrite Hs; reflexivity|].
  apply Hf. rewrite Hc. vm_compute. now left.
Defined.

(** X4.  After [periodic_cleanup] no session of the store is older than
    the age it was called with ([auto_cleanup_hours] when none is given), and
    a second call at the same time changes neither the store nor the
    world. *)
Theorem X4_periodic_cleanup_settles (max_age_hours : option Z)
  (current_time : datetime) (m : manager) (w : world) :
  List.NoDup (OD.keys (sessions m)) ->
  (forall sid info,
      OD.get sid (sessions (fst (periodic_cleanup max_age_hours current_time m w)))
      = Some info ->
      DT.age_exceeds current_time (SessionInfo.created_at info)
                     (default (auto_cleanup_hours m) max_age_hours * 3600)
      = false)
  /\ periodic_cleanup max_age_hours current_time
       (fst (periodic_cleanup max_age_hours current_time m w))
       (snd (periodic_cleanup max_age_hours current_time m w))
     = periodic_cleanup max_age_hours current_time m w.
Proof.
  intros Hnd.
  set (h := default (auto_cleanup_hours m) max_age_hours).
  set (old := fun item : string * SessionInfo.t =>
                DT.age_exceeds current_time (SessionInfo.created_at (snd item))
                               (h * 3600)).
  set (keep := fun item : string * SessionInfo.t => negb (old item)).
  set (m1 := with_sessions (List.filter keep (sessions m)) m).
  assert (Hrun : exists w1, periodic_cleanup max_age_hours current_time m w
                            = (m1, w1)).
  { unfold periodic_cleanup, cleanup_inactive_sessions. fold h.
    destruct (cleanup_loop_spec current_time (h * 3600) (sessions m)
                [] [] m w eq_refl Hnd) as (w1 & Heq & _).
    exists w1. now rewrite Heq. }
  destruct Hrun as (w1 & Hrun). rewrite Hrun. cbn [fst snd].
  split.
  - intros sid info Hget. apply OD_get_In in Hget.
    apply filter_In in Hget as [_ Hk]. unfold keep, old in Hk. simpl in Hk.
    now apply negb_true_iff in Hk.
  - unfold periodic_cleanup.
    change (auto_cleanup_hours m1) with (auto_cleanup_hours m). fold h.
    unfold cleanup_inactive_sessions.
    assert (Hnone : forall l cleaned m0 w0,
               (forall x, In x l -> old x = false) ->
               cleanup_loop current_time (h * 3600) l cleaned m0 w0
               = (cleaned, m0, w0)).
    { induction l as [|[k v] l IH]; intros cleaned m0 w0 Hall; simpl; auto.
      pose proof (Hall (k, v) (or_introl eq_refl)) as Hv.
      unfold old in Hv. simpl in Hv. rewrite Hv.
      apply IH. intros x Hx. apply Hall. now right. }
    rewrite Hnone; [reflexivity|].
    intros x Hx. simpl in Hx. apply filter_In in Hx as [_ Hx].
    now apply negb_true_iff in Hx.
Qed.

Lemma X4_witness :
  (forall sid info,
      OD.get sid
        (sessions (fst (periodic_cleanup None Demo.t_now
                          (Demo.store 10 Demo.two_sessions)
                          (Demo.world_with Demo.two_files))))
      = Some info ->
      DT.age_exceeds Demo.t_now (SessionInfo.created_at info)
                     (default
                        (auto_cleanup_hours (Demo.store 10 Demo.two_sessions))
                        None * 3600)
      = false)
  /\ periodic_cleanup None Demo.t_now
       (fst (periodic_cleanup None Demo.t_now
               (Demo.store 10 Demo.two_sessions)
               (Demo.world_with Demo.two_files)))
       (snd (periodic_cleanup None Demo.t_now
               (Demo.store 10 Demo.two_sessions)
               (Demo.world_with Demo.two_files)))
     = periodic_cleanup None Demo.t_now (Demo.store 10 Demo.two_sessions)
                        (Demo.world_with Demo.two_files).
Proof.
  apply (X4_periodic_cleanup_settles None Demo.t_now
           (Demo.store 10 Demo.two_sessions) (Demo.world_with Demo.two_files)).
  simpl. solve_nodup.
Defined.

(** ** Queries by device *)

Lemma NoDup_keys_filter {V} (f : string * V -> bool) (d : list (string * V)) :
  List.NoDup (OD.keys d) -> List.NoDup (OD.keys (List.filter f d)).
Proof.
  unfold OD.keys. induction d as [|x l IH]; simpl; auto.
  intros Hnd. inversion Hnd as [|? ? Hx Hl]; subst.
  destruct (f x); simpl; auto. constructor; auto.
  intros Hin. apply Hx. apply in_map_iff in Hin as (y & Hy & Hin).
  apply filter_In in Hin as [Hin _]. rewrite <- Hy. now apply in_map.
Qed.

Lemma OD_keys_set_in {V} k k' (v : V) (d : list (string * V)) :
  In k' (OD.keys (OD.set k v d)) -> k' = k \/ In k' (OD.keys d).
Proof.
  induction d as [|[k0 v0] d IH]; simpl.
  - intros [H|[]]. now left.
  - destruct (String.eqb k0 k) eqn:E; simpl.
    + tauto.
    + intros [H|H]; [tauto|]. destruct (IH H); tauto.
Qed.

Lemma NoDup_keys_set {V} k (v : V) (d : list (string * V)) :
  List.NoDup (OD.keys d) -> List.NoDup (OD.keys (OD.set k v d)).
Proof.
  induction d as [|[k0 v0] d IH]; simpl; intros Hnd.
  - constructor; [intros []|constructor].
  - inversion Hnd as [|? ? Hx Hl]; subst.
    destruct (String.eqb k0 k) eqn:E; simpl.
    + now constructor.
    + constructor; auto. intros Hin.
      apply OD_keys_set_in in Hin as [->|Hin]; [|tauto].
      now rewrite String.eqb_refl in E.
Qed.

Lemma OD_set_In {V} k (v : V) (d : list (string * V)) : In (k, v) (OD.set k v d).
Proof.
  induction d as [|[k0 v0] d IH]; simpl; [now left|].
  destruct (String.eqb k0 k) eqn:E; simpl.
  - apply String.eqb_eq in E. subst. now left.
  - now right.
Qed.

Lemma OD_keys_del_self {V} k (d : list (string * V)) :
  ~ In k (OD.keys (OD.del k d)).
Proof.
  induction d as [|[k0 v0] d IH]; simpl; auto.
  destruct (String.eqb k0 k) eqn:E; simpl; auto.
  intros [H|H]; [|tauto]. subst. now rewrite String.eqb_refl in E.
Qed.

Lemma create_session_store config e m w sid m' w' :
  List.NoDup (OD.keys (sessions m)) ->
  create_session config e m w = (Ok sid, m', w') ->
  exists device ss,
    prepared e = Ok device
    /\ List.NoDup (OD.keys ss)
    /\ sessions m'
       = OD.set sid
           (SessionInfo.mk sid (DeviceInfo.udid device)
              (DeviceInfo.device_type device) (now_created e)
              (session_metadata device (default SessionConfig.default config)))
           ss.
Proof.
  intros Hnd Hc. unfold create_session in Hc.
  assert (Hpre : exists m1 w1,
             (if max_sessions m <=? len_sessions m
              then let '(_, m'0, w'0) :=
                     cleanup_inactive_sessions 1 (now_reap e) m w in (m'0, w'0)
              else (m, w)) = (m1, w1)
             /\ List.NoDup (OD.keys (sessions m1))).
  { destruct (max_sessions m <=? len_sessions m).
    - unfold cleanup_inactive_sessions.
      destruct (cleanup_loop_spec (now_reap e) (1 * 3600) (sessions m)
                  [] [] m w eq_refl Hnd) as (w1 & Heq & _).
      rewrite Heq. do 2 eexists. split; [reflexivity|].
      simpl. now apply NoDup_keys_filter.
    - now exists m, w. }
  destruct Hpre as (m1 & w1 & Heq & Hnd1). rewrite Heq in Hc.
  destruct (max_sessions m1 <=? len_sessions m1); [discriminate|].
  destruct (prepared e) as [device|err]; [|discriminate].
  injection Hc as <- <- <-.
  exists device, (sessions m1). repeat split; auto.
Qed.

(** X5.  A session that [create_session] returned is listed by
    [get_sessions_by_device] under the UDID of the device it was bound to
    and under no other UDID, and by [get_sessions_by_device_type] under
    that device's type; once it is terminated neither query lists it under
    any device or type. *)
Theorem X5_device_queries_follow_create_and_terminate
  (config : option SessionConfig.t) (e : create_env) (m : manager) (w : world)
  (sid : string) (m' : manager) (w' : world) :
  List.NoDup (OD.keys (sessions m)) ->
  create_session config e m w = (Ok sid, m', w') ->
  exists device,
    prepared e = Ok device
    /\ (forall udid, In sid (get_sessions_by_device udid m')
                     <-> udid = DeviceInfo.udid device)
    /\ (forall device_type,
           In sid (get_sessions_by_device_type device_type m')
           <-> device_type = DeviceInfo.device_type device)
    /\ (forall w2 udid device_type,
           ~ In sid (get_sessions_by_device udid
                       (snd (fst (terminate_session sid m' w2))))
           /\ ~ In sid (get_sessions_by_device_type device_type
                          (snd (fst (terminate_session sid m' w2))))).
Proof.
  intros Hnd Hc.
  destruct (create_session_store _ _ _ _ _ _ _ Hnd Hc)
    as (device & ss & Hdev & Hnd1 & Hs).
  exists device. split; [exact Hdev|].
  set (info := SessionInfo.mk sid (DeviceInfo.udid device)
                 (DeviceInfo.device_type device) (now_created e)
                 (session_metadata device (default SessionConfig.default config)))
    in *.
  assert (Hin : In (sid, info) (sessions m')) by (rewrite Hs; apply OD_set_In).
  assert (Hnd' : List.NoDup (OD.keys (sessions m')))
    by (rewrite Hs; now apply NoDup_keys_set).
  assert (Huniq : forall info', In (sid, info') (sessions m') -> info' = info).
  { intros info' H'. apply (OD_In_get _ _ _ Hnd') in H'.
    apply (OD_In_get _ _ _ Hnd') in Hin. congruence. }
  split; [|split].
  - intros udid. unfold get_sessions_by_device. split.
    + intros H. apply in_map_iff in H as ([k v] & Hk & H). simpl in Hk. subst k.
      apply filter_In in H as [H Heq]. simpl in Heq.
      apply Huniq in H. subst v. apply String.eqb_eq in Heq. now subst udid.
    + intros ->. apply in_map_iff. exists (sid, info). split; [reflexivity|].
      apply filter_In. split; [exact Hin|]. simpl. apply String.eqb_refl.
  - intros device_type. unfold get_sessions_by_device_type. split.
    + intros H. apply in_map_iff in H as ([k v] & Hk & H). simpl in Hk. subst k.
      apply filter_In in H as [H Heq]. simpl in Heq.
      apply Huniq in H. subst v. simpl in Heq.
      destruct (DeviceInfo.device_type device), device_type;
        simpl in Heq; congruence.
    + intros ->. apply in_map_iff. exists (sid, info). split; [reflexivity|].
      apply filter_In. split; [exact Hin|]. simpl.
      now destruct (DeviceInfo.device_type device).
  - intros w2 udid device_type.
    assert (Hget : OD.get sid (sessions m') = Some info)
      by (now apply OD_In_get).
    rewrite (terminate_session_present _ _ _ _ Hget). cbn [fst snd].
    unfold get_sessions_by_device, get_sessions_by_device_type.
    cbn [sessions with_sessions].
    split; intros H; apply in_map_iff in H as ([k v] & Hk & H);
      simpl in Hk; subst k; apply filter_In in H as [H _];
      apply (OD_keys_del_self sid (sessions m'));
      unfold OD.keys; change sid with (fst (sid, v)); now apply in_map.
Qed.

Lemma X5_witness :
  exists device,
    prepared (Demo.env_create Demo.device_a true) = Ok device
    /\ (forall udid,
           In Demo.sid0
              (get_sessions_by_device udid
                 (snd (fst (create_session None
                              (Demo.env_create Demo.device_a true)
                              (Demo.store 10 Demo.two_sessions)
                              (Demo.world_with Demo.two_files)))))
           <-> udid = DeviceInfo.udid device).
Proof.
  destruct (X5_device_queries_follow_create_and_terminate None
              (Demo.env_create Demo.device_a true)
              (Demo.store 10 Demo.two_sessions)
              (Demo.world_with Demo.two_files) Demo.sid0
              (snd (fst (create_session None
                           (Demo.env_create Demo.device_a true)
                           (Demo.store 10 Demo.two_sessions)
                           (Demo.world_with Demo.two_files))))
              (snd (create_session None
                      (Demo.env_create Demo.device_a true)
                      (Demo.store 10 Demo.two_sessions)
                      (Demo.world_with Demo.two_files))))
    as (device & Hdev & Hq & _).
  - simpl. solve_nodup.
  - reflexivity.
  - exists device. split; [exact Hdev|exact Hq].
Defined.

(** ** Sessions of the singleton store seen from the tools *)

(** X6.  A session created on the singleton session manager is accepted by
    [get_manager_for_session]: the utilities object it returns refers to the
    singleton, and resolves the session id to the UDID of the session's
    device from the singleton's memory, constructing no other store and
    leaving the process as it is, whether or not the session record reached
    the disk. *)
Theorem X6_tools_resolve_singleton_sessions (ie ie1 ie2 : init_env)
  (g0 g : option nat) (p p1 p2 : process) (a : nat)
  (config : option SessionConfig.t) (ce : create_env) (sid : string) :
  get_unified_session_manager ie g0 p = (a, g, p1) ->
  create_session_at a config ce p1 = Some (Ok sid, p2) ->
  exists device,
    prepared ce = Ok device
    /\ get_manager_for_session UnifiedUtilitiesManager_class sid ie1 g p2
       = (Returned (mk_utilities (Some a)), g, p2)
    /\ _resolve_target (Target_str sid) ie2 (mk_utilities (Some a)) p2
       = (Ok (DeviceInfo.udid device), mk_utilities (Some a), p2).
Proof.
  intros Hg Hc.
  assert (Hga : g = Some a).
  { unfold get_unified_session_manager in Hg. destruct g0 as [a0|].
    - now injection Hg as -> <- <-.
    - destruct (init_default ie (outside p)) as [m0 w0].
      now injection Hg as <- <- <-. }
  subst g. clear Hg.
  unfold create_session_at in Hc.
  destruct (managers p1 !! a) as [m|] eqn:Hm; [|discriminate].
  destruct (create_session config ce m (outside p1)) as [[r m'] w'] eqn:Hcs.
  injection Hc as -> <-.
  pose proof Hcs as Hok.
  apply create_session_ok in Hok
    as (device & m1 & w1 & Hdev & _ & Hsid & Hm' & _).
  exists device. split; [exact Hdev|].
  set (info := SessionInfo.mk sid (DeviceInfo.udid device)
                 (DeviceInfo.device_type device) (now_created ce)
                 (session_metadata device (default SessionConfig.default config)))
    in *.
  assert (Hget : OD.get sid (sessions m') = Some info)
    by (rewrite Hm'; apply OD_get_set_eq).
  set (p2 := mk_process (<[a := m']> (managers p1)) w').
  assert (Hlook : managers p2 !! a = Some m')
    by (unfold p2; cbn [managers]; apply lookup_insert_eq).
  split.
  - unfold get_manager_for_session, simple_session_validation,
      get_unified_session_manager.
    rewrite Hlook. unfold OD.mem. rewrite Hget. reflexivity.
  - apply (resolve_configured sid ie2 (mk_utilities (Some a)) p2 a m' info);
      auto.
    rewrite Hsid. apply generated_id_looks_like_session_id.
Qed.

Lemma X6_witness :
  exists device,
    prepared (Demo.env_create Demo.device_a false) = Ok device
    /\ get_manager_for_session UnifiedUtilitiesManager_class Demo.sid0
         Demo.env_init (Some 1%nat)
         (mk_process
            (<[1%nat := snd (fst (create_session None
                                    (Demo.env_create Demo.device_a false)
                                    (fst (init_default Demo.env_init Demo.world0))
                                    (snd (init_default Demo.env_init Demo.world0))))]>
               (<[1%nat := fst (init_default Demo.env_init Demo.world0)]>
                  (managers Demo.process0)))
            (snd (create_session None
                    (Demo.env_create Demo.device_a false)
                    (fst (init_default Demo.env_init Demo.world0))
                    (snd (init_default Demo.env_init Demo.world0)))))
       = (Returned (mk_utilities (Some 1%nat)), Some 1%nat,
          mk_process
            (<[1%nat := snd (fst (create_session None
                                    (Demo.env_create Demo.device_a false)
                                    (fst (init_default Demo.env_init Demo.world0))
                                    (snd (init_default Demo.env_init Demo.world0))))]>
               (<[1%nat := fst (init_default Demo.env_init Demo.world0)]>
                  (managers Demo.process0)))
            (snd (create_session None
                    (Demo.env_create Demo.device_a false)
                    (fst (init_default Demo.env_init Demo.world0))
                    (snd (init_default Demo.env_init Demo.world0))))).
Proof.
  destruct (X6_tools_resolve_singleton_sessions Demo.env_init Demo.env_init
              Demo.env_init None (Some 1%nat) Demo.process0
              (mk_process
                 (<[1%nat := fst (init_default Demo.env_init Demo.world0)]>
                    (managers Demo.process0))
                 (snd (init_default Demo.env_init Demo.world0)))
              (mk_process
                 (<[1%nat := snd (fst (create_session None
                                         (Demo.env_create Demo.device_a false)
                                         (fst (init_default Demo.env_init Demo.world0))
                                         (snd (init_default Demo.env_init Demo.world0))))]>
                    (<[1%nat := fst (init_default Demo.env_init Demo.world0)]>
                       (managers Demo.process0)))
                 (snd (create_session None
                         (Demo.env_create Demo.device_a false)
                         (fst (init_default Demo.env_init Demo.world0))
                         (snd (init_default Demo.env_init Demo.world0)))))
              1%nat None (Demo.env_create Demo.device_a false) Demo.sid0)
    as (device & Hdev & Hm & _).
  - reflexivity.
  - unfold create_session_at. cbn [managers outside].
    rewrite lookup_insert_eq. reflexivity.
  - exists device. split; [exact Hdev|exact Hm].
Defined.

(** X7.  The first [get_manager_for_session] of a process builds the
    singleton session manager from the default directory, with everything
    the constructor does to the disk, whether the session is accepted or
    not: the session is accepted exactly when the store just built holds
    it, and is otherwise refused with "Session ... is invalid or expired";
    in both cases the singleton stays in place for the calls that follow. *)
Theorem X7_first_validation_builds_the_singleton {M : Type}
  (cls : manager_class M) (session_id : string) (e : init_env) (p : process) :
  let m0 := fst (init_default e (outside p)) in
  let a := fresh_address p in
  let p' := mk_process (<[a := m0]> (managers p))
                       (snd (init_default e (outside p))) in
  managers p !! a = None
  /\ get_manager_for_session cls session_id e None p
     = (if OD.mem session_id (sessions m0)
        then Returned (match set_session_manager_method cls with
                       | Some set => set a (construct cls)
                       | None => construct cls
                       end)
        else Exception ("Session " ++ session_id ++ " is invalid or expired"),
        Some a, p')
  /\ (forall e', get_unified_session_manager e' (Some a) p' = (a, Some a, p')).
Proof.
  intros m0 a p'. split; [apply fresh_address_fresh|]. split; [|reflexivity].
  unfold get_manager_for_session, simple_session_validation,
    get_unified_session_manager.
  subst m0 p' a.
  destruct (init_default e (outside p)) as [m0 w0]. cbn [fst snd managers].
  rewrite lookup_insert_eq.
  destruct (OD.mem session_id (sessions m0)); reflexivity.
Qed.

(** ** The generated identifiers *)

Lemma str_app_inv_tail (a b s t : string) :
  String.length s = String.length t -> a ++ s = b ++ t -> a = b /\ s = t.
Proof.
  intros Hlen. revert b. induction a as [|x a IH]; intros [|y b] H.
  - auto.
  - exfalso. rewrite str_app_nil_l in H. subst s.
    rewrite str_app_cons in Hlen. simpl in Hlen.
    rewrite str_length_app in Hlen. lia.
  - exfalso. rewrite str_app_nil_l in H. subst t.
    rewrite str_app_cons in Hlen. simpl in Hlen.
    rewrite str_length_app in Hlen. lia.
  - rewrite !str_app_cons in H. injection H as -> H.
    destruct (IH b H) as [-> ->]. auto.
Qed.

Lemma str_app_inv_head (p s t : string) : p ++ s = p ++ t -> s = t.
Proof.
  induction p as [|x p IH]; [auto|].
  rewrite !str_app_cons. intros [= H]. auto.
Qed.

Lemma hex_pad_app (w1 w2 : nat) (v : Z) :
  PyStr.hex_pad (w1 + w2) v
  = PyStr.hex_pad w1 (v / 16 ^ Z.of_nat w2) ++ PyStr.hex_pad w2 v.
Proof.
  revert v. induction w2 as [|w2 IH]; intros v.
  - rewrite Nat.add_0_r. simpl. now rewrite Z.div_1_r, str_app_empty_r.
  - rewrite Nat.add_succ_r. simpl PyStr.hex_pad. rewrite IH.
    rewrite str_app_assoc. f_equal. f_equal.
    rewrite Nat2Z.inj_succ, Z.pow_succ_r by lia.
    rewrite Z.div_div by lia. reflexivity.
Qed.

Lemma hex_pad_ext (w : nat) :
  forall a b,
    (forall n, 0 <= n < 4 * Z.of_nat w -> Z.testbit a n = Z.testbit b n) ->
    PyStr.hex_pad w a = PyStr.hex_pad w b.
Proof.
  induction w as [|w IH]; intros a b H; [reflexivity|].
  simpl. f_equal.
  - apply IH. intros n Hn. change 16 with (2 ^ 4).
    rewrite !Z.div_pow2_bits by lia. apply H. lia.
  - do 2 f_equal. change 16 with (2 ^ 4). apply Z.bits_inj'. intros n Hn.
    rewrite !Z.testbit_mod_pow2 by lia.
    destruct (n <? 4) eqn:E; [|reflexivity]. simpl.
    apply Z.ltb_lt in E. apply H. lia.
Qed.

Lemma hex_digit_inj (d d' : Z) :
  0 <= d < 16 -> 0 <= d' < 16 ->
  PyStr.hex_digit d = PyStr.hex_digit d' -> d = d'.
Proof.
  intros Hd Hd' H.
  assert (Hn : forall x, 0 <= x < 16 ->
                 Z.of_nat (nat_of_ascii (PyStr.hex_digit x))
                 = if x <? 10 then 48 + x else 87 + x).
  { intros x Hx. unfold PyStr.hex_digit.
    destruct (x <? 10); rewrite nat_ascii_embedding; lia. }
  pose proof (Hn d Hd) as H1. pose proof (Hn d' Hd') as H2.
  rewrite H in H1. rewrite H1 in H2.
  destruct (d <? 10) eqn:E1; destruct (d' <? 10) eqn:E2;
    rewrite ?Z.ltb_lt, ?Z.ltb_ge in *; lia.
Qed.

Lemma hex_pad_inj (w : nat) :
  forall a b, PyStr.hex_pad w a = PyStr.hex_pad w b ->
              a mod 16 ^ Z.of_nat w = b mod 16 ^ Z.of_nat w.
Proof.
  induction w as [|w IH]; intros a b H.
  - simpl. now rewrite !Z.mod_1_r.
  - simpl in H. apply str_app_inv_tail in H as [H1 H2]; [|reflexivity].
    injection H2 as H2.
    apply hex_digit_inj in H2; try (apply Z.mod_pos_bound; lia).
    apply IH in H1.
    rewrite Nat2Z.inj_succ, Z.pow_succ_r by lia.
    rewrite !Z.rem_mul_r by lia. congruence.
Qed.

Lemma of_int_inj (a b : Z) : PyStr.of_int a = PyStr.of_int b -> a = b.
Proof.
  unfold PyStr.of_int. intros H.
  assert (Hnil : forall z, Z.to_int z <> Decimal.Pos Decimal.Nil
                           /\ Z.to_int z <> Decimal.Neg Decimal.Nil).
  { intros z. split; intros E; pose proof (f_equal Z.of_int E) as E';
      rewrite DecimalZ.of_to in E'; simpl in E'; subst z;
      vm_compute in E; discriminate. }
  apply (f_equal NilZero.int_of_string) in H.
  rewrite !NilZero.isi in H by apply Hnil.
  injection H as H. now apply DecimalZ.to_int_inj.
Qed.

(** The value [generate_uuid4] formats: the random bits with the two masks
    applied. *)
Lemma uuid_masks_bits (r n : Z) :
  0 <= n ->
  Z.testbit
    (Z.lor (Z.land (Z.lor (Z.land r (Z.lnot (Z.shiftl 0xf000 48)))
                          (Z.shiftl 0x4000 48))
                   (Z.lnot (Z.shiftl 0xc0 56)))
           (Z.shiftl 0x80 56)) n
  = if (60 <=? n) && (n <=? 62) then false
    else if n =? 63 then true else Z.testbit r n.
Proof.
  intros Hn.
  change (Z.shiftl 0xf000 48) with (Z.shiftl (Z.ones 4) 60).
  change (Z.shiftl 0x4000 48) with (2 ^ 62).
  change (Z.shiftl 0xc0 56) with (Z.shiftl (Z.ones 2) 62).
  change (Z.shiftl 0x80 56) with (2 ^ 63).
  repeat first [ rewrite Z.lor_spec | rewrite Z.land_spec
               | rewrite Z.lnot_spec by lia | rewrite Z.shiftl_spec by lia
               | rewrite Z.pow2_bits_eqb by lia
               | rewrite Z.testbit_ones by lia ].
  destruct (60 <=? n) eqn:E1; destruct (n <=? 62) eqn:E2;
    destruct (n =? 63) eqn:E3; destruct (0 <=? n - 60) eqn:E4;
    destruct (n - 60 <? 4) eqn:E5; destruct (62 =? n) eqn:E6;
    destruct (0 <=? n - 62) eqn:E7; destruct (n - 62 <? 2) eqn:E8;
    destruct (63 =? n) eqn:E9;
    rewrite ?Z.leb_le, ?Z.leb_gt, ?Z.ltb_lt, ?Z.ltb_ge, ?Z.eqb_eq, ?Z.eqb_neq
      in *;
    try lia; destruct (Z.testbit r n); reflexivity.
Qed.

Lemma generate_uuid4_groups (r : Z) :
  generate_uuid4 r
  = PyStr.hex_pad 8 (r / 2 ^ 96) ++ "-" ++ PyStr.hex_pad 4 (r / 2 ^ 80) ++ "-"
    ++ PyStr.hex_pad 4 (r / 2 ^ 64) ++ "-8" ++ PyStr.hex_pad 3 (r / 2 ^ 48)
    ++ "-" ++ PyStr.hex_pad 12 r.
Proof.
  unfold generate_uuid4.
  set (v := Z.lor (Z.land (Z.lor (Z.land r (Z.lnot (Z.shiftl 0xf000 48)))
                                 (Z.shiftl 0x4000 48))
                          (Z.lnot (Z.shiftl 0xc0 56)))
                  (Z.shiftl 0x80 56)).
  assert (Hbits : forall n, 0 <= n ->
             Z.testbit v n
             = if (60 <=? n) && (n <=? 62) then false
               else if n =? 63 then true else Z.testbit r n)
    by (intros n Hn; apply uuid_masks_bits; exact Hn).
  clearbody v.
  assert (Hsplit : PyStr.hex_pad 32 v
                   = PyStr.hex_pad 8 (v / 2 ^ 96)
                     ++ PyStr.hex_pad 4 (v / 2 ^ 80)
                     ++ PyStr.hex_pad 4 (v / 2 ^ 64)
                     ++ PyStr.hex_pad 1 (v / 2 ^ 60)
                     ++ PyStr.hex_pad 3 (v / 2 ^ 48)
                     ++ PyStr.hex_pad 12 v).
  { pose proof (hex_pad_app 8 24 v) as H1.
    pose proof (hex_pad_app 4 20 v) as H2.
    pose proof (hex_pad_app 4 16 v) as H3.
    pose proof (hex_pad_app 1 15 v) as H4.
    pose proof (hex_pad_app 3 12 v) as H5.
    change (8 + 24)%nat with 32%nat in H1.
    change (4 + 20)%nat with 24%nat in H2.
    change (4 + 16)%nat with 20%nat in H3.
    change (1 + 15)%nat with 16%nat in H4.
    change (3 + 12)%nat with 15%nat in H5.
    change (16 ^ Z.of_nat 24) with (2 ^ 96) in H1.
    change (16 ^ Z.of_nat 20) with (2 ^ 80) in H2.
    change (16 ^ Z.of_nat 16) with (2 ^ 64) in H3.
    change (16 ^ Z.of_nat 15) with (2 ^ 60) in H4.
    change (16 ^ Z.of_nat 12) with (2 ^ 48) in H5.
    now rewrite H1, H2, H3, H4, H5. }
  assert (Hsame : forall w k,
             (64 <= k \/ k + 4 * Z.of_nat w <= 60) -> 0 <= k ->
             PyStr.hex_pad w (v / 2 ^ k) = PyStr.hex_pad w (r / 2 ^ k)).
  { intros w k Hk Hk0. apply hex_pad_ext. intros n Hn.
    rewrite !Z.div_pow2_bits by lia. rewrite Hbits by lia.
    destruct (60 <=? n + k) eqn:E1; destruct (n + k <=? 62) eqn:E2;
      destruct (n + k =? 63) eqn:E3;
      rewrite ?Z.leb_le, ?Z.leb_gt, ?Z.eqb_eq, ?Z.eqb_neq in *;
      try lia; reflexivity. }
  assert (H8 : PyStr.hex_pad 1 (v / 2 ^ 60) = "8").
  { change "8" with (PyStr.hex_pad 1 8). apply hex_pad_ext. intros n Hn.
    rewrite Z.div_pow2_bits by lia. rewrite Hbits by lia.
    assert (Hc : n = 0 \/ n = 1 \/ n = 2 \/ n = 3) by lia.
    destruct Hc as [->|[->|[->| ->]]]; reflexivity. }
  rewrite (Hsame 8%nat 96), (Hsame 4%nat 80), (Hsame 4%nat 64),
    (Hsame 3%nat 48), H8 in Hsplit by lia.
  assert (H12 : PyStr.hex_pad 12 v = PyStr.hex_pad 12 r).
  { apply hex_pad_ext. intros n Hn. rewrite Hbits by lia.
    destruct (60 <=? n) eqn:E1; destruct (n <=? 62) eqn:E2;
      destruct (n =? 63) eqn:E3;
      rewrite ?Z.leb_le, ?Z.leb_gt, ?Z.eqb_eq, ?Z.eqb_neq in *;
      try lia; reflexivity. }
  rewrite H12 in Hsplit. rewrite Hsplit. clear Hsplit Hsame H8 H12 Hbits.
  set (g1 := PyStr.hex_pad 8 (r / 2 ^ 96)).
  set (g2 := PyStr.hex_pad 4 (r / 2 ^ 80)).
  set (g3 := PyStr.hex_pad 4 (r / 2 ^ 64)).
  set (g4 := PyStr.hex_pad 3 (r / 2 ^ 48)).
  set (g5 := PyStr.hex_pad 12 r).
  assert (L1 : String.length g1 = 8%nat) by apply str_length_hex_pad.
  assert (L2 : String.length g2 = 4%nat) by apply str_length_hex_pad.
  assert (L3 : String.length g3 = 4%nat) by apply str_length_hex_pad.
  assert (L4 : String.length ("8" ++ g4) = 4%nat)
    by (rewrite str_length_app; unfold g4; rewrite str_length_hex_pad;
        reflexivity).
  unfold PyStr.slice.
  rewrite (str_take_app_exact 8 g1) by exact L1.
  change (PyStr.drop 8) with (PyStr.drop (String.length g1 + 0)).
  assert (D8 : PyStr.drop 8 (g1 ++ g2 ++ g3 ++ "8" ++ g4 ++ g5)
               = g2 ++ g3 ++ "8" ++ g4 ++ g5)
    by (apply str_drop_app_exact; exact L1).
  assert (D12 : PyStr.drop 12 (g1 ++ g2 ++ g3 ++ "8" ++ g4 ++ g5)
                = g3 ++ "8" ++ g4 ++ g5).
  { rewrite <- (str_app_assoc g1 g2). apply str_drop_app_exact.
    rewrite str_length_app, L1, L2. reflexivity. }
  assert (D16 : PyStr.drop 16 (g1 ++ g2 ++ g3 ++ "8" ++ g4 ++ g5)
                = "8" ++ g4 ++ g5).
  { rewrite <- (str_app_assoc g2 g3), <- (str_app_assoc g1).
    apply str_drop_app_exact.
    rewrite !str_length_app, L1, L2, L3. reflexivity. }
  assert (D20 : PyStr.drop 20 (g1 ++ g2 ++ g3 ++ "8" ++ g4 ++ g5) = g5).
  { rewrite <- (str_app_assoc "8" g4), <- (str_app_assoc g3),
      <- (str_app_assoc g2), <- (str_app_assoc g1).
    apply str_drop_app_exact.
    rewrite !str_length_app, L1, L2, L3. rewrite str_length_app in L4.
    rewrite L4. reflexivity. }
  change (PyStr.drop (String.length g1 + 0)) with (PyStr.drop 8).
  rewrite D8, D12, D16, D20.
  rewrite (str_take_app_exact (12 - 8) g2) by exact L2.
  rewrite (str_take_app_exact (16 - 12) g3) by exact L3.
  rewrite <- (str_app_assoc "8" g4 g5).
  rewrite (str_take_app_exact (20 - 16) ("8" ++ g4)) by exact L4.
  rewrite !str_app_assoc. reflexivity.
Qed.

(** X8.  [generate_uuid4] returns the 32 hexadecimal digits of the random
    value in groups of 8, 4, 4, 4 and 12 separated by hyphens, every digit
    being the corresponding four random bits, except the first digit of the
    fourth group, which is always 8.  In particular the first digit of the
    third group, where a version-4 UUID carries a 4, is left random: the
    version mask is applied to bits 60-63, which the variant mask then
    overwrites. *)
Theorem X8_generate_uuid4_layout (r : Z) :
  0 <= r < 2 ^ 128 ->
  generate_uuid4 r
  = PyStr.hex_pad 8 (r / 2 ^ 96) ++ "-" ++ PyStr.hex_pad 4 (r / 2 ^ 80) ++ "-"
    ++ PyStr.hex_pad 4 (r / 2 ^ 64) ++ "-8" ++ PyStr.hex_pad 3 (r / 2 ^ 48)
    ++ "-" ++ PyStr.hex_pad 12 r.
Proof. intros _. apply generate_uuid4_groups. Qed.

Lemma X8_witness :
  generate_uuid4 0 = "00000000-0000-0000-8000-000000000000".
Proof.
  rewrite (X8_generate_uuid4_layout 0) by (split; [lia|reflexivity]).
  reflexivity.
Defined.

Lemma generate_session_id_suffix custom_name ts r :
  exists label,
    _generate_session_id custom_name ts r
    = label ++ "_" ++ PyStr.of_int ts ++ "_" ++ PyStr.hex_pad 8 (r / 2 ^ 96)
    /\ label = match custom_name with
               | Some (String c n) => String c n
               | _ => "session"
               end.
Proof.
  assert (Hu : PyStr.take 8 (generate_uuid4 r) = PyStr.hex_pad 8 (r / 2 ^ 96)).
  { rewrite generate_uuid4_groups. apply str_take_app_exact.
    apply str_length_hex_pad. }
  unfold _generate_session_id. rewrite Hu.
  destruct custom_name as [[|c n]|].
  - exists "session". split; reflexivity.
  - exists (String c n). split; reflexivity.
  - exists "session". split; reflexivity.
Qed.

(** X9.  Two session ids generated for the same name are equal exactly when
    they were generated in the same second and the two random values agree
    on their 32 most significant bits: the other 96 random bits play no
    part in the id. *)
Theorem X9_session_ids_collide_iff (custom_name : option string)
  (t1 t2 r1 r2 : Z) :
  0 <= r1 < 2 ^ 128 -> 0 <= r2 < 2 ^ 128 ->
  _generate_session_id custom_name t1 r1 = _generate_session_id custom_name t2 r2
  <-> t1 = t2 /\ r1 / 2 ^ 96 = r2 / 2 ^ 96.
Proof.
  intros H1 H2.
  destruct (generate_session_id_suffix custom_name t1 r1) as (l1 & E1 & L1).
  destruct (generate_session_id_suffix custom_name t2 r2) as (l2 & E2 & L2).
  rewrite E1, E2. subst l1 l2.
  set (label := match custom_name with
                | Some (String c n) => String c n
                | _ => "session"
                end).
  split.
  - intros H. apply str_app_inv_head in H.
    remember (PyStr.hex_pad 8 (r1 / 2 ^ 96)) as h1 eqn:Eh1.
    remember (PyStr.hex_pad 8 (r2 / 2 ^ 96)) as h2 eqn:Eh2.
    assert (Hl : String.length h1 = String.length h2)
      by (subst h1 h2; now rewrite !str_length_hex_pad).
    rewrite ?str_app_cons, ?str_app_nil_l in H. injection H as H.
    apply str_app_inv_tail in H as [Ht Hh]; [|simpl; now rewrite Hl].
    injection Hh as Hh. subst h1 h2.
    apply of_int_inj in Ht. split; [exact Ht|].
    apply hex_pad_inj in Hh. change (16 ^ Z.of_nat 8) with (2 ^ 32) in Hh.
    assert (B : forall r, 0 <= r < 2 ^ 128 -> 0 <= r / 2 ^ 96 < 2 ^ 32).
    { intros r Hr. split; [apply Z.div_pos; lia|].
      apply Z.div_lt_upper_bound; [lia|].
      change (2 ^ 96 * 2 ^ 32) with (2 ^ 128). lia. }
    rewrite !Z.mod_small in Hh by (apply B; assumption). exact Hh.
  - intros [-> ->]. reflexivity.
Qed.

Lemma X9_witness :
  _generate_session_id None 1700000000 0
  = _generate_session_id None 1700000000 (2 ^ 96 - 1).
Proof.
  apply (X9_session_ids_collide_iff None 1700000000 1700000000 0 (2 ^ 96 - 1)).
  - split; [lia|reflexivity].
  - split; [apply Z.leb_le; reflexivity|reflexivity].
  - split; reflexivity.
Defined.

(** ** Targets given as a dictionary *)

(** X10.  A dictionary target is resolved from its entries alone and never
    through the session stores: the result is the ['udid'] entry when the
    key is present, the ['device_udid'] entry only when ['udid'] is absent,
    and a [ValueError] when the entry chosen is empty or missing.  An
    empty ['udid'] entry therefore hides a usable ['device_udid'], and a
    value shaped like a session id is returned as it is. *)
Theorem X10_dict_target_precedence (d : list (string * string))
  (e : init_env) (u : utilities) (p : process) :
  (exists r, _resolve_target (Target_dict d) e u p = (r, u, p)
             /\ (forall x, r = Ok x
                           <-> x <> ""
                               /\ (OD.get "udid" d = Some x
                                   \/ (OD.get "udid" d = None
                                       /\ OD.get "device_udid" d = Some x)))
             /\ (r = Raise (ValueError "No UDID found in target dict")
                 <-> OD.get "udid" d = Some ""
                     \/ (OD.get "udid" d = None
                         /\ (OD.get "device_udid" d = Some ""
                             \/ OD.get "device_udid" d = None)))).
Proof.
  unfold _resolve_target.
  destruct (OD.get "udid" d) as [x|] eqn:Eu;
    [|destruct (OD.get "device_udid" d) as [x|] eqn:Ed]; simpl;
    try (destruct (String.eqb x "") eqn:Ex;
         [apply String.eqb_eq in Ex; subst x
         |apply String.eqb_neq in Ex]);
    eexists; (split; [reflexivity|]); split;
    try (intros y; split; [intros [= <-]|intros [Hy [H|[H1 H2]]]]);
    try (split; [intros H|intros [H|[H1 [H2|H2]]]]);
    try tauto; try congruence; try discriminate; auto.
Qed.

(** ** Finding a device for a session *)

Lemma filter_andb {A} (f g : A -> bool) (l : list A) :
  List.filter g (List.filter f l) = List.filter (fun x => f x && g x) l.
Proof.
  induction l as [|x l IH]; simpl; auto.
  destruct (f x); simpl; [destruct (g x)|]; now rewrite IH.
Qed.

Lemma filter_true {A} (l : list A) : List.filter (fun _ => true) l = l.
Proof. induction l as [|x l IH]; simpl; congruence. Qed.

Lemma candidates_meet_criteria (config : SessionConfig.t)
  (all_devices : list DeviceInfo.t) :
  (let candidates := all_devices in
   let candidates :=
     match truthy_str (SessionConfig.device_name config) with
     | Some device_name =>
         List.filter (fun d => String.eqb (DeviceInfo.name d) device_name)
                     candidates
     | None => candidates
     end in
   let candidates :=
     match SessionConfig.device_type config with
     | Some device_type =>
         List.filter
           (fun d => DeviceType_eqb (DeviceInfo.device_type d) device_type)
           candidates
     | None => candidates
     end in
   match truthy_str (SessionConfig.platform_version config) with
   | Some platform_version =>
       List.filter
         (fun d => PyStr.contains platform_version (DeviceInfo.os_version d))
         candidates
   | None => candidates
   end)
  = List.filter (meets_criteria config) all_devices.
Proof.
  cbv zeta. unfold meets_criteria.
  destruct (truthy_str (SessionConfig.device_name config));
    destruct (SessionConfig.device_type config);
    destruct (truthy_str (SessionConfig.platform_version config));
    rewrite ?filter_andb;
    first [ apply filter_ext
          | etransitivity; [symmetry; apply filter_true|apply filter_ext] ];
    intros dev; cbn; rewrite ?andb_true_r, ?andb_assoc; reflexivity.
Qed.

Lemma find_by_criteria_unfold (dm : DeviceManager.t) (config : SessionConfig.t) :
  truthy_str (SessionConfig.device_udid config) = None ->
  _find_or_prepare_device dm config
  = match List.filter (meets_criteria config)
            (DeviceManager.discover_all_devices dm) with
    | [] =>
        (Raise (DeviceNotFoundError "No devices match the specified criteria"),
         [])
    | first :: _ =>
        match (if SessionConfig.prefer_available config
               then List.filter
                      (fun d => state_in_booted_connected (DeviceInfo.state d))
                      (List.filter (meets_criteria config)
                         (DeviceManager.discover_all_devices dm))
               else []) with
        | available_0 :: _ => (Ok available_0, [])
        | [] =>
            if negb (DeviceManager.is_device_available dm (DeviceInfo.udid first))
            then
              if DeviceType_eqb (DeviceInfo.device_type first) SIMULATOR
                 && SessionConfig.autoboot config
              then
                match DeviceManager.boot_device dm (DeviceInfo.udid first) with
                | Some e => (Raise e, [Boot (DeviceInfo.udid first)])
                | None => (Ok first, [Boot (DeviceInfo.udid first)])
                end
              else if DeviceType_eqb (DeviceInfo.device_type first) REAL_DEVICE
              then (Raise (DeviceNotAvailableError
                             ("Real device not connected: "
                              ++ DeviceInfo.name first)), [])
              else (Raise (DeviceNotAvailableError
                             ("Device not available: "
                              ++ DeviceInfo.name first)), [])
            else (Ok first, [])
        end
    end.
Proof.
  intros Hu. unfold _find_or_prepare_device. rewrite Hu. cbv zeta.
  pose proof (candidates_meet_criteria config
                (DeviceManager.discover_all_devices dm)) as Hc.
  cbv zeta in Hc. rewrite Hc. reflexivity.
Qed.

(** X11.  When no UDID is configured, [_find_or_prepare_device] raises
    "No devices match the specified criteria", calling nothing, when no
    discovered device passes the configured name, type and
    platform-version criteria; a device it returns is a discovered device passing all of them, and,
    with [prefer_available] set and some passing device booted or
    connected, it is a booted or connected one, obtained without booting
    or waiting for anything. *)
Theorem X11_device_found_by_criteria (dm : DeviceManager.t)
  (config : SessionConfig.t) :
  truthy_str (SessionConfig.device_udid config) = None ->
  ((forall d, In d (DeviceManager.discover_all_devices dm) ->
              meets_criteria config d = false) ->
   _find_or_prepare_device dm config
   = (Raise (DeviceNotFoundError "No devices match the specified criteria"),
      []))
  /\ (forall d,
         fst (_find_or_prepare_device dm config) = Ok d ->
         In d (DeviceManager.discover_all_devices dm)
         /\ meets_criteria config d = true
         /\ (SessionConfig.prefer_available config = true ->
             (exists d', In d' (DeviceManager.discover_all_devices dm)
                         /\ meets_criteria config d' = true
                         /\ state_in_booted_connected (DeviceInfo.state d')
                            = true) ->
             state_in_booted_connected (DeviceInfo.state d) = true
             /\ snd (_find_or_prepare_device dm config) = [])).
Proof.
  intros Hu. rewrite (find_by_criteria_unfold dm config Hu).
  set (all := DeviceManager.discover_all_devices dm).
  set (cands := List.filter (meets_criteria config) all).
  assert (Hcand : forall d, In d cands <-> In d all /\ meets_criteria config d = true)
    by (intros d; apply filter_In).
  destruct cands as [|first rest] eqn:Ec.
  - split; [reflexivity|]. intros d H. discriminate.
  - assert (Hfirst : In first all /\ meets_criteria config first = true)
      by (apply Hcand; now left).
    set (avail := List.filter
                    (fun d => state_in_booted_connected (DeviceInfo.state d))
                    (first :: rest)).
    assert (Havail : forall d, In d avail
                               <-> In d (first :: rest)
                                   /\ state_in_booted_connected (DeviceInfo.state d)
                                      = true)
      by (intros d; apply filter_In).
    split.
    + intros H. exfalso. destruct Hfirst as [Hin Hm].
      rewrite (H first Hin) in Hm. discriminate.
    + intros d Hd.
      destruct (SessionConfig.prefer_available config) eqn:Ep.
      * destruct avail as [|a0 arest] eqn:Ea.
        -- assert (Hd' : d = first).
           { destruct (negb _); [|now injection Hd as <-].
             destruct (_ && _).
             - destruct (DeviceManager.boot_device dm _); [discriminate|].
               now injection Hd as <-.
             - destruct (DeviceType_eqb _ REAL_DEVICE); discriminate. }
           subst d. split; [tauto|]. split; [tauto|].
           intros _ (d' & Hin' & Hm' & Hs'). exfalso.
           assert (Hx : In d' []) by (apply Havail; split; [|exact Hs'];
                                      apply Hcand; now split).
           destruct Hx.
        -- simpl in Hd. injection Hd as <-.
           assert (Ha : In a0 (a0 :: arest)) by now left.
           apply Havail in Ha as [Hin Hs]. apply Hcand in Hin as [Hin Hm].
           repeat split; auto.
      * assert (Hd' : d = first).
        { destruct (negb _); [|now injection Hd as <-].
          destruct (_ && _).
          - destruct (DeviceManager.boot_device dm _); [discriminate|].
            now injection Hd as <-.
          - destruct (DeviceType_eqb _ REAL_DEVICE); discriminate. }
        subst d. split; [tauto|]. split; [tauto|]. discriminate.
Qed.

(** X12.  [_find_or_prepare_device] makes at most one call that acts on a
    device.  It boots a device only when [autoboot] is set, the device is a
    simulator and the device manager reported it unavailable; the result is
    then that device, or the exception [boot_device] raised.  It waits only
    for a real device addressed by UDID with [wait_for_connection] set, for
    30 seconds, and fails with "Device not available" when the wait fails.
    A real device is never booted, and a device selected by criteria is
    never waited for. *)
Theorem X12_boot_and_wait_discipline (dm : DeviceManager.t)
  (config : SessionConfig.t) :
  (length (snd (_find_or_prepare_device dm config)) <= 1)%nat
  /\ (forall u,
         In (Boot u) (snd (_find_or_prepare_device dm config)) ->
         SessionConfig.autoboot config = true
         /\ DeviceManager.is_device_available dm u = false
         /\ exists d,
             DeviceInfo.udid d = u
             /\ DeviceInfo.device_type d = SIMULATOR
             /\ fst (_find_or_prepare_device dm config)
                = match DeviceManager.boot_device dm u with
                  | Some e => Raise e
                  | None => Ok d
                  end)
  /\ (forall u t,
         In (Wait u t) (snd (_find_or_prepare_device dm config)) ->
         t = 30
         /\ SessionConfig.wait_for_connection config = true
         /\ DeviceManager.is_device_available dm u = false
         /\ exists device_udid d,
             truthy_str (SessionConfig.device_udid config) = Some device_udid
             /\ DeviceManager.get_device dm device_udid = Some d
             /\ DeviceInfo.udid d = u
             /\ DeviceInfo.device_type d = REAL_DEVICE
             /\ fst (_find_or_prepare_device dm config)
                = if DeviceManager.wait_for_device dm u 30
                  then Ok d
                  else Raise (DeviceNotAvailableError
                                ("Device not available: " ++ DeviceInfo.name d))).
Proof.
  destruct (truthy_str (SessionConfig.device_udid config)) as [device_udid|]
    eqn:Hu.
  - unfold _find_or_prepare_device. rewrite Hu.
    destruct (DeviceManager.get_device dm device_udid) as [d|] eqn:Hg;
      [|simpl; repeat split; try lia; intros; contradiction].
    destruct (DeviceManager.is_device_available dm (DeviceInfo.udid d)) eqn:Ha;
      [simpl; repeat split; try lia; intros; contradiction|].
    cbn [negb].
    destruct (DeviceInfo.device_type d) eqn:Ht; cbn [DeviceType_eqb andb].
    + destruct (SessionConfig.autoboot config) eqn:Hb.
      * destruct (DeviceManager.boot_device dm (DeviceInfo.udid d)) eqn:Hboot;
          simpl; (split; [lia|]); (split; [|intros u t [H|[]]; discriminate]);
          intros u [[= <-]|[]]; repeat split; auto;
          exists d; rewrite Hboot; auto.
      * simpl; repeat split; try lia; intros; contradiction.
    + destruct (SessionConfig.wait_for_connection config) eqn:Hw.
      * destruct (DeviceManager.wait_for_device dm (DeviceInfo.udid d) 30)
          eqn:Hwait; simpl; (split; [lia|]);
          (split; [intros u [H|[]]; discriminate|]);
          intros u t [[= <- <-]|[]]; repeat split; auto;
          exists device_udid, d; rewrite Hwait; auto.
      * simpl; repeat split; try lia; intros; contradiction.
  - rewrite (find_by_criteria_unfold dm config Hu).
    destruct (List.filter (meets_criteria config)
                (DeviceManager.discover_all_devices dm)) as [|first rest];
      [simpl; repeat split; try lia; intros; contradiction|].
    destruct (if SessionConfig.prefer_available config
              then List.filter
                     (fun d => state_in_booted_connected (DeviceInfo.state d))
                     (first :: rest)
              else []) as [|a0 arest];
      [|simpl; repeat split; try lia; intros; contradiction].
    destruct (DeviceManager.is_device_available dm (DeviceInfo.udid first))
      eqn:Ha; [simpl; repeat split; try lia; intros; contradiction|].
    cbn [negb].
    destruct (DeviceInfo.device_type first) eqn:Ht; cbn [DeviceType_eqb andb].
    + destruct (SessionConfig.autoboot config) eqn:Hb.
      * destruct (DeviceManager.boot_device dm (DeviceInfo.udid first))
          eqn:Hboot;
          simpl; (split; [lia|]); (split; [|intros u t [H|[]]; discriminate]);
          intros u [[= <-]|[]]; repeat split; auto;
          exists first; rewrite Hboot; auto.
      * simpl; repeat split; try lia; intros; contradiction.
    + simpl; repeat split; try lia; intros; contradiction.
Qed.

(** X13.  A configured UDID overrides every other selection criterion:
    the device manager is asked for that UDID only, an unknown UDID raises
    "Device not found: <udid>" without any other call, and a device
    returned is the one the device manager gave for that UDID, whatever the
    configured name, type, platform version and [prefer_available]. *)
Theorem X13_udid_overrides_criteria (dm : DeviceManager.t)
  (config : SessionConfig.t) (device_udid : string) :
  truthy_str (SessionConfig.device_udid config) = Some device_udid ->
  (forall device_name platform_version device_type prefer_available
          session_name metadata,
      _find_or_prepare_device dm config
      = _find_or_prepare_device dm
          (SessionConfig.mk device_name (Some device_udid) platform_version
             device_type (SessionConfig.autoboot config)
             (SessionConfig.wait_for_connection config) prefer_available
             session_name metadata))
  /\ (DeviceManager.get_device dm device_udid = None ->
      _find_or_prepare_device dm config
      = (Raise (DeviceNotFoundError ("Device not found: " ++ device_udid)), []))
  /\ (forall d, fst (_find_or_prepare_device dm config) = Ok d ->
                DeviceManager.get_device dm device_udid = Some d).
Proof.
  intros Hu.
  assert (Hu' : truthy_str (Some device_udid) = Some device_udid).
  { destruct (SessionConfig.device_udid config) as [[|c s]|];
      simpl in Hu; try discriminate. now injection Hu as <-. }
  split; [|split].
  - intros. unfold _find_or_prepare_device.
    cbn [SessionConfig.device_udid SessionConfig.autoboot
         SessionConfig.wait_for_connection].
    rewrite Hu, Hu'. reflexivity.
  - intros Hg. unfold _find_or_prepare_device. now rewrite Hu, Hg.
  - intros d. unfold _find_or_prepare_device. rewrite Hu.
    destruct (DeviceManager.get_device dm device_udid) as [d0|];
      [|discriminate].
    destruct (negb _); [|now intros [= <-]].
    destruct (_ && _).
    + destruct (DeviceManager.boot_device dm _); [discriminate|].
      now intros [= <-].
    + destruct (_ && _); [|discriminate].
      destruct (negb _); [discriminate|]. now intros [= <-].
Qed.

Lemma X11_witness :
  In Demo.device_a (DeviceManager.discover_all_devices DemoDevices.dm)
  /\ meets_criteria SessionConfig.default Demo.device_a = true
  /\ state_in_booted_connected (DeviceInfo.state Demo.device_a) = true
  /\ snd (_find_or_prepare_device DemoDevices.dm SessionConfig.default) = [].
Proof.
  destruct (X11_device_found_by_criteria DemoDevices.dm SessionConfig.default
              eq_refl) as [_ H].
  destruct (H Demo.device_a eq_refl) as (H1 & H2 & H3).
  split; [exact H1|]. split; [exact H2|].
  apply H3; [reflexivity|].
  exists Demo.device_a. split; [exact H1|]. split; reflexivity.
Defined.

Lemma X13_witness :
  DeviceManager.get_device DemoDevices.dm "UDID-S" = Some DemoDevices.shut_sim.
Proof.
  apply (proj2 (proj2 (X13_udid_overrides_criteria DemoDevices.dm
                         DemoDevices.by_udid "UDID-S" eq_refl))).
  reflexivity.
Defined.

(** ** URL validation *)

Lemma Re_match_empty (s : string) : Re.match_ Re.Empty s = false.
Proof. induction s as [|x s IH]; simpl; auto. Qed.

Lemma Re_match_app (p : string) :
  forall r s,
    Re.match_ r (p ++ s)
    = Re.nullable_before r p || Re.match_ (Re.derivs r p) s.
Proof.
  induction p as [|x p IH]; intros r s.
  - reflexivity.
  - rewrite str_app_cons. cbn [Re.match_ Re.nullable_before Re.derivs].
    rewrite IH. now rewrite orb_assoc.
Qed.

Lemma invalid_by_prefix (p : string) :
  (forall pattern, In pattern url_patterns ->
                   Re.nullable_before pattern p = false
                   /\ Re.derivs pattern p = Re.Empty) ->
  forall rest, _is_valid_url (p ++ rest) = false.
Proof.
  intros H rest. unfold _is_valid_url.
  destruct (existsb _ url_patterns) eqn:E; [|reflexivity].
  apply existsb_exists in E as (pattern & Hin & Hm).
  rewrite Re_match_app in Hm. destruct (H pattern Hin) as [H1 H2].
  rewrite H1, H2, Re_match_empty in Hm. discriminate.
Qed.

Lemma valid_by_prefix (p : string) :
  (exists pattern, In pattern url_patterns
                   /\ (Re.nullable_before pattern p
                       || Re.nullable (Re.derivs pattern p)) = true) ->
  forall rest, _is_valid_url (p ++ rest) = true.
Proof.
  intros (pattern & Hin & H) rest. unfold _is_valid_url.
  apply existsb_exists. exists pattern. split; [exact Hin|].
  rewrite Re_match_app.
  destruct (Re.nullable_before pattern p); [reflexivity|]. simpl in *.
  destruct rest; simpl; now rewrite H.
Qed.

Lemma prefs_root_invalid (rest : string) :
  _is_valid_url ("prefs:root=" ++ rest) = false.
Proof.
  apply invalid_by_prefix. unfold url_patterns.
  intros pattern [<-|[<-|[<-|[<-|[<-|[]]]]]]; split; vm_compute; reflexivity.
Qed.

Lemma chr_matches_slash (x : ascii) :
  Re.chr_matches "/" x = Ascii.eqb x "/".
Proof. destruct x as [[] [] [] [] [] [] [] []]; reflexivity. Qed.

Lemma match_two_slashes (s : string) :
  Re.match_ (Re.lit "//") s = PyStr.startswith "//" s.
Proof.
  unfold PyStr.startswith.
  destruct s as [|x s]; [reflexivity|].
  cbn [Re.lit Re.match_ Re.nullable Re.deriv andb orb].
  rewrite chr_matches_slash.
  cbn [String.prefix].
  destruct (Ascii.eqb_spec x "/") as [->|Hx].
  - destruct (ascii_dec "/" "/") as [_|Hne]; [|congruence].
    cbn [Re.seq Re.alt Re.nullable andb orb].
    destruct s as [|y s]; [reflexivity|].
    cbn [Re.match_ Re.nullable Re.deriv andb orb].
    rewrite chr_matches_slash. cbn [String.prefix].
    destruct (Ascii.eqb_spec y "/") as [->|Hy].
    + destruct (ascii_dec "/" "/") as [_|Hne]; [|congruence].
      cbn [Re.seq Re.alt Re.nullable andb orb].
      destruct s; reflexivity.
    + destruct (ascii_dec "/" y) as [Heq|_]; [congruence|].
      cbn [Re.seq Re.alt]. apply Re_match_empty.
  - destruct (ascii_dec "/" x) as [Heq|_]; [congruence|].
    cbn [Re.seq Re.alt]. apply Re_match_empty.
Qed.

Lemma app_settings_valid (bundle_id : string) :
  _is_valid_url ("app-settings:" ++ bundle_id) = PyStr.startswith "//" bundle_id.
Proof.
  unfold _is_valid_url, url_patterns. cbn [existsb].
  rewrite !Re_match_app.
  change (Re.nullable_before
            (Re.Seq (Re.lit "http")
               (Re.Seq (Re.Opt (Re.Chr "s"))
                  (Re.Seq (Re.lit "://") (Re.Star (Re.Cls Re.dot)))))
            "app-settings:") with false.
  change (Re.derivs
            (Re.Seq (Re.lit "http")
               (Re.Seq (Re.Opt (Re.Chr "s"))
                  (Re.Seq (Re.lit "://") (Re.Star (Re.Cls Re.dot)))))
            "app-settings:") with Re.Empty.
  change (Re.nullable_before
            (Re.Seq (Re.lit "mailto:") (Re.Star (Re.Cls Re.dot)))
            "app-settings:") with false.
  change (Re.derivs (Re.Seq (Re.lit "mailto:") (Re.Star (Re.Cls Re.dot)))
                    "app-settings:") with Re.Empty.
  change (Re.nullable_before
            (Re.Seq (Re.lit "tel:") (Re.Star (Re.Cls Re.dot)))
            "app-settings:") with false.
  change (Re.derivs (Re.Seq (Re.lit "tel:") (Re.Star (Re.Cls Re.dot)))
                    "app-settings:") with Re.Empty.
  change (Re.nullable_before
            (Re.Seq (Re.lit "sms:") (Re.Star (Re.Cls Re.dot)))
            "app-settings:") with false.
  change (Re.derivs (Re.Seq (Re.lit "sms:") (Re.Star (Re.Cls Re.dot)))
                    "app-settings:") with Re.Empty.
  match goal with
  | |- context [Re.nullable_before ?r "app-settings:"] =>
      change (Re.nullable_before r "app-settings:") with false;
      change (Re.derivs r "app-settings:") with (Re.lit "//")
  end.
  rewrite !Re_match_empty, match_two_slashes. cbn [orb].
  now rewrite orb_false_r.
Qed.

Lemma http_valid (rest : string) : _is_valid_url ("http://" ++ rest) = true.
Proof.
  apply valid_by_prefix.
  eexists. split; [left; reflexivity|]. vm_compute. reflexivity.
Qed.

(** ** Opening URLs *)

Lemma open_url_invalid (env : utilities_env) (t : target) (url : string)
  (e : init_env) (u : utilities) (p : process) :
  _is_valid_url url = false ->
  exists err,
    fst (fst (open_url env t url e u p)) = Raised err
    /\ (forall udid u1 p1,
           _resolve_target t e u p = (Ok udid, u1, p1) ->
           DeviceManager.is_device_available (device_manager env) udid = true ->
           open_url env t url e u p
           = (Raised (ValueError ("Invalid URL: " ++ url)), u1, p1)).
Proof.
  intros Hurl. unfold open_url.
  destruct (_resolve_target t e u p) as [[[udid|err] u1] p1].
  - destruct (DeviceManager.is_device_available (device_manager env) udid)
      eqn:Ha; cbn [negb].
    + rewrite Hurl. cbn [negb]. eexists. split; [reflexivity|].
      intros ? ? ? [= <- <- <-] _. reflexivity.
    + eexists. split; [reflexivity|].
      intros ? ? ? [= <- <- <-] H. congruence.
  - eexists. split; [reflexivity|]. intros ? ? ? H. discriminate.
Qed.

Lemma deep_link_schemes (scheme_name : string) (scheme : URLScheme.t) :
  OD.get scheme_name url_schemes = Some scheme ->
  (10 <= String.length scheme_name)%nat ->
  exists rest, URLScheme.scheme scheme ++ "://" = "prefs:root=" ++ rest.
Proof.
  unfold url_schemes. cbn [OD.get].
  repeat match goal with
         | |- context [String.eqb ?k scheme_name] =>
             destruct (String.eqb_spec k scheme_name) as [<-|_];
             [intros [= <-] Hlen;
              first [ simpl in Hlen; lia
                    | eexists; cbn [URLScheme.scheme];
                      rewrite ?str_app_cons, ?str_app_nil_l; reflexivity ]|]
         end.
  discriminate.
Qed.

(** X14.  [open_settings] with a page never opens anything: whatever the
    page, the target and the environment, it raises, and once the target
    has resolved to an available device it raises
    [ValueError("Invalid URL: prefs:root=...")], because no URL that starts
    with [prefs:root=] passes [_is_valid_url]; this holds for the four
    settings pages of the scheme table as for any other page. *)
Theorem X14_open_settings_page_never_opens (env : utilities_env) (t : target)
  (page : string) (e : init_env) (u : utilities) (p : process) :
  page <> "" ->
  exists err,
    fst (fst (open_settings env t (Some page) e u p)) = Raised err
    /\ (forall udid u1 p1,
           _resolve_target t e u p = (Ok udid, u1, p1) ->
           DeviceManager.is_device_available (device_manager env) udid = true ->
           exists rest,
             open_settings env t (Some page) e u p
             = (Raised (ValueError ("Invalid URL: prefs:root=" ++ rest)), u1, p1)).
Proof.
  intros Hpage. unfold open_settings.
  assert (Ht : truthy_str (Some page) = Some page)
    by (destruct page; [congruence|reflexivity]).
  rewrite Ht.
  assert (Hopen : forall rest,
             exists err,
               fst (fst (open_url env t ("prefs:root=" ++ rest) e u p))
               = Raised err
               /\ (forall udid u1 p1,
                      _resolve_target t e u p = (Ok udid, u1, p1) ->
                      DeviceManager.is_device_available (device_manager env) udid
                      = true ->
                      exists rest',
                        open_url env t ("prefs:root=" ++ rest) e u p
                        = (Raised (ValueError ("Invalid URL: prefs:root="
                                               ++ rest')), u1, p1))).
  { intros rest.
    destruct (open_url_invalid env t ("prefs:root=" ++ rest) e u p
                (prefs_root_invalid rest)) as (err & H1 & H2).
    exists err. split; [exact H1|]. intros udid u1 p1 Hr Ha.
    exists rest. rewrite (H2 udid u1 p1 Hr Ha).
    now rewrite <- str_app_assoc. }
  unfold OD.mem.
  destruct (OD.get (page ++ "-settings") url_schemes) as [scheme|] eqn:Hget.
  - unfold open_scheme. rewrite Hget.
    destruct (deep_link_schemes _ _ Hget) as (rest & Hrest).
    { rewrite str_length_app. destruct page; [congruence|simpl; lia]. }
    rewrite Hrest. apply Hopen.
  - apply Hopen.
Qed.

Lemma X14_witness :
  exists rest,
    open_settings demo_utilities_env (Target_str "UDID-A") (Some "wifi")
                  Demo.env_init new_utilities Demo.process0
    = (Raised (ValueError ("Invalid URL: prefs:root=" ++ rest)),
       new_utilities, Demo.process0).
Proof.
  destruct (X14_open_settings_page_never_opens demo_utilities_env
              (Target_str "UDID-A") "wifi" Demo.env_init new_utilities
              Demo.process0) as (err & _ & H).
  - discriminate.
  - apply (H "UDID-A"); reflexivity.
Defined.

(** X15.  The URL [open_app_settings] builds, [app-settings:<bundle id>],
    passes [_is_valid_url] exactly when the bundle id starts with [//]; for
    any other bundle id [open_app_settings] opens nothing and, once the
    target has resolved to an available device, raises
    [ValueError("Invalid URL: app-settings:<bundle id>")]. *)
Theorem X15_open_app_settings_rejected (env : utilities_env) (t : target)
  (bundle_id : string) (e : init_env) (u : utilities) (p : process) :
  _is_valid_url ("app-settings:" ++ bundle_id) = PyStr.startswith "//" bundle_id
  /\ (PyStr.startswith "//" bundle_id = false ->
      exists err,
        fst (fst (open_app_settings env t bundle_id e u p)) = Raised err
        /\ (forall udid u1 p1,
               _resolve_target t e u p = (Ok udid, u1, p1) ->
               DeviceManager.is_device_available (device_manager env) udid
               = true ->
               open_app_settings env t bundle_id e u p
               = (Raised (ValueError ("Invalid URL: app-settings:" ++ bundle_id)),
                  u1, p1))).
Proof.
  split; [apply app_settings_valid|]. intros Hb. unfold open_app_settings.
  destruct (open_url_invalid env t ("app-settings:" ++ bundle_id) e u p)
    as (err & H1 & H2).
  { now rewrite app_settings_valid. }
  exists err. split; [exact H1|]. intros udid u1 p1 Hr Ha.
  rewrite (H2 udid u1 p1 Hr Ha). now rewrite <- str_app_assoc.
Qed.

(** X16.  [open_scheme] runs a command only for the ten system-app entries
    of the scheme table: an unknown name raises [ValueError("Unknown
    scheme: ...")] leaving everything as it is, and the four deep-link
    entries ([wifi-settings], [bluetooth-settings], [privacy-settings],
    [notifications-settings]) always raise. *)
Theorem X16_open_scheme_opens_system_apps_only (env : utilities_env)
  (t : target) (scheme_name : string) (e : init_env) (u : utilities)
  (p : process) :
  (forall commands,
      fst (fst (open_scheme env t scheme_name e u p)) = Done commands ->
      In scheme_name ["settings"; "app-store"; "maps"; "mail"; "messages";
                      "facetime"; "calendar"; "photos"; "music"; "safari"])
  /\ (OD.get scheme_name url_schemes = None ->
      exists msg,
        open_scheme env t scheme_name e u p = (Raised (ValueError msg), u, p)
        /\ PyStr.startswith ("Unknown scheme: " ++ scheme_name) msg = true)
  /\ (In scheme_name ["wifi-settings"; "bluetooth-settings"; "privacy-settings";
                      "notifications-settings"] ->
      exists err, fst (fst (open_scheme env t scheme_name e u p)) = Raised err).
Proof.
  split; [|split].
  - intros commands. unfold open_scheme.
    destruct (OD.get scheme_name url_schemes) as [scheme|] eqn:Hget;
      [|discriminate].
    revert Hget. unfold url_schemes. cbn [OD.get].
    repeat match goal with
           | |- context [String.eqb ?k scheme_name] =>
               destruct (String.eqb_spec k scheme_name) as [<-|_];
               [intros [= <-] H;
                first [ simpl; tauto
                      | exfalso;
                        cbn [URLScheme.scheme] in H;
                        match type of H with
                        | context [open_url _ _ ?url _ _ _] =>
                            destruct (open_url_invalid env t url e u p)
                              as (err & He & _);
                            [vm_compute; reflexivity
                            |rewrite He in H; discriminate]
                        end ]|]
           end.
    discriminate.
  - intros Hget. unfold open_scheme. rewrite Hget. eexists.
    split; [reflexivity|]. unfold PyStr.startswith.
    rewrite <- str_app_assoc. apply str_prefix_app.
  - intros Hin. unfold open_scheme.
    simpl in Hin.
    destruct Hin as [<-|[<-|[<-|[<-|[]]]]];
      cbn [url_schemes OD.get String.eqb Ascii.eqb Bool.eqb URLScheme.scheme];
      match goal with
      | |- context [open_url _ _ ?url _ _ _] =>
          destruct (open_url_invalid env t url e u p) as (err & He & _);
          [vm_compute; reflexivity|exists err; exact He]
      end.
Qed.

Lemma X16_witness :
  In "maps" ["settings"; "app-store"; "maps"; "mail"; "messages";
             "facetime"; "calendar"; "photos"; "music"; "safari"].
Proof.
  apply (proj1 (X16_open_scheme_opens_system_apps_only demo_utilities_env
                  (Target_str "UDID-A") "maps" Demo.env_init new_utilities
                  Demo.process0)
           ["xcrun simctl openurl UDID-A 'maps://'"]).
  reflexivity.
Defined.

(** X17.  [_is_valid_url] accepts every string that starts with [http://],
    whatever follows, and [open_url] on an available simulator puts the URL
    between single quotes into the command line it hands to
    [run_command], unchanged: quotes and other shell syntax in the URL are
    neither rejected nor escaped. *)
Theorem X17_url_text_reaches_the_command_line (env : utilities_env)
  (udid text : string) (device : DeviceInfo.t) (e : init_env) (u : utilities)
  (p : process) :
  _looks_like_session_id udid = false ->
  DeviceManager.is_device_available (device_manager env) udid = true ->
  DeviceManager.get_device (device_manager env) udid = Some device ->
  DeviceInfo.device_type device = SIMULATOR ->
  run_command env ("xcrun simctl openurl " ++ udid ++ " 'http://" ++ text ++ "'")
  = None ->
  _is_valid_url ("http://" ++ text) = true
  /\ open_url env (Target_str udid) ("http://" ++ text) e u p
     = (Done ["xcrun simctl openurl " ++ udid ++ " 'http://" ++ text ++ "'"],
        u, p).
Proof.
  intros Hs Ha Hg Ht Hrun. split; [apply http_valid|].
  unfold open_url, _resolve_target. rewrite Hs, Ha, http_valid, Hg, Ht.
  cbn [negb DeviceType_eqb]. unfold _open_url_simulator, simctl_path.
  assert (Hcmd : "xcrun simctl" ++ " openurl " ++ udid ++ " '"
                 ++ ("http://" ++ text) ++ "'"
                 = "xcrun simctl openurl " ++ udid ++ " 'http://" ++ text ++ "'").
  { rewrite (str_app_assoc "http://" text "'").
    rewrite <- (str_app_assoc " '" "http://").
    rewrite <- (str_app_assoc "xcrun simctl" " openurl "). reflexivity. }
  rewrite Hcmd, Hrun. reflexivity.
Qed.

Lemma X17_witness :
  open_url demo_utilities_env (Target_str "UDID-A")
           ("http://" ++ "x'; touch /tmp/p; '") Demo.env_init new_utilities
           Demo.process0
  = (Done ["xcrun simctl openurl " ++ "UDID-A" ++ " 'http://"
           ++ "x'; touch /tmp/p; '" ++ "'"],
     new_utilities, Demo.process0).
Proof.
  apply (X17_url_text_reaches_the_command_line demo_utilities_env "UDID-A"
           "x'; touch /tmp/p; '" Demo.device_a Demo.env_init new_utilities
           Demo.process0); reflexivity.
Defined.

(** ** Creating and then terminating a session *)





(** ** What a resolution does to the disk *)

(** X19.  Resolving a string shaped like a session id that the configured
    store does not hold constructs a session manager on the default
    directory, and with it runs the startup cleanup (the clock being more
    than six hours into the year 1, so that the cutoffs are datetimes):
    whether the resolution then succeeds or raises, every [*.json] file of
    the default directory that is unparseable, lacks a usable
    [created_at], or is older than six hours has been deleted. *)
Theorem X19_resolution_cleans_the_default_directory (sid : string)
  (ie : init_env) (u : utilities) (p : process) (name : string)
  (content : file) :
  DT.sub_hours_in_range (now_cleanup ie) 6 = true ->
  DT.sub_hours_in_range (now_load ie) 6 = true ->
  _looks_like_session_id sid = true ->
  (forall a m, session_manager u = Some a -> managers p !! a = Some m ->
               OD.get sid (sessions m) = None) ->
  In (name, content) (FS.glob_json (fs (outside p)) default_session_dir) ->
  startup_keeps (DT.sub_hours (now_cleanup ie) 6) content = false ->
  FS.file_exists
    (fs (outside (snd (_resolve_target (Target_str sid) ie u p))))
    default_session_dir name = false.
Proof.
  intros _ _ Hs Hnone Hin Hk.
  rewrite resolve_fallback by assumption. unfold fallback_lookup.
  pose proof (init_removes_rejected None 10 6 ie (outside p) name content
                Hin Hk) as H.
  cbv zeta in H. simpl default in H. unfold init_default.
  destruct (init None 10 6 ie (outside p)) as [fm w'].
  destruct (OD.get sid (sessions fm)); exact H.
Qed.

Lemma X19_witness :
  FS.file_exists
    (fs (outside (snd (_resolve_target (Target_str "session_0000000000_ffffffff")
                         Demo.env_init new_utilities
                         (mk_process ∅
                            (Demo.world_with
                               [Demo.saved
                                  (Demo.session_of "session_1709949600_cccccccc"
                                     Demo.device_a Demo.t_stale)]))))))
    default_session_dir "session_1709949600_cccccccc.json" = false.
Proof.
  apply (X19_resolution_cleans_the_default_directory
           "session_0000000000_ffffffff" Demo.env_init new_utilities
           (mk_process ∅
              (Demo.world_with
                 [Demo.saved
                    (Demo.session_of "session_1709949600_cccccccc"
                       Demo.device_a Demo.t_stale)]))
           "session_1709949600_cccccccc.json"
           (Json (session_record
                    (Demo.session_of "session_1709949600_cccccccc"
                       Demo.device_a Demo.t_stale)))).
  - reflexivity.
  - reflexivity.
  - reflexivity.
  - intros a m H. discriminate.
  - vm_compute. left. reflexivity.
  - vm_compute. reflexivity.
Defined.

(** ** Statistics *)




(** ** The terminate tool *)



(** ** Enforcing the session limit *)

















